(** * PsychoPy buttonbox component and [core.getFromNames]

    A shallow embedding of
      - [psychopy/experiment/components/buttonbox/__init__.py]
        (class [ButtonboxComponent]: the four code-generation phases), and
      - [psychopy/core.py] (functions [getFromNames] and [shellCall]),
    followed by the properties of the specification that concern them.

    Python values are an inductive type, the [params] dictionary is a
    [gmap string Param], exceptions are the [Raise] case of a small error
    monad, and the mutable [self] / [buff] objects are passed explicitly. *)

From stdpp Require Import gmap strings list.
From Stdlib Require Import ZArith Ascii String Lia.

Local Open Scope Z_scope.

(* ===================================================================== *)
(** * Python strings *)
(* ===================================================================== *)

(** A Python [str] is held as the bytes of its UTF-8 encoding. The
    operations below that look for one character ([startswith],
    [endswith], [contains], [split], [count]) are used with ASCII
    characters, which are single bytes and occur in no longer encoding. *)

Module PyStr.

(** The newline character, written ["\n"] in the Python source. *)
Definition nl : string := String (ascii_of_nat 10) EmptyString.

(** The double quote character. *)
Definition dquote : ascii := ascii_of_nat 34.

(** [s[::-1]], used as an accumulator helper. *)
Fixpoint rev_append (s acc : string) : string :=
  match s with
  | EmptyString => acc
  | String c s' => rev_append s' (String c acc)
  end.

Definition rev (s : string) : string := rev_append s EmptyString.

(** [str.lower()] on the ASCII range; a character outside it is left as it
    is. The code compares the result with ['routine'], ['experiment'] and
    ['buttonbox onset'] only, and no text with a character outside the
    ASCII range lowers to one of these. *)
Definition lower_ascii (c : ascii) : ascii :=
  let n := nat_of_ascii c in
  if ((65 <=? n) && (n <=? 90))%nat then ascii_of_nat (n + 32) else c.

Fixpoint lower (s : string) : string :=
  match s with
  | EmptyString => EmptyString
  | String c s' => String (lower_ascii c) (lower s')
  end.

(** [s.startswith(c)] and [s.endswith(c)] for a one-character [c]. *)
Definition startswith (s : string) (c : ascii) : bool :=
  match s with
  | String d _ => bool_decide (d = c)
  | EmptyString => false
  end.

Fixpoint endswith (s : string) (c : ascii) : bool :=
  match s with
  | EmptyString => false
  | String d EmptyString => bool_decide (d = c)
  | String _ s' => endswith s' c
  end.

(** [c in s] for a one-character [c]. *)
Fixpoint contains (s : string) (c : ascii) : bool :=
  match s with
  | EmptyString => false
  | String d s' => bool_decide (d = c) || contains s' c
  end.

(** [s[:-1]]. *)
Fixpoint drop_last (s : string) : string :=
  match s with
  | EmptyString => EmptyString
  | String _ EmptyString => EmptyString
  | String c s' => String c (drop_last s')
  end.

(** [s[1:-1]]. *)
Definition slice_1_m1 (s : string) : string :=
  match s with
  | EmptyString => EmptyString
  | String _ s' => drop_last s'
  end.

(** [s.split(c)]: the pieces between the occurrences of [c]; always at
    least one piece. [cur] holds the current piece, reversed. *)
Fixpoint split_aux (c : ascii) (s cur : string) : list string :=
  match s with
  | EmptyString => [rev cur]
  | String d s' =>
      if bool_decide (d = c) then rev cur :: split_aux c s' EmptyString
      else split_aux c s' (String d cur)
  end.

Definition split (s : string) (c : ascii) : list string :=
  split_aux c s EmptyString.

(** [s.splitlines()] for text whose only line boundary is ["\n"]: a
    trailing newline does not open a last, empty line. *)
Fixpoint splitlines_aux (s cur : string) : list string :=
  match s with
  | EmptyString =>
      match cur with EmptyString => [] | _ => [rev cur] end
  | String d s' =>
      if bool_decide (d = ascii_of_nat 10)
      then rev cur :: splitlines_aux s' EmptyString
      else splitlines_aux s' (String d cur)
  end.

Definition splitlines (s : string) : list string :=
  splitlines_aux s EmptyString.

(** A string given by the numbers of its bytes. *)
Definition bytes (l : list nat) : string :=
  fold_right (fun n s => String (ascii_of_nat n) s) EmptyString l.

(** The whitespace characters of Python: those for which [str.isspace()]
    holds, which are the ones [str.strip()] removes. A [str] is held as the
    bytes of its UTF-8 encoding, and so is each of these characters:
    U+0009 to U+000D, U+001C to U+001F, U+0020, U+0085, U+00A0, U+1680,
    U+2000 to U+200A, U+2028, U+2029, U+202F, U+205F and U+3000. *)
Definition whitespace : list string :=
  map bytes
    [[9]; [10]; [11]; [12]; [13]; [28]; [29]; [30]; [31]; [32];
     [194; 133]; [194; 160]; [225; 154; 128];
     [226; 128; 128]; [226; 128; 129]; [226; 128; 130]; [226; 128; 131];
     [226; 128; 132]; [226; 128; 133]; [226; 128; 134]; [226; 128; 135];
     [226; 128; 136]; [226; 128; 137]; [226; 128; 138];
     [226; 128; 168]; [226; 128; 169]; [226; 128; 175];
     [226; 129; 159]; [227; 128; 128]]%nat.

(** [s] without the leading [tok], when [s] begins with [tok]. *)
Fixpoint prefix_rest (tok s : string) : option string :=
  match tok with
  | EmptyString => Some s
  | String c tok' =>
      match s with
      | EmptyString => None
      | String d s' => if bool_decide (c = d) then prefix_rest tok' s' else None
      end
  end.

(** [s] without its first character, when that is one of [chars]. *)
Fixpoint first_rest (chars : list string) (s : string) : option string :=
  match chars with
  | [] => None
  | ch :: chars' =>
      match prefix_rest ch s with
      | Some rest => Some rest
      | None => first_rest chars' s
      end
  end.

(** Takes leading characters of [chars] off [s], at most [fuel] of them. *)
Fixpoint lstrip_aux (chars : list string) (fuel : nat) (s : string) : string :=
  match fuel with
  | O => s
  | S fuel' =>
      match first_rest chars s with
      | Some rest => lstrip_aux chars fuel' rest
      | None => s
      end
  end.

(** [s.lstrip()]. A character is one byte at least, so there are no more
    leading characters than [s] has bytes. *)
Definition lstrip (s : string) : string :=
  lstrip_aux whitespace (String.length s) s.

(** [s.rstrip()]: the same from the end, on the bytes in reverse. *)
Definition rstrip (s : string) : string :=
  rev (lstrip_aux (map rev whitespace) (String.length s) (rev s)).

(** [s.strip()]. *)
Definition strip (s : string) : string := rstrip (lstrip s).

(** [s * n] for a string [s]; empty when [n <= 0]. *)
Fixpoint repeat_nat (s : string) (n : nat) : string :=
  match n with
  | O => EmptyString
  | S n' => s +:+ repeat_nat s n'
  end.

Definition repeat (s : string) (n : Z) : string :=
  repeat_nat s (Z.to_nat n).

(** [len(s)] counted in occurrences of the character [c]. *)
Fixpoint count (s : string) (c : ascii) : nat :=
  match s with
  | EmptyString => O
  | String d s' => ((if bool_decide (d = c) then 1 else 0) + count s' c)%nat
  end.

End PyStr.

Abbreviation nl := PyStr.nl.

(* ===================================================================== *)
(** * Python values, exceptions and the error monad *)
(* ===================================================================== *)

(** The values a parameter or a constructor argument can hold. *)
Inductive Val : Type :=
| VNone
| VBool (b : bool)
| VNum (z : Z)
| VStr (s : string)
| VList (l : list string).

#[export] Instance Val_eq_dec : EqDecision Val.
Proof. solve_decision. Defined.

(** Python truthiness, [bool(v)]. *)
Definition truthy (v : Val) : bool :=
  match v with
  | VNone => false
  | VBool b => b
  | VNum z => negb (z =? 0)
  | VStr s => negb (bool_decide (s = EmptyString))
  | VList l => negb (bool_decide (l = []))
  end.

(** [v is True] and [v is False]: identity with the two singletons. *)
Definition is_True (v : Val) : bool := bool_decide (v = VBool true).
Definition is_False (v : Val) : bool := bool_decide (v = VBool false).

Inductive Exn : Type :=
| KeyError (key : string)
| AttributeError (attr : string)
| TypeError (msg : string)
| ConfigurationError (param : string) (v : Val).

Inductive result (A : Type) : Type :=
| Ok (a : A)
| Raise (e : Exn).

Arguments Ok {A} a.
Arguments Raise {A} e.

#[export] Instance result_ret : MRet result := @Ok.

#[export] Instance result_bind : MBind result :=
  fun A B f m => match m with Ok a => f a | Raise e => Raise e end.

(** [v.lower()]: only [str] has the method. *)
Definition val_lower (v : Val) : result string :=
  match v with
  | VStr s => Ok (PyStr.lower s)
  | _ => Raise (AttributeError "lower")
  end.

(* ===================================================================== *)
(** * Parameters *)
(* ===================================================================== *)

(** The fields of [Param] the component sets and reads. [hint] and
    [label] hold localized text only ("nothing functional") and are left
    out. [allowedVals = []] means that no set is declared. *)
Record Param : Type := mkParam {
  val : Val;
  valType : string;
  inputType : string;
  categ : string;
  allowedVals : list Val;
  updates : string;
  direct : bool
}.

(** Modelled from the spec: the constructor of class [Param]
    (psychopy.experiment.params), which is not under src/. The spec's data
    model gives a parameter the invariant "value must belong to
    allowed-values set when one is declared" and asks that a value outside
    the set be "a configuration error raised ... at
    configuration-assignment time". [pname] is only the name reported in
    the error. *)
Definition Param_init (pname : string) (v : Val)
    (valType inputType categ : string) (allowedVals : list Val)
    (updates : string) (direct : bool) : result Param :=
  if bool_decide (allowedVals = []) || bool_decide (v ∈ allowedVals)
  then Ok (mkParam v valType inputType categ allowedVals updates direct)
  else Raise (ConfigurationError pname v).

(** Modelled from the spec: assignment of a new value to a parameter by
    the host GUI ("mutated by the host GUI"), not under src/; validated
    like [Param_init]. *)
Definition Param_assign (pname : string) (v : Val) (p : Param) : result Param :=
  Param_init pname v (valType p) (inputType p) (categ p) (allowedVals p)
             (updates p) (direct p).

(* ===================================================================== *)
(** * The code buffer *)
(* ===================================================================== *)

(** One [write] to the buffer: the text and the indent level it was
    written at. *)
Record Chunk : Type := mkChunk {
  c_level : Z;
  c_text : string
}.

#[export] Instance Chunk_eq_dec : EqDecision Chunk.
Proof. solve_decision. Defined.

(** Modelled from the spec: the code buffer ("an external mutable buffer
    with writeIndented, writeIndentedLines, setIndentLevel operations"),
    class [IndentingBuffer], not under src/. It holds the current indent
    level and what was written so far. *)
Record IndentingBuffer : Type := mkBuffer {
  indentLevel : Z;
  written : list Chunk
}.

Module Buffer.

Definition oneIndent : string := "    ".

(** [buff.setIndentLevel(newLevel, relative)]. *)
Definition setIndentLevel (newLevel : Z) (relative : bool)
    (buff : IndentingBuffer) : IndentingBuffer :=
  mkBuffer (if relative then indentLevel buff + newLevel else newLevel)
           (written buff).

(** [buff.writeIndented(text)]: one write of [text] behind the current
    indent. *)
Definition writeIndented (text : string) (buff : IndentingBuffer)
    : IndentingBuffer :=
  mkBuffer (indentLevel buff)
           (written buff ++ [mkChunk (indentLevel buff) text]).

(** [buff.writeIndentedLines(text)]: every line of [text] is written
    behind the current indent, with its newline. *)
Definition writeIndentedLines (text : string) (buff : IndentingBuffer)
    : IndentingBuffer :=
  let text :=
    if PyStr.endswith text (ascii_of_nat 10) then text else text +:+ nl in
  fold_left (fun b line => writeIndented (line +:+ nl) b)
            (PyStr.splitlines text) buff.

(** [buff.getvalue()]: the bytes of the buffer. *)
Definition render (c : Chunk) : string :=
  PyStr.repeat oneIndent (c_level c) +:+ c_text c.

Definition getvalue (buff : IndentingBuffer) : string :=
  fold_right (fun c acc => render c +:+ acc) EmptyString (written buff).

(** A fresh buffer. *)
Definition fresh : IndentingBuffer := mkBuffer 0 [].

(** What a phase added to the buffer: the chunks written after those of
    [before]. *)
Definition emitted (before after : IndentingBuffer) : list Chunk :=
  drop (List.length (written before)) (written after).

(** The statement of a chunk: its text without the line end. *)
Definition stmt (c : Chunk) : string :=
  if PyStr.endswith (c_text c) (ascii_of_nat 10)
  then PyStr.drop_last (c_text c) else c_text c.

End Buffer.

Export Buffer.

(* ===================================================================== *)
(** * The experiment, its loops and the component object *)
(* ===================================================================== *)

(** A loop or handler of the flow, as far as the component reads it:
    [loop.type], [loop.params] and (for the experiment handler)
    [handler.name]. *)
Record Loop : Type := mkLoop {
  loop_type : string;
  loop_params : gmap string Param;
  loop_name : string
}.

(** [exp.flow._loopList] and [exp._expHandler]. *)
Record Experiment : Type := mkExperiment {
  flow_loopList : list Loop;
  _expHandler : Loop
}.

(** The attributes of [self]. [clockStr] is only set by [writeFrameCode],
    and [_clickableParamsList] is never set in this class: both are
    optional, and reading an unset one raises [AttributeError]. *)
Record Component : Type := mkComponent {
  exp : Experiment;
  params : gmap string Param;
  type : string;
  url : string;
  order : list string;
  clockStr : option string;
  _clickableParamsList : option (list string)
}.

Definition set_params (f : gmap string Param -> gmap string Param)
    (self : Component) : Component :=
  mkComponent (exp self) (f (params self)) (type self) (url self)
              (order self) (clockStr self) (_clickableParamsList self).

Definition set_type (t : string) (self : Component) : Component :=
  mkComponent (exp self) (params self) t (url self)
              (order self) (clockStr self) (_clickableParamsList self).

Definition set_url (u : string) (self : Component) : Component :=
  mkComponent (exp self) (params self) (type self) u
              (order self) (clockStr self) (_clickableParamsList self).

Definition set_order (o : list string) (self : Component) : Component :=
  mkComponent (exp self) (params self) (type self) (url self)
              o (clockStr self) (_clickableParamsList self).

Definition set_clockStr (s : string) (self : Component) : Component :=
  mkComponent (exp self) (params self) (type self) (url self)
              (order self) (Some s) (_clickableParamsList self).

(** [self.params[key]]. *)
Definition getParam (self : Component) (key : string) : result Param :=
  match params self !! key with
  | Some p => Ok p
  | None => Raise (KeyError key)
  end.

(** [self.clockStr] and [self._clickableParamsList]. *)
Definition getattr_clockStr (self : Component) : result string :=
  match clockStr self with
  | Some s => Ok s
  | None => Raise (AttributeError "clockStr")
  end.

Definition getattr_clickableParamsList (self : Component)
    : result (list string) :=
  match _clickableParamsList self with
  | Some l => Ok l
  | None => Raise (AttributeError "_clickableParamsList")
  end.

(** The code of the host application that the component calls and that is
    not under src/: the base class [BaseComponent], the string and truth
    conversions of [Param], and the clicked-objects generator. They are the
    parameters of the development. The base-class methods are given the
    [params] of [self]: they know nothing of the attributes this class
    adds. *)
Class Host : Type := {
  (** [str(param)], as in ["%(name)s" % self.params]. *)
  Param_str : Param -> string;
  (** [bool(param)], as in [if self.params['storeCorrect']:]. *)
  Param_bool : Param -> bool;
  (** [str(v)], as in ['%s' % param.val]. *)
  Val_str : Val -> string;
  (** [BaseComponent.__init__(self, exp, parentName, name=..., ...)]. *)
  BaseComponent_init :
    Experiment -> string -> Val -> Val -> Val -> Val -> Val -> Val -> Val ->
    result Component;
  (** [self.writeStartTestCode(buff)] and [self.writeStopTestCode(buff)]:
      the new buffer and the number of levels the test indented by. *)
  writeStartTestCode :
    gmap string Param -> IndentingBuffer -> result (IndentingBuffer * Z);
  writeStopTestCode :
    gmap string Param -> IndentingBuffer -> result (IndentingBuffer * Z);
  (** [super().writeRoutineEndCode(buff)]. *)
  BaseComponent_writeRoutineEndCode :
    gmap string Param -> IndentingBuffer -> result IndentingBuffer;
  (** [self._writeClickableObjectsCode(buff)]. *)
  _writeClickableObjectsCode :
    gmap string Param -> IndentingBuffer -> result IndentingBuffer
}.

(** What the component relies on when it undoes the indentation of the
    start and stop tests with [buff.setIndentLevel(-indented, ...)]: each
    test returns the number of levels it left the buffer indented by. *)
Definition returns_its_indent
    (test : gmap string Param -> IndentingBuffer ->
            result (IndentingBuffer * Z)) : Prop :=
  forall ps buff buff' n,
    test ps buff = Ok (buff', n) -> indentLevel buff' = indentLevel buff + n.

(** The four generation phases. *)
Inductive GenerationPhase : Type :=
| Init
| RoutineStart
| FrameUpdate
| RoutineEnd.

(* ===================================================================== *)
(** * class ButtonboxComponent *)
(* ===================================================================== *)

Section ButtonboxComponent.

Context `{host : Host}.

(** [tmpl % self.params] for a template whose only key is [%(name)s]. *)
Definition format_params (tmpl : string -> string) (self : Component)
    : result string :=
  pN ← getParam self "name";
  Ok (tmpl (Param_str pN)).

(** The statement that ends the routine, as the templates spell it. *)
Definition endRoutine : string :=
  "continueRoutine = False  # end routine on response".

(** [ButtonboxComponent.__init__]. *)
Definition __init__ (exp : Experiment) (parentName : string)
    (name startType startVal stopType stopVal startEstim durationEstim
     save forceEndRoutineOnPress lights clickable timeRelativeTo : Val)
    : result Component :=
  self ← BaseComponent_init exp parentName name startType startVal
                            stopType stopVal startEstim durationEstim;
  let self := set_type "Buttonbox" self in
  let self := set_url "" self in
  let self := set_order (order self ++
    ["forceEndRoutineOnPress"; "lights"; "clickable"; "timeRelativeTo"]) self in
  let forceEndRoutineOnPress :=
    if is_True forceEndRoutineOnPress then VStr "any click"
    else if is_False forceEndRoutineOnPress then VStr "never"
    else forceEndRoutineOnPress in
  p ← Param_init "forceEndRoutineOnPress" forceEndRoutineOnPress
        "str" "choice" "Basic"
        [VStr "never"; VStr "any click"; VStr "valid click";
         VStr "correct click"]
        "constant" false;
  let self := set_params <["forceEndRoutineOnPress" := p]> self in
  p ← Param_init "lights" (VBool true) "bool" "bool" "Basic" [] "constant" true;
  let self := set_params <["lights" := p]> self in
  p ← Param_init "timeRelativeTo" timeRelativeTo "str" "choice" "Data"
        [VStr "buttonbox onset"; VStr "experiment"; VStr "routine"]
        "constant" false;
  let self := set_params <["timeRelativeTo" := p]> self in
  p ← Param_init "clickable" (VStr "") "list" "single" "Basic" [] "constant" true;
  let self := set_params <["clickable" := p]> self in
  Ok self.

(** The body of [writeInitCode]. The method is declared under
    [@property] (see [writeInitCode] below). *)
Definition writeInitCode_fget (self : Component) (buff : IndentingBuffer)
    : result (Component * IndentingBuffer) :=
  let code := fun name : string =>
    "#initialize buttonbox" +:+
    "from psychopy_pixx.devices import Responsepixx" +:+
    name +:+ " = ResponsePixx(pixxdevice, buttons = buttons, events = ['down'], lights = lights" +:+
    name +:+ ".buttonboxClock = core.Clock()" +:+ nl in
  code ← format_params code self;
  Ok (self, writeIndentedLines code buff).

(** [self.writeInitCode(buff)]: [writeInitCode] is a property whose getter
    takes [(self, buff)], so reading the attribute calls the getter with
    [self] alone and raises [TypeError] before anything is written. *)
Definition writeInitCode (self : Component) (buff : IndentingBuffer)
    : result (Component * IndentingBuffer) :=
  Raise (TypeError "writeInitCode() missing 1 required positional argument: 'buff'").

(** [writeRoutineStartCode]. The third line of the template is written
    [(name)sResp] in the source, without the [%]. *)
Definition writeRoutineStartCode (self : Component) (buff : IndentingBuffer)
    : result (Component * IndentingBuffer) :=
  let code := fun name : string =>
    "# starting the buttonbox and setup a python list for storing the button presses of " +:+
    name +:+ nl +:+
    name +:+ ".start()" +:+ nl +:+
    "(name)sResp = []" +:+ nl in
  pT ← getParam self "timeRelativeTo";
  timeRelative ← val_lower (val pT);
  let code :=
    if bool_decide (timeRelative = "routine")
    then fun name : string => code name +:+ name +:+ ".buttonboxClock.reset()" +:+ nl
    else code in
  code ← format_params code self;
  Ok (self, writeIndentedLines code buff).

(** The local function [_buttonPressCode(buff, dedent)] of
    [writeFrameCode]. *)
Definition _buttonPressCode (self : Component) (buff : IndentingBuffer)
    (dedent : Z) : result (IndentingBuffer * Z) :=
  let code := fun name : string =>
    "buttons = " +:+ name +:+ ".getKeys()" +:+ nl +:+
    "if buttons != prevButtonState:  # button state changed?" in
  code ← format_params code self;
  let buff := writeIndentedLines code buff in
  let buff := setIndentLevel 1 true buff in
  let dedent := dedent + 1 in
  let buff := writeIndented ("prevButtonState = buttons" +:+ nl) buff in
  let code :=
    "if buttons > 0:  # state changed to a new click" +:+ nl +:+
    "lastResp = buttons[-1]" in
  let buff := writeIndentedLines code buff in
  let buff := setIndentLevel 1 true buff in
  let dedent := dedent + 1 in
  Ok (buff, dedent).

(** The data-append lines [mouseCode] of [writeFrameCode]. *)
Definition mouseCode (name clockStr : string) : string :=
  "x, y = " +:+ name +:+ ".getPos()" +:+ nl +:+
  name +:+ ".x.append(x)" +:+ nl +:+
  name +:+ ".y.append(y)" +:+ nl +:+
  "buttons = " +:+ name +:+ ".getPressed()" +:+ nl +:+
  name +:+ ".leftButton.append(buttons[0])" +:+ nl +:+
  name +:+ ".midButton.append(buttons[1])" +:+ nl +:+
  name +:+ ".rightButton.append(buttons[2])" +:+ nl +:+
  name +:+ ".time.append(" +:+ clockStr +:+ ".getTime())" +:+ nl.

(** The two places of [writeFrameCode] that write the data-append lines
    inside the button-press block have the same text in the source: on
    every click, or behind [if gotValidClick:] when there are clickable
    buttons. *)
Definition writeClickData (self : Component) (save : Val) (mouseCode : string)
    (buff : IndentingBuffer) : result IndentingBuffer :=
  if bool_decide (save ∈ [VStr "on click"]) then
    Ok (writeIndentedLines mouseCode buff)
  else
    pC ← getParam self "clickable";
    if truthy (val pC) && bool_decide (save ∈ [VStr "on valid click"]) then
      let code := "if gotValidClick:" +:+ nl in
      let buff := writeIndentedLines code buff in
      let buff := setIndentLevel 1 true buff in
      let buff := writeIndentedLines mouseCode buff in
      let buff := setIndentLevel (-1) true buff in
      Ok buff
    else Ok buff.

(** [writeFrameCode]. *)
Definition writeFrameCode (self : Component) (buff : IndentingBuffer)
    : result (Component * IndentingBuffer) :=
  pF ← getParam self "forceEndRoutineOnPress";
  let forceEnd := val pF in
  (* get a clock for timing *)
  pT ← getParam self "timeRelativeTo";
  timeRelative ← val_lower (val pT);
  self ←
    (if bool_decide (timeRelative = "experiment") then
       Ok (set_clockStr "globalClock" self)
     else if bool_decide (timeRelative ∈ ["routine"; "buttonbox onset"]) then
       pN ← getParam self "name";
       Ok (set_clockStr (Val_str (val pN) +:+ ".buttonboxClock") self)
     else Ok self);
  pN ← getParam self "name";
  let buff := writeIndented ("# *" +:+ Param_str pN +:+ "* updates" +:+ nl) buff in
  (* writes an if statement to determine whether to draw etc *)
  '(buff, indented) ← writeStartTestCode (params self) buff;
  buff ←
    (if bool_decide (indented ≠ 0) then
       let code := fun name : string => "" in
       let code :=
         if bool_decide (timeRelative = "buttonbox onset")
         then fun name : string => code name +:+ name +:+ ".buttonboxClock.reset()" +:+ nl
         else code in
       pNew ← getParam self "newClicksOnly";
       let code :=
         if Param_bool pNew
         then fun name : string => code name +:+
                "prevButtonState = " +:+ name +:+ ".getKeys()" +:+
                "  # if button is down already this ISN'T a new click" +:+ nl
         else fun name : string => code name +:+
                "prevButtonState = []" +:+
                "  # if now button is down we will treat as 'new' click" +:+ nl in
       code ← format_params code self;
       Ok (writeIndentedLines code buff)
     else Ok buff);
  (* to get out of the if statement *)
  let buff := setIndentLevel (- indented) true buff in
  (* test for stop *)
  '(buff, indented) ← writeStopTestCode (params self) buff;
  let buff := setIndentLevel (- indented) true buff in
  (* if STARTED and not FINISHED! *)
  code ← format_params (fun name =>
            "if " +:+ name +:+ ".status == STARTED:  " +:+
            "# only update if started and not finished!" +:+ nl) self;
  let buff := writeIndented code buff in
  let buff := setIndentLevel 1 true buff in
  let dedentAtEnd := 1 in
  pS ← getParam self "saveMouseState";
  let save := val pS in
  (* No mouse tracking, end routine on any or valid click *)
  if bool_decide (save ∈ [VStr "never"; VStr "final"])
     && bool_decide (forceEnd ≠ VStr "never") then
    '(buff, dedentAtEnd) ← _buttonPressCode self buff dedentAtEnd;
    if bool_decide (forceEnd = VStr "valid click") then
      let code := "if gotValidClick:  " +:+ nl +:+
                  "    " +:+ endRoutine +:+ nl in
      let buff := writeIndentedLines code buff in
      Ok (self, setIndentLevel (- dedentAtEnd) true buff)
    else
      let buff := writeIndented endRoutine buff in
      Ok (self, setIndentLevel (- dedentAtEnd) true buff)
  else if bool_decide (save ≠ VStr "never") then
    pN ← getParam self "name";
    clock ← getattr_clockStr self;
    let mouseCode := mouseCode (Param_str pN) clock in
    (* Continuous mouse tracking *)
    let buff :=
      if bool_decide (save ∈ [VStr "every frame"])
      then writeIndentedLines mouseCode buff else buff in
    '(buff, dedentAtEnd) ←
      (if bool_decide (forceEnd = VStr "never")
          && bool_decide (save ∈ [VStr "on click"; VStr "on valid click"]) then
         (* Continuous mouse tracking for all button press *)
         '(buff, dedentAtEnd) ← _buttonPressCode self buff dedentAtEnd;
         buff ← writeClickData self save mouseCode buff;
         Ok (buff, dedentAtEnd)
       else if bool_decide (forceEnd ≠ VStr "never") then
         (* Mouse tracking for events that end routine *)
         '(buff, dedentAtEnd) ← _buttonPressCode self buff dedentAtEnd;
         buff ← writeClickData self save mouseCode buff;
         (* also write code about clicked objects if needed. *)
         pC ← getParam self "clickable";
         let buff :=
           if truthy (val pC) then
             if bool_decide (forceEnd = VStr "valid click") then
               writeIndentedLines ("if gotValidClick:" +:+ nl +:+
                                   "    " +:+ endRoutine +:+ nl) buff
             else buff
           else buff in
         (* does any response end the trial? *)
         let buff :=
           if bool_decide (forceEnd = VStr "any click") then
             writeIndentedLines (nl +:+ endRoutine +:+ nl) buff
           else if bool_decide (forceEnd = VStr "correct click") then
             (* the source builds this text and does not write it *)
             let code := fun name : string =>
               "if " +:+ name +:+ ".corr and " +:+ name +:+ ".corr[-1]:" +:+ nl +:+
               "    " +:+ endRoutine +:+ nl in
             buff
           else buff in
         Ok (buff, dedentAtEnd)
       else Ok (buff, dedentAtEnd));
    (* 'if' statement of the time test and button check *)
    Ok (self, setIndentLevel (- dedentAtEnd) true buff)
  else Ok (self, buff).

(** [currLoop.addData] lines of [writeRoutineEndCode] for one property. *)
Definition addDataLine (loopName name property : string) : string :=
  loopName +:+ ".addData('" +:+ name +:+ "." +:+ property +:+ "', " +:+
  name +:+ "." +:+ property +:+ ")" +:+ nl.

(** [currLoop] in [writeRoutineEndCode]: the last (outer-most) loop of the
    flow, or the experiment handler when the flow has no loop. *)
Definition currLoop (self : Component) : Loop :=
  match last (flow_loopList (exp self)) with
  | Some l => l
  | None => _expHandler (exp self)
  end.

(** [currLoop.params['name']]. *)
Definition loopNameParam (l : Loop) : result Param :=
  match loop_params l !! "name" with
  | Some pL => Ok pL
  | None => Raise (KeyError "name")
  end.

(** The comment [writeRoutineEndCode] opens with. *)
Definition routineEndComment (l : Loop) : result string :=
  if bool_decide (loop_type l = "StairHandler") then
    Ok ("# NB PsychoPy doesn't handle a 'correct answer' for " +:+
        "mouse events so doesn't know how to handle mouse with " +:+
        "StairHandler" +:+ nl)
  else
    pL ← loopNameParam l;
    Ok ("# store data for " +:+ Param_str pL +:+ " (" +:+
        loop_type l +:+ ")" +:+ nl).

(** [writeRoutineEndCode]. *)
Definition writeRoutineEndCode (self : Component) (buff : IndentingBuffer)
    : result (Component * IndentingBuffer) :=
  (* some shortcuts *)
  name ← getParam self "name";
  pS ← getParam self "saveMouseState";
  let store := val pS in
  if bool_decide (store = VStr "nothing") then Ok (self, buff) else
  pF ← getParam self "forceEndRoutineOnPress";
  let forceEnd := val pF in
  let currLoop := currLoop self in
  code ← routineEndComment currLoop;
  let buff := writeIndentedLines code buff in
  buff ←
    (if bool_decide (store = VStr "final") then
       let code :=
         "x, y = " +:+ Param_str name +:+ ".getPos()" +:+ nl +:+
         "buttons = " +:+ Param_str name +:+ ".getPressed()" +:+ nl in
       (* also write code about clicked objects if needed. *)
       let buff := writeIndentedLines code buff in
       pC ← getParam self "clickable";
       buff ←
         (if truthy (val pC) then
            let buff := writeIndented ("if sum(buttons):" +:+ nl) buff in
            let buff := setIndentLevel 1 true buff in
            buff ← _writeClickableObjectsCode (params self) buff;
            Ok (setIndentLevel (-1) true buff)
          else Ok buff);
       if bool_decide (loop_type currLoop ≠ "StairHandler") then
         let code := fun loopName name : string =>
           loopName +:+ ".addData('" +:+ name +:+ ".x', x)" +:+ nl +:+
           loopName +:+ ".addData('" +:+ name +:+ ".y', y)" +:+ nl +:+
           loopName +:+ ".addData('" +:+ name +:+ ".leftButton', buttons[0])" +:+ nl +:+
           loopName +:+ ".addData('" +:+ name +:+ ".midButton', buttons[1])" +:+ nl +:+
           loopName +:+ ".addData('" +:+ name +:+ ".rightButton', buttons[2])" +:+ nl in
         pSC ← getParam self "storeCorrect";
         let code :=
           if Param_bool pSC
           then fun loopName name : string => code loopName name +:+
                  loopName +:+ ".addData('" +:+ name +:+ ".corr', " +:+
                  name +:+ ".corr)" +:+ nl
           else code in
         pL ← loopNameParam currLoop;
         let buff :=
           writeIndentedLines (code (Param_str pL) (Param_str name)) buff in
         (* then add `trials.addData('mouse.clicked_name',.....)` *)
         if truthy (val pC) then
           l ← getattr_clickableParamsList self;
           Ok (fold_left (fun buff paramName =>
                 writeIndentedLines
                   ("if len(" +:+ Param_str name +:+ ".clicked_" +:+ paramName +:+ "):" +:+ nl +:+
                    "    " +:+ Param_str pL +:+ ".addData('" +:+ Param_str name +:+
                    ".clicked_" +:+ paramName +:+ "', " +:+
                    Param_str name +:+ ".clicked_" +:+ paramName +:+ "[0])" +:+ nl)
                   buff) l buff)
         else Ok buff
       else Ok buff
     else if bool_decide (store ≠ VStr "never") then
       let mouseDataProps :=
         ["x"; "y"; "leftButton"; "midButton"; "rightButton"; "time"] in
       pSC ← getParam self "storeCorrect";
       let mouseDataProps :=
         if Param_bool pSC then mouseDataProps ++ ["corr"] else mouseDataProps in
       (* possibly add clicked params if we have clickable objects *)
       pC ← getParam self "clickable";
       mouseDataProps ←
         (if truthy (val pC) then
            l ← getattr_clickableParamsList self;
            Ok (mouseDataProps ++ map (fun paramName => "clicked_" +:+ paramName) l)
          else Ok mouseDataProps);
       (* use that set of properties to create set of addData commands *)
       foldl (fun acc property =>
                buff ← acc;
                pL ← loopNameParam currLoop;
                if bool_decide (store = VStr "every frame")
                   || bool_decide (forceEnd = VStr "never") then
                  Ok (writeIndented
                        (addDataLine (Param_str pL) (Param_str name) property) buff)
                else
                  (* we only had one click so don't return a list *)
                  Ok (writeIndented
                        (addDataLine (Param_str pL) (Param_str name) property) buff))
             (Ok buff) mouseDataProps
     else Ok buff);
  (* get parent to write code too (e.g. store onset/offset times) *)
  buff ← BaseComponent_writeRoutineEndCode (params self) buff;
  pL ← loopNameParam currLoop;
  if bool_decide (val pL = VStr (loop_name (_expHandler (exp self)))) then
    Ok (self, writeIndented (loop_name (_expHandler (exp self)) +:+
                             ".nextEntry()" +:+ nl) buff)
  else Ok (self, buff).

(** The spec's [expand(phase, config, context)]: the method of the phase. *)
Definition expand (phase : GenerationPhase) (self : Component)
    (buff : IndentingBuffer) : result (Component * IndentingBuffer) :=
  match phase with
  | Init => writeInitCode self buff
  | RoutineStart => writeRoutineStartCode self buff
  | FrameUpdate => writeFrameCode self buff
  | RoutineEnd => writeRoutineEndCode self buff
  end.

End ButtonboxComponent.

(* ===================================================================== *)
(** * Configuration: construction and assignment *)
(* ===================================================================== *)

(** The value [__init__] hands to [Param] for [forceEndRoutineOnPress]. *)
Definition normalized (forceEndRoutineOnPress : Val) : Val :=
  if is_True forceEndRoutineOnPress then VStr "any click"
  else if is_False forceEndRoutineOnPress then VStr "never"
  else forceEndRoutineOnPress.

Definition forceEnd_allowed : list Val :=
  [VStr "never"; VStr "any click"; VStr "valid click"; VStr "correct click"].

Definition timeRelativeTo_allowed : list Val :=
  [VStr "buttonbox onset"; VStr "experiment"; VStr "routine"].

(** Modelled from the spec: the host GUI sets a parameter of an existing
    component ("mutated by the host GUI"), through the validating
    assignment [Param_assign]; not under src/. *)
Definition assign (key : string) (v : Val) (self : Component)
    : result Component :=
  p ← getParam self key;
  p' ← Param_assign key v p;
  Ok (set_params <[key := p']> self).

(** The components a build pass can meet: constructed by [__init__], then
    configured by assignments, with generation phases run in between. *)
Inductive reachable `{host : Host} : Component -> Prop :=
| reachable_init exp parentName name startType startVal stopType stopVal
    startEstim durationEstim save forceEnd lights clickable timeRelativeTo self :
    __init__ exp parentName name startType startVal stopType stopVal
             startEstim durationEstim save forceEnd lights clickable
             timeRelativeTo = Ok self ->
    reachable self
| reachable_assign self key v self' :
    reachable self -> assign key v self = Ok self' -> reachable self'
| reachable_expand self phase buff self' buff' :
    reachable self -> expand phase self buff = Ok (self', buff') ->
    reachable self'.

(** The parameter [key] declares the set [allowed] and holds one of its
    values. *)
Definition in_domain (self : Component) (key : string) (allowed : list Val)
    : Prop :=
  exists p, params self !! key = Some p /\ allowedVals p = allowed /\
            val p ∈ allowed.

(* ===================================================================== *)
(** * psychopy.core: getFromNames *)
(* ===================================================================== *)

(** The objects [getFromNames] handles: names, sequences of names, and
    whatever the namespace maps a name to. [OOpaque] stands for any other
    object that is hashable and not iterable (a component handle), and
    [OUnhashable] for an object that is neither hashable nor iterable (an
    instance of a class that defines [__eq__] and no [__hash__]). *)
#[warnings="-register-all"]
Inductive PyObj : Type :=
| ONone
| OBool (b : bool)
| ONum (z : Z)
| OStr (s : string)
| OList (l : list PyObj)
| OTuple (l : list PyObj)
| OOpaque (id : nat)
| OUnhashable (id : nat).

Module Core.

(** [hash(o)] is defined: lists are unhashable, a tuple is hashable when
    its items are. *)
Fixpoint hashable (o : PyObj) : bool :=
  match o with
  | OList _ => false
  | OUnhashable _ => false
  | OTuple l => forallb hashable l
  | _ => true
  end.

(** [namespace.get(nm, nm)] on a dict whose keys are names (strings): an
    unhashable key raises, a key that is not in the dict gives the
    default. *)
Definition dict_get (namespace : gmap string PyObj) (nm default : PyObj)
    : result PyObj :=
  if hashable nm then
    match nm with
    | OStr s =>
        match namespace !! s with
        | Some obj => Ok obj
        | None => Ok default
        end
    | _ => Ok default
    end
  else Raise (TypeError "unhashable type").

(** One name of a listlike string: spaces stripped, then one pair of
    matching quotes. *)
Definition cleanName (thisName : string) : string :=
  let thisName := PyStr.strip thisName in
  if (PyStr.startswith thisName PyStr.dquote
      && PyStr.endswith thisName PyStr.dquote)
     || (PyStr.startswith thisName "'" && PyStr.endswith thisName "'")
  then PyStr.slice_1_m1 thisName
  else thisName.

(** The parentheses of a listlike string. *)
Definition stripParentheses (names : string) : string :=
  if (PyStr.startswith names "[" && PyStr.endswith names "]")
     || (PyStr.startswith names "(" && PyStr.endswith names ")")
  then PyStr.slice_1_m1 names
  else names.

(** The first step of [getFromNames]: a listlike string becomes a list. *)
Definition splitNames (names : PyObj) : PyObj :=
  match names with
  | OStr s =>
      if PyStr.contains s "," then
        OList (map (fun thisName => OStr (cleanName thisName))
                   (PyStr.split (stripParentheses s) ","))
      else names
  | _ => names
  end.

(** [isinstance(names, str)] and [isinstance(names, Iterable)]. *)
Definition isinstance_str (o : PyObj) : bool :=
  match o with
  | OStr _ => true
  | _ => false
  end.

Definition isinstance_Iterable (o : PyObj) : bool :=
  match o with
  | OStr _ | OList _ | OTuple _ => true
  | _ => false
  end.

(** The second step: a single name is put in a list; then the names are
    what the [for] loop iterates over. *)
Definition asList (names : PyObj) : list PyObj :=
  if isinstance_str names || negb (isinstance_Iterable names) then [names]
  else
    match names with
    | OList l => l
    | OTuple l => l
    | _ => []
    end.

(** What a name resolves to in a namespace: the object it is bound to, or
    the name itself when it is not bound. *)
Definition resolve (ns : gmap string PyObj) (name : string) : PyObj :=
  match ns !! name with
  | Some obj => obj
  | None => OStr name
  end.

(** No leading and no trailing whitespace: [s] neither begins nor ends
    with a whitespace character. *)
Definition trimmed (s : string) : Prop :=
  forall ch rest,
    ch ∈ PyStr.whitespace -> s <> ch +:+ rest /\ s <> rest +:+ ch.

(** A run of characters of [chars]. *)
Inductive run (chars : list string) : string -> Prop :=
| run_nil : run chars ""
| run_cons ch ws : ch ∈ chars -> run chars ws -> run chars (ch +:+ ws).

(** A run of whitespace characters. *)
Definition spaces : string -> Prop := run PyStr.whitespace.

(** The two quote characters. *)
Definition quotes : list ascii := [PyStr.dquote; "'"%char].

(** [s] begins and ends with the same quote character; the two may be the
    one character that [s] is. *)
Definition quoted (s : string) : Prop :=
  exists q, q ∈ quotes /\
    (s = String q "" \/ exists inner, s = String q (inner +:+ String q "")).

(** What a piece of a listlike string stands for, told by the shape of
    the piece. Between runs of whitespace, a text in a pair of equal
    quotes stands for what is between the quotes, whatever that is; a
    quote character alone stands for the empty name; and a text that is
    trimmed and not quoted stands for itself. *)
Inductive cleaned : string -> string -> Prop :=
| cleaned_quoted ws1 ws2 q inner :
    spaces ws1 -> spaces ws2 -> q ∈ quotes ->
    cleaned (ws1 +:+ String q (inner +:+ String q ws2)) inner
| cleaned_quote ws1 ws2 q :
    spaces ws1 -> spaces ws2 -> q ∈ quotes ->
    cleaned (ws1 +:+ String q ws2) ""
| cleaned_bare ws1 ws2 name :
    spaces ws1 -> spaces ws2 -> trimmed name -> ~ quoted name ->
    cleaned (ws1 +:+ name +:+ ws2) name.

(** [s] is a text in square brackets or in round brackets. *)
Definition wrapped (s : string) : Prop :=
  (exists body, s = "[" +:+ body +:+ "]") \/
  (exists body, s = "(" +:+ body +:+ ")").

Section GetFromNames.

(** [globals()] of the module. *)
Variable globals : gmap string PyObj.

(** The loop [for nm in names: ...]; [namespace] is replaced by
    [globals()] in the first round when it is [None]. *)
Fixpoint getObjs (names : list PyObj) (namespace : option (gmap string PyObj))
    (objs : list PyObj) : result (list PyObj) :=
  match names with
  | [] => Ok objs
  | nm :: names' =>
      let namespace :=
        match namespace with
        | None => globals
        | Some ns => ns
        end in
      obj ← dict_get namespace nm nm;
      getObjs names' (Some namespace) (objs ++ [obj])
  end.

(** [getFromNames(names, namespace=None)]. *)
Definition getFromNames (names : PyObj)
    (namespace : option (gmap string PyObj)) : result (list PyObj) :=
  getObjs (asList (splitNames names)) namespace [].

End GetFromNames.

End Core.

(* ===================================================================== *)
(** * A host to run the component in *)
(* ===================================================================== *)

(** A small instance of [Host], in the style of the host application, on
    which the generation phases can be evaluated. *)
Module ExampleHost.

Definition str_of_val (v : Val) : string :=
  match v with
  | VStr s => s
  | VBool true => "True"
  | VBool false => "False"
  | VNone => "None"
  | VNum _ => "0"
  | VList _ => "[]"
  end.

Definition plainParam (v : Val) (valType : string) : Param :=
  mkParam v valType "single" "Basic" [] "constant" true.

(** The base constructor stores the arguments it is given. *)
Definition base_init (exp : Experiment) (parentName : string)
    (name startType startVal stopType stopVal startEstim durationEstim : Val)
    : result Component :=
  Ok (mkComponent exp
        (<["name" := plainParam name "code"]>
         (<["startType" := plainParam startType "str"]>
         (<["startVal" := plainParam startVal "code"]>
         (<["stopType" := plainParam stopType "str"]>
         (<["stopVal" := plainParam stopVal "code"]>
         (<["startEstim" := plainParam startEstim "code"]>
         (<["durationEstim" := plainParam durationEstim "code"]> ∅)))))))
        "" "" ["name"; "startVal"; "startEstim"; "startType"; "stopVal";
               "durationEstim"; "stopType"]
        None None).

(** A start test: one [if] line, one level of indentation, two lines. *)
Definition startTest (ps : gmap string Param) (buff : IndentingBuffer)
    : result (IndentingBuffer * Z) :=
  match ps !! "name" with
  | None => Raise (KeyError "name")
  | Some pN =>
      let name := str_of_val (val pN) in
      let buff := writeIndented
        ("if " +:+ name +:+ ".status == NOT_STARTED and tThisFlip >= 0.0-frameTolerance:" +:+ nl)
        buff in
      let buff := setIndentLevel 1 true buff in
      let buff := writeIndentedLines
        (name +:+ ".frameNStart = frameN" +:+ nl +:+
         name +:+ ".status = STARTED" +:+ nl) buff in
      Ok (buff, 1)
  end.

(** A stop test: nothing without a stop value, else one [if] block. *)
Definition stopTest (ps : gmap string Param) (buff : IndentingBuffer)
    : result (IndentingBuffer * Z) :=
  match ps !! "name", ps !! "stopVal" with
  | Some pN, Some pStop =>
      if truthy (val pStop) then
        let name := str_of_val (val pN) in
        let buff := writeIndented
          ("if " +:+ name +:+ ".status == STARTED:" +:+ nl) buff in
        let buff := setIndentLevel 1 true buff in
        let buff := writeIndentedLines
          (name +:+ ".status = FINISHED" +:+ nl) buff in
        Ok (buff, 1)
      else Ok (buff, 0)
  | _, _ => Ok (buff, 0)
  end.

Definition baseRoutineEnd (ps : gmap string Param) (buff : IndentingBuffer)
    : result IndentingBuffer :=
  Ok buff.

Definition clickableObjects (ps : gmap string Param) (buff : IndentingBuffer)
    : result IndentingBuffer :=
  Ok (writeIndentedLines ("gotValidClick = False" +:+ nl) buff).

#[export] Instance host : Host := {|
  Param_str := fun p => str_of_val (val p);
  Param_bool := fun p => truthy (val p);
  Val_str := str_of_val;
  BaseComponent_init := base_init;
  writeStartTestCode := startTest;
  writeStopTestCode := stopTest;
  BaseComponent_writeRoutineEndCode := baseRoutineEnd;
  _writeClickableObjectsCode := clickableObjects
|}.

(** An experiment with one trial loop. *)
Definition trials : Loop :=
  mkLoop "TrialHandler" {[ "name" := plainParam (VStr "trials") "code" ]} "".

Definition thisExp : Loop :=
  mkLoop "ExperimentHandler"
         {[ "name" := plainParam (VStr "thisExp") "code" ]} "thisExp".

Definition experiment : Experiment := mkExperiment [trials] thisExp.

(** The component as built with the default arguments of [__init__],
    except for [forceEnd] and [timeRelativeTo]. *)
Definition construct (forceEnd timeRelativeTo : Val) : result Component :=
  __init__ experiment "trial" (VStr "buttonbox")
    (VStr "time (s)") (VNum 0) (VStr "duration (s)") (VNum 1)
    (VStr "") (VStr "") (VStr "on click") forceEnd (VBool true)
    (VList ["red"; "green"; "yellow"; "blue"; "white"]) timeRelativeTo.

(** A configured component: the parameters the generation phases read,
    set to the given values. *)
Definition configured (forceEnd save clickable : Val) (storeCorrect : bool)
    (timeRelativeTo : Val) : Component :=
  mkComponent experiment
    (<["saveMouseState" := plainParam save "str"]>
     (<["newClicksOnly" := plainParam (VBool true) "bool"]>
     (<["storeCorrect" := plainParam (VBool storeCorrect) "bool"]>
     (<["clickable" := plainParam clickable "list"]>
     (<["forceEndRoutineOnPress" := plainParam forceEnd "str"]>
     (<["timeRelativeTo" := plainParam timeRelativeTo "str"]>
     (<["stopVal" := plainParam (VNum 1) "code"]>
     (<["name" := plainParam (VStr "buttonbox") "code"]> ∅))))))))
    "Buttonbox" "" [] None (Some ["name"]).

(** The statements a phase wrote from a fresh buffer, with their levels. *)
Definition listing (r : result (Component * IndentingBuffer))
    : option (list (Z * string)) :=
  match r with
  | Ok (_, buff) => Some (map (fun c => (c_level c, stmt c)) (written buff))
  | Raise _ => None
  end.

End ExampleHost.


(* ===================================================================== *)
(** * Lines of generated code *)
(* ===================================================================== *)

(** A string without a line break: what a component name is, and what
    every line of a template is. *)
Definition one_line (s : string) : Prop :=
  PyStr.contains s (ascii_of_nat 10) = false.

(** The text made of the given lines, each closed by a newline. *)
Definition unlines (ls : list string) : string :=
  fold_right (fun l acc => l +:+ nl +:+ acc) EmptyString ls.

(** The chunks that [writeIndentedLines] writes for the given lines at the
    given level. *)
Definition chunks (level : Z) (ls : list string) : list Chunk :=
  map (fun l => mkChunk level (l +:+ nl)) ls.

(** The lines of [writeRoutineStartCode]. *)
Definition routineStartLines (name : string) : list string :=
  ["# starting the buttonbox and setup a python list for storing the button presses of " +:+ name;
   name +:+ ".start()";
   "(name)sResp = []"].

Definition clockResetLine (name : string) : string :=
  name +:+ ".buttonboxClock.reset()".

(* ===================================================================== *)
(** * What the frame code looks like *)
(* ===================================================================== *)

(** [s[-1]], when there is one. *)
Fixpoint last_char (s : string) : option ascii :=
  match s with
  | EmptyString => None
  | String c EmptyString => Some c
  | String _ s' => last_char s'
  end.

(** The button-state-changed guard of [_buttonPressCode]. *)
Definition buttonStateGuard : string :=
  "if buttons != prevButtonState:  # button state changed?".

(** The chunks [_buttonPressCode] writes from level [L]: the read of the
    buttons and the guard, then, one level in, the new state, the
    new-click guard and the last response. *)
Definition pressChunks (name : string) (L : Z) : list Chunk :=
  chunks L ["buttons = " +:+ name +:+ ".getKeys()"; buttonStateGuard] ++
  [mkChunk (L + 1) ("prevButtonState = buttons" +:+ nl)] ++
  chunks (L + 1) ["if buttons > 0:  # state changed to a new click";
                  "lastResp = buttons[-1]"].

(** The data-append lines, the lines of [mouseCode]. *)
Definition mouseLines (name clockStr : string) : list string :=
  ["x, y = " +:+ name +:+ ".getPos()";
   name +:+ ".x.append(x)";
   name +:+ ".y.append(y)";
   "buttons = " +:+ name +:+ ".getPressed()";
   name +:+ ".leftButton.append(buttons[0])";
   name +:+ ".midButton.append(buttons[1])";
   name +:+ ".rightButton.append(buttons[2])";
   name +:+ ".time.append(" +:+ clockStr +:+ ".getTime())"].

(** The chunks [writeClickData] writes at level [L]. *)
Definition dataChunks (save clickable : Val) (name clockStr : string) (L : Z)
    : list Chunk :=
  if bool_decide (save ∈ [VStr "on click"]) then
    chunks L (mouseLines name clockStr)
  else if truthy clickable && bool_decide (save ∈ [VStr "on valid click"]) then
    chunks L ["if gotValidClick:"] ++ chunks (L + 1) (mouseLines name clockStr)
  else [].

(** A chunk that is neither the statement that ends the routine nor the
    button-state-changed guard. *)
Definition plain (c : Chunk) : Prop :=
  stmt c <> endRoutine /\ stmt c <> buttonStateGuard.

(** What the frame code asks of the start and stop tests of the host, on
    the parameters at hand, for the count of termination statements and
    guards to be its own: the tests only add to the buffer, and add
    neither. *)
Definition writes_plain (ps : gmap string Param)
    (test : gmap string Param -> IndentingBuffer ->
            result (IndentingBuffer * Z)) : Prop :=
  forall buff buff' n,
    test ps buff = Ok (buff', n) ->
    exists cs, written buff' = written buff ++ cs /\ Forall plain cs.

(** The chunks the frame code writes under [if ... status == STARTED:],
    at level [L], when [forceEndRoutineOnPress] is ['any click'] or
    ['correct click']: the two differ in the last two chunks. *)
Definition clickBlock (forceEnd : string) (save clickable : Val)
    (name clockStr : string) (L : Z) : list Chunk :=
  if bool_decide (save ∈ [VStr "never"; VStr "final"]) then
    pressChunks name L ++ [mkChunk (L + 1 + 1) endRoutine]
  else
    (if bool_decide (save ∈ [VStr "every frame"])
     then chunks L (mouseLines name clockStr) else []) ++
    pressChunks name L ++
    dataChunks save clickable name clockStr (L + 1 + 1) ++
    (if bool_decide (forceEnd = "any click")
     then chunks (L + 1 + 1) [""; endRoutine] else []).

(* ===================================================================== *)
(** * The frame code, part by part *)
(* ===================================================================== *)

(** [self.params['clickable'].val], or [None] when there is no such key
    (the places that write with it look the key up first). *)
Definition clickableVal (self : Component) : Val :=
  match params self !! "clickable" with
  | Some pC => val pC
  | None => VNone
  end.

(** The line that opens the block of the frame code. *)
Definition startedIfLine (name : string) : string :=
  "if " +:+ name +:+ ".status == STARTED:  " +:+
  "# only update if started and not finished!".

(** The line that opens the frame code. *)
Definition updatesLine (name : string) : string :=
  "# *" +:+ name +:+ "* updates".

Section FrameParts.

Context `{host : Host}.

(** The first step of [writeFrameCode] (lines 117-122): the clock string
    for the value [timeRelative] of [timeRelativeTo], lower-cased. *)
Definition frameClock (timeRelative : string) (self : Component)
    : result Component :=
  if bool_decide (timeRelative = "experiment") then
    Ok (set_clockStr "globalClock" self)
  else if bool_decide (timeRelative ∈ ["routine"; "buttonbox onset"]) then
    pN ← getParam self "name";
    Ok (set_clockStr (Val_str (val pN) +:+ ".buttonboxClock") self)
  else Ok self.

(** The block [if indented:] of [writeFrameCode] (lines 128-141), run when
    the start test was written. *)
Definition frameInit (self : Component) (timeRelative : string)
    (indented : Z) (buff : IndentingBuffer) : result IndentingBuffer :=
    (if bool_decide (indented ≠ 0) then
       let code := fun name : string => "" in
       let code :=
         if bool_decide (timeRelative = "buttonbox onset")
         then fun name : string => code name +:+ name +:+ ".buttonboxClock.reset()" +:+ nl
         else code in
       pNew ← getParam self "newClicksOnly";
       let code :=
         if Param_bool pNew
         then fun name : string => code name +:+
                "prevButtonState = " +:+ name +:+ ".getKeys()" +:+
                "  # if button is down already this ISN'T a new click" +:+ nl
         else fun name : string => code name +:+
                "prevButtonState = []" +:+
                "  # if now button is down we will treat as 'new' click" +:+ nl in
       code ← format_params code self;
       Ok (writeIndentedLines code buff)
     else Ok buff).

(** [writeFrameCode] from line 177 on: the buffer is inside the block
    [if ... status == STARTED:], one level in ([dedentAtEnd = 1]). *)
Definition frameTail (self : Component) (forceEnd : Val)
    (buff : IndentingBuffer) : result (Component * IndentingBuffer) :=
  let dedentAtEnd := 1 in
  pS ← getParam self "saveMouseState";
  let save := val pS in
  (* No mouse tracking, end routine on any or valid click *)
  if bool_decide (save ∈ [VStr "never"; VStr "final"])
     && bool_decide (forceEnd ≠ VStr "never") then
    '(buff, dedentAtEnd) ← _buttonPressCode self buff dedentAtEnd;
    if bool_decide (forceEnd = VStr "valid click") then
      let code := "if gotValidClick:  " +:+ nl +:+
                  "    " +:+ endRoutine +:+ nl in
      let buff := writeIndentedLines code buff in
      Ok (self, setIndentLevel (- dedentAtEnd) true buff)
    else
      let buff := writeIndented endRoutine buff in
      Ok (self, setIndentLevel (- dedentAtEnd) true buff)
  else if bool_decide (save ≠ VStr "never") then
    pN ← getParam self "name";
    clock ← getattr_clockStr self;
    let mouseCode := mouseCode (Param_str pN) clock in
    (* Continuous mouse tracking *)
    let buff :=
      if bool_decide (save ∈ [VStr "every frame"])
      then writeIndentedLines mouseCode buff else buff in
    '(buff, dedentAtEnd) ←
      (if bool_decide (forceEnd = VStr "never")
          && bool_decide (save ∈ [VStr "on click"; VStr "on valid click"]) then
         (* Continuous mouse tracking for all button press *)
         '(buff, dedentAtEnd) ← _buttonPressCode self buff dedentAtEnd;
         buff ← writeClickData self save mouseCode buff;
         Ok (buff, dedentAtEnd)
       else if bool_decide (forceEnd ≠ VStr "never") then
         (* Mouse tracking for events that end routine *)
         '(buff, dedentAtEnd) ← _buttonPressCode self buff dedentAtEnd;
         buff ← writeClickData self save mouseCode buff;
         (* also write code about clicked objects if needed. *)
         pC ← getParam self "clickable";
         let buff :=
           if truthy (val pC) then
             if bool_decide (forceEnd = VStr "valid click") then
               writeIndentedLines ("if gotValidClick:" +:+ nl +:+
                                   "    " +:+ endRoutine +:+ nl) buff
             else buff
           else buff in
         (* does any response end the trial? *)
         let buff :=
           if bool_decide (forceEnd = VStr "any click") then
             writeIndentedLines (nl +:+ endRoutine +:+ nl) buff
           else if bool_decide (forceEnd = VStr "correct click") then
             (* the source builds this text and does not write it *)
             let code := fun name : string =>
               "if " +:+ name +:+ ".corr and " +:+ name +:+ ".corr[-1]:" +:+ nl +:+
               "    " +:+ endRoutine +:+ nl in
             buff
           else buff in
         Ok (buff, dedentAtEnd)
       else Ok (buff, dedentAtEnd));
    (* 'if' statement of the time test and button check *)
    Ok (self, setIndentLevel (- dedentAtEnd) true buff)
  else Ok (self, buff).

End FrameParts.

(** The chunks [frameTail] writes at level [L], for every value of
    [forceEndRoutineOnPress] and [saveMouseState]: the matrix of the frame
    code. *)
Definition frameBlock (forceEnd save clickable : Val)
    (name clockStr : string) (L : Z) : list Chunk :=
  if bool_decide (save ∈ [VStr "never"; VStr "final"])
     && bool_decide (forceEnd ≠ VStr "never") then
    pressChunks name L ++
    (if bool_decide (forceEnd = VStr "valid click")
     then chunks (L + 1 + 1) ["if gotValidClick:  "; "    " +:+ endRoutine]
     else [mkChunk (L + 1 + 1) endRoutine])
  else if bool_decide (save ≠ VStr "never") then
    (if bool_decide (save ∈ [VStr "every frame"])
     then chunks L (mouseLines name clockStr) else []) ++
    (if bool_decide (forceEnd = VStr "never")
        && bool_decide (save ∈ [VStr "on click"; VStr "on valid click"]) then
       pressChunks name L ++
       dataChunks save clickable name clockStr (L + 1 + 1)
     else if bool_decide (forceEnd ≠ VStr "never") then
       pressChunks name L ++
       dataChunks save clickable name clockStr (L + 1 + 1) ++
       (if truthy clickable && bool_decide (forceEnd = VStr "valid click")
        then chunks (L + 1 + 1) ["if gotValidClick:"; "    " +:+ endRoutine]
        else []) ++
       (if bool_decide (forceEnd = VStr "any click")
        then chunks (L + 1 + 1) [""; endRoutine] else [])
     else [])
  else [].

(* ===================================================================== *)
(** * The end of the routine, line by line *)
(* ===================================================================== *)

(** What [writeRoutineEndCode] relies on when it indents around the
    clicked-objects code and hands the buffer to the parent class: the
    collaborator gives the buffer back at the level it got it. *)
Definition keeps_indent
    (write : gmap string Param -> IndentingBuffer -> result IndentingBuffer)
    : Prop :=
  forall ps buff buff',
    write ps buff = Ok buff' -> indentLevel buff' = indentLevel buff.

(** The list [mouseDataProps] of [writeRoutineEndCode]: the six tracked
    properties, [corr] when [storeCorrect] holds, and one [clicked_<param>]
    per clickable parameter when there are clickable buttons. *)
Definition storedProps (storeCorrect clickable : bool)
    (clickableParams : list string) : list string :=
  (if storeCorrect
   then ["x"; "y"; "leftButton"; "midButton"; "rightButton"; "time"] ++ ["corr"]
   else ["x"; "y"; "leftButton"; "midButton"; "rightButton"; "time"]) ++
  (if clickable
   then map (fun paramName => "clicked_" +:+ paramName) clickableParams
   else []).

(** The two lines that read the position and the buttons, for
    [saveMouseState = 'final']. *)
Definition finalReadLines (name : string) : list string :=
  ["x, y = " +:+ name +:+ ".getPos()";
   "buttons = " +:+ name +:+ ".getPressed()"].

(** The [addData] lines for [saveMouseState = 'final']. *)
Definition finalAddDataLines (loopName name : string) (storeCorrect : bool)
    : list string :=
  [loopName +:+ ".addData('" +:+ name +:+ ".x', x)";
   loopName +:+ ".addData('" +:+ name +:+ ".y', y)";
   loopName +:+ ".addData('" +:+ name +:+ ".leftButton', buttons[0])";
   loopName +:+ ".addData('" +:+ name +:+ ".midButton', buttons[1])";
   loopName +:+ ".addData('" +:+ name +:+ ".rightButton', buttons[2])"] ++
  (if storeCorrect
   then [loopName +:+ ".addData('" +:+ name +:+ ".corr', " +:+ name +:+ ".corr)"]
   else []).

(** A component on which [_clickableParamsList] was never set. *)
Definition without_clickableParamsList (self : Component) : Component :=
  mkComponent (exp self) (params self) (type self) (url self) (order self)
              (clockStr self) None.

(* ===================================================================== *)
(** * The body of [writeInitCode] *)
(* ===================================================================== *)

(** The text of the template of [writeInitCode] without its line end: the
    four adjacent literals of the source are one string, and only the last
    one ends with a newline. *)
Definition initLine (name : string) : string :=
  "#initialize buttonbox" +:+
  "from psychopy_pixx.devices import Responsepixx" +:+
  name +:+ " = ResponsePixx(pixxdevice, buttons = buttons, events = ['down'], lights = lights" +:+
  name +:+ ".buttonboxClock = core.Clock()".

(* ===================================================================== *)
(** * Names and the objects they stand for *)
(* ===================================================================== *)

(** What [namespace.get(nm, nm)] gives for a hashable [nm]: a name resolves
    as [Core.resolve] says, any other object is not a key and comes back as
    it is. *)
Definition resolveObj (ns : gmap string PyObj) (nm : PyObj) : PyObj :=
  match nm with
  | OStr s => Core.resolve ns s
  | _ => nm
  end.

(** [",".join(names)]. *)
Fixpoint join_comma (names : list string) : string :=
  match names with
  | [] => EmptyString
  | [name] => name
  | name :: rest => name +:+ "," +:+ join_comma rest
  end.

(* ===================================================================== *)
(** * core.py: [shellCall] *)
(* ===================================================================== *)

Module Shell.

(** An item of a command given as a list or a tuple, by its [type()]:
    a [str], a [bytes], or any other object. *)
Inductive Arg : Type :=
| AStr (s : string)
| ABytes (b : list Byte.byte)
| AOther (id : nat).

(** The argument [shellCmd], by its [type()]. *)
Inductive Cmd : Type :=
| CStr (s : string)
| CBytes (b : list Byte.byte)
| CList (l : list Arg)
| CTuple (l : list Arg)
| COther (id : nat).

(** The exceptions of [shellCall]: its own [TypeError] and [RuntimeError],
    and whatever the library calls raise ([ValueError] of [shlex.split],
    [UnicodeDecodeError] of [decode], [OSError] of [Popen], ...). *)
Inductive Exn : Type :=
| TypeError (msg : string)
| RuntimeError (msg : string)
| Foreign (id : nat).

Inductive outcome (A : Type) : Type :=
| Done (a : A)
| Fail (e : Exn).

Arguments Done {A} a.
Arguments Fail {A} e.

(** The library and the system, as far as [shellCall] asks them. *)
Record System : Type := mkSystem {
  (** [locale.getpreferredencoding()] *)
  getpreferredencoding : string;
  (** [shlex.split(s)] *)
  shlex_split : string -> outcome (list string);
  (** [b.decode('utf-8')] *)
  decode_utf8 : list Byte.byte -> outcome string;
  (** [sys.version_info.minor] *)
  version_minor : Z;
  (** [subprocess.Popen(cmdObjects, ..., encoding=encoding, env=env)]
      followed by [proc.communicate(stdin)]: the two outputs. *)
  communicate :
    list Arg -> string -> option (gmap string string) -> option string ->
    outcome (string * string)
}.

(** A call of [subprocess.Popen]. *)
Record PopenCall : Type := mkPopenCall {
  l_cmdObjects : list Arg;
  l_encoding : string;
  l_env : option (gmap string string);
  l_stdin : option string
}.

(** What [shellCall] returns: [stdout], or [stdout, stderr]. *)
Inductive Output : Type :=
| Stdout (stdoutData : string)
| StdoutStderr (stdoutData stderrData : string).

(** The loop [for obj in shellCmdList]: a [bytes] item is decoded, any
    other item is kept. *)
Fixpoint decodeItems (sys : System) (shellCmdList : list Arg)
    (cmdObjects : list Arg) : outcome (list Arg) :=
  match shellCmdList with
  | [] => Done cmdObjects
  | obj :: rest =>
      match obj with
      | ABytes b =>
          match decode_utf8 sys b with
          | Done s => decodeItems sys rest (cmdObjects ++ [AStr s])
          | Fail e => Fail e
          end
      | _ => decodeItems sys rest (cmdObjects ++ [obj])
      end
  end.

(** The first step: the list of the command and its arguments. *)
Definition shellCmdList (sys : System) (shellCmd : Cmd)
    : outcome (list Arg) :=
  match shellCmd with
  | CStr s =>
      match shlex_split sys s with
      | Done l => Done (map AStr l)
      | Fail e => Fail e
      end
  | CBytes b =>
      match decode_utf8 sys b with
      | Done s =>
          match shlex_split sys s with
          | Done l => Done (map AStr l)
          | Fail e => Fail e
          end
      | Fail e => Fail e
      end
  | CList l => Done l
  | CTuple l => Done l
  | COther _ => Fail (TypeError "shellCmd requires a string or iterable.")
  end.

(** [shellCall(shellCmd, stdin='', stderr=False, env=None, encoding=None)]:
    the calls of [subprocess.Popen] it made, and what it returned or
    raised. *)
Definition shellCall (sys : System) (shellCmd : Cmd) (stdin : option string)
    (stderr : bool) (env : option (gmap string string))
    (encoding : option string) : list PopenCall * outcome Output :=
  let encoding :=
    match encoding with
    | None => getpreferredencoding sys
    | Some encoding => encoding
    end in
  match shellCmdList sys shellCmd with
  | Fail e => ([], Fail e)
  | Done shellCmdList =>
      match decodeItems sys shellCmdList [] with
      | Fail e => ([], Fail e)
      | Done cmdObjects =>
          if 6 <=? version_minor sys then
            match communicate sys cmdObjects encoding env stdin with
            | Fail e => ([mkPopenCall cmdObjects encoding env stdin], Fail e)
            | Done (stdoutData, stderrData) =>
                ([mkPopenCall cmdObjects encoding env stdin],
                 if stderr
                 then Done (StdoutStderr (PyStr.strip stdoutData)
                                         (PyStr.strip stderrData))
                 else Done (Stdout (PyStr.strip stdoutData)))
            end
          else
            ([], Fail (RuntimeError
                         "shellCall() requires Python 2.7, or 3.6 and newer."))
      end
  end.


(** An item that is not [bytes]. *)
Definition not_bytes (obj : Arg) : Prop :=
  match obj with
  | ABytes _ => False
  | _ => True
  end.

(** A system for the examples: [shlex.split] splits at the spaces (as it
    does for a command without quotes), [decode] reads the bytes as
    characters, and the process prints its first argument between a space
    and a newline. *)
Definition echo : System :=
  mkSystem "UTF-8"
    (fun s => Done (PyStr.split s " "))
    (fun b => Done (string_of_list_byte b))
    11
    (fun cmdObjects _ _ _ =>
       match cmdObjects with
       | AStr _ :: AStr s :: _ => Done (" " +:+ s +:+ nl, "")
       | _ => Fail (Foreign 1)
       end).

End Shell.

(* ===================================================================== *)
(** * Properties *)
(* ===================================================================== *)

(** ** The error monad and the parameter lookups *)

Lemma bind_Ok {A B} (m : result A) (f : A -> result B) (b : B) :
  m ≫= f = Ok b -> exists a, m = Ok a /\ f a = Ok b.
Proof. destruct m as [a|e]; simpl; [eauto | discriminate]. Qed.

Lemma getParam_Ok self key p :
  getParam self key = Ok p <-> params self !! key = Some p.
Proof.
  unfold getParam. destruct (params self !! key); split; congruence.
Qed.

(** A membership in a list of constants that does not hold. *)
Ltac elem_of_false H :=
  repeat (apply elem_of_cons in H as [H|H]; [discriminate H|]);
  apply elem_of_nil in H; contradiction.

Tactic Notation "bind_inv" hyp(H) "as" simple_intropattern(a) ident(Ha) :=
  apply bind_Ok in H; destruct H as (a & Ha & H).

Lemma indentLevel_writeIndented text buff :
  indentLevel (writeIndented text buff) = indentLevel buff.
Proof. reflexivity. Qed.

Lemma indentLevel_fold_writeIndented (lines : list string) buff :
  indentLevel
    (fold_left (fun b line => writeIndented (line +:+ nl) b) lines buff)
  = indentLevel buff.
Proof.
  revert buff. induction lines as [|l lines IH]; intros buff; simpl; [done|].
  now rewrite IH.
Qed.

Lemma indentLevel_writeIndentedLines text buff :
  indentLevel (writeIndentedLines text buff) = indentLevel buff.
Proof. unfold writeIndentedLines. apply indentLevel_fold_writeIndented. Qed.

Lemma indentLevel_setIndentLevel_relative n buff :
  indentLevel (setIndentLevel n true buff) = indentLevel buff + n.
Proof. reflexivity. Qed.

Create Rewrite HintDb indent.

#[export] Hint Rewrite indentLevel_writeIndented indentLevel_writeIndentedLines
  indentLevel_setIndentLevel_relative : indent.

(** The first step of [writeFrameCode] sets [self.clockStr] and nothing
    else. *)
Lemma clock_step_params `{host : Host} (tr : string) self self1 :
  (if bool_decide (tr = "experiment") then Ok (set_clockStr "globalClock" self)
   else if bool_decide (tr ∈ ["routine"; "buttonbox onset"]) then
     getParam self "name" ≫= λ pN : Param,
       Ok (set_clockStr (Val_str (val pN) +:+ ".buttonboxClock") self)
   else Ok self) = Ok self1 ->
  params self1 = params self /\ exp self1 = exp self /\
  _clickableParamsList self1 = _clickableParamsList self.
Proof.
  destruct (bool_decide (tr = "experiment")).
  - now intros [= <-].
  - destruct (bool_decide (tr ∈ ["routine"; "buttonbox onset"])).
    + intros H. bind_inv H as pN HN. now injection H as <-.
    + now intros [= <-].
Qed.

Section Indentation.

Context `{host : Host}.

Lemma _buttonPressCode_indent self buff dedent buff' dedent' :
  _buttonPressCode self buff dedent = Ok (buff', dedent') ->
  indentLevel buff' = indentLevel buff + 2 /\ dedent' = dedent + 2.
Proof.
  unfold _buttonPressCode. intros H. bind_inv H as code Hc.
  injection H as <- <-. autorewrite with indent. lia.
Qed.

Lemma writeClickData_indent self save code buff buff' :
  writeClickData self save code buff = Ok buff' ->
  indentLevel buff' = indentLevel buff.
Proof.
  unfold writeClickData. intros H.
  destruct (bool_decide (save ∈ [VStr "on click"])).
  - injection H as <-. now autorewrite with indent.
  - bind_inv H as pC HC.
    destruct (truthy (val pC) && bool_decide (save ∈ [VStr "on valid click"]));
      injection H as <-; autorewrite with indent; lia.
Qed.

Lemma writeFrameCode_indent self buff self' buff' pF pS :
  returns_its_indent writeStartTestCode ->
  returns_its_indent writeStopTestCode ->
  params self !! "forceEndRoutineOnPress" = Some pF ->
  params self !! "saveMouseState" = Some pS ->
  writeFrameCode self buff = Ok (self', buff') ->
  indentLevel buff' =
    indentLevel buff +
    (if bool_decide (val pS = VStr "never" /\ val pF = VStr "never")
     then 1 else 0).
Proof.
  intros Hstart Hstop HF HS H. unfold writeFrameCode in H.
  bind_inv H as pF' HF'. apply getParam_Ok in HF'. rewrite HF in HF'.
  injection HF' as <-.
  bind_inv H as pT HT. bind_inv H as tr Htr. bind_inv H as self1 Hself1.
  apply clock_step_params in Hself1 as (Hps & _ & _).
  bind_inv H as pN HN. bind_inv H as [b1 n1] Hb1.
  apply Hstart in Hb1. bind_inv H as b1' Hb1'.
  assert (Hb : indentLevel b1' = indentLevel b1).
  { destruct (bool_decide (n1 ≠ 0)).
    - bind_inv Hb1' as pNew HNew. bind_inv Hb1' as code Hcode.
      injection Hb1' as <-. now autorewrite with indent.
    - now injection Hb1' as <-. }
  clear Hb1'.
  bind_inv H as [b2 n2] Hb2. apply Hstop in Hb2.
  autorewrite with indent in *.
  bind_inv H as code Hcode. bind_inv H as pS' HS'. apply getParam_Ok in HS'.
  rewrite Hps, HS in HS'. injection HS' as <-.
  destruct (bool_decide (val pS ∈ [VStr "never"; VStr "final"])
            && bool_decide (val pF ≠ VStr "never")) eqn:HA.
  - (* no tracking, end routine on a click *)
    apply andb_true_iff in HA as [_ HA]. apply bool_decide_eq_true in HA.
    rewrite bool_decide_eq_false_2 by tauto.
    bind_inv H as [b3 d3] Hb3.
    apply _buttonPressCode_indent in Hb3 as [Hb3 ->].
    autorewrite with indent in *.
    destruct (bool_decide (val pF = VStr "valid click"));
      injection H as <- <-; autorewrite with indent; lia.
  - destruct (bool_decide (val pS ≠ VStr "never")) eqn:HB.
    + apply bool_decide_eq_true in HB.
      rewrite bool_decide_eq_false_2 by tauto.
      bind_inv H as pN' HN'. bind_inv H as clock Hclock.
      bind_inv H as [b3 d3] Hb3.
      injection H as <- <-. autorewrite with indent.
      set (b0 := if bool_decide (val pS ∈ [VStr "every frame"]) then _ else _)
        in Hb3.
      assert (Hb0 : indentLevel b0 = indentLevel buff + 1).
      { subst b0. destruct (bool_decide (val pS ∈ [VStr "every frame"]));
          autorewrite with indent; lia. }
      clearbody b0.
      destruct (bool_decide (val pF = VStr "never")
                && bool_decide (val pS ∈ [VStr "on click"; VStr "on valid click"])).
      * bind_inv Hb3 as [b4 d4] Hb4. bind_inv Hb3 as b5 Hb5.
        injection Hb3 as <- <-.
        apply _buttonPressCode_indent in Hb4 as [? ->].
        apply writeClickData_indent in Hb5. lia.
      * destruct (bool_decide (val pF ≠ VStr "never")).
        -- bind_inv Hb3 as [b4 d4] Hb4. bind_inv Hb3 as b5 Hb5.
           bind_inv Hb3 as pC HC. injection Hb3 as <- <-.
           apply _buttonPressCode_indent in Hb4 as [? ->].
           apply writeClickData_indent in Hb5.
           repeat (case_bool_decide || destruct (truthy _));
             autorewrite with indent; lia.
        -- injection Hb3 as <- <-. lia.
    + apply bool_decide_eq_false in HB.
      assert (HSn : val pS = VStr "never")
        by (destruct (decide (val pS = VStr "never")); tauto).
      injection H as <- <-. autorewrite with indent.
      apply andb_false_iff in HA. rewrite HSn in HA.
      destruct HA as [HA|HA].
      * apply bool_decide_eq_false in HA. exfalso. apply HA.
        apply elem_of_cons. now left.
      * apply bool_decide_eq_false in HA.
        assert (val pF = VStr "never")
          by (destruct (decide (val pF = VStr "never")); tauto).
        rewrite bool_decide_eq_true_2 by tauto. lia.
Qed.
End Indentation.

(** ** The example host keeps the contract of the start and stop tests *)

Lemma startTest_returns_its_indent :
  returns_its_indent ExampleHost.startTest.
Proof.
  intros ps buff buff' n. unfold ExampleHost.startTest.
  destruct (ps !! "name"); [|discriminate].
  intros [= <- <-]. now autorewrite with indent.
Qed.

Lemma stopTest_returns_its_indent :
  returns_its_indent ExampleHost.stopTest.
Proof.
  intros ps buff buff' n. unfold ExampleHost.stopTest.
  destruct (ps !! "name"), (ps !! "stopVal"); try (intros [= <- <-]; lia).
  destruct (truthy _); intros [= <- <-]; autorewrite with indent; lia.
Qed.

(** ** Construction *)

Lemma Param_init_Ok pname v vt it cg allowed upd dir p :
  Param_init pname v vt it cg allowed upd dir = Ok p ->
  p = mkParam v vt it cg allowed upd dir /\ (allowed = [] \/ v ∈ allowed).
Proof.
  unfold Param_init.
  destruct (bool_decide (allowed = [])) eqn:E1; simpl.
  - intros [= <-]. apply bool_decide_eq_true in E1. auto.
  - destruct (bool_decide (v ∈ allowed)) eqn:E2; [|discriminate].
    intros [= <-]. apply bool_decide_eq_true in E2. auto.
Qed.

Lemma Param_init_accepts pname v vt it cg allowed upd dir :
  allowed = [] \/ v ∈ allowed ->
  Param_init pname v vt it cg allowed upd dir
  = Ok (mkParam v vt it cg allowed upd dir).
Proof.
  intros H. unfold Param_init.
  destruct (bool_decide (allowed = [])) eqn:E1; [done|].
  destruct (bool_decide (v ∈ allowed)) eqn:E2; [done|].
  apply bool_decide_eq_false in E1, E2. tauto.
Qed.

Lemma Param_init_rejects pname v vt it cg allowed upd dir :
  allowed <> [] -> v ∉ allowed ->
  Param_init pname v vt it cg allowed upd dir
  = Raise (ConfigurationError pname v).
Proof.
  intros H1 H2. unfold Param_init.
  now rewrite (bool_decide_eq_false_2 _ H1), (bool_decide_eq_false_2 _ H2).
Qed.


Section Construction.

Context `{host : Host}.

(** What a successful [__init__] has done. *)
Lemma __init___Ok exp parentName name startType startVal stopType stopVal
    startEstim durationEstim save forceEnd lights clickable timeRelativeTo self :
  __init__ exp parentName name startType startVal stopType stopVal
           startEstim durationEstim save forceEnd lights clickable
           timeRelativeTo = Ok self ->
  exists base,
    BaseComponent_init exp parentName name startType startVal stopType
                       stopVal startEstim durationEstim = Ok base /\
    normalized forceEnd ∈ forceEnd_allowed /\
    timeRelativeTo ∈ timeRelativeTo_allowed /\
    params self =
      <["clickable" := mkParam (VStr "") "list" "single" "Basic" [] "constant" true]>
      (<["timeRelativeTo" := mkParam timeRelativeTo "str" "choice" "Data"
                               timeRelativeTo_allowed "constant" false]>
      (<["lights" := mkParam (VBool true) "bool" "bool" "Basic" [] "constant" true]>
      (<["forceEndRoutineOnPress" := mkParam (normalized forceEnd) "str" "choice"
                               "Basic" forceEnd_allowed "constant" false]>
       (params base)))) /\
    clockStr self = clockStr base.
Proof.
  unfold __init__. intros H.
  bind_inv H as base Hbase. exists base. split; [done|].
  bind_inv H as p1 H1. bind_inv H as p2 H2.
  bind_inv H as p3 H3. bind_inv H as p4 H4.
  apply Param_init_Ok in H1 as [-> [H1|H1]]; [discriminate|].
  apply Param_init_Ok in H2 as [-> _].
  apply Param_init_Ok in H3 as [-> [H3|H3]]; [discriminate|].
  apply Param_init_Ok in H4 as [-> _].
  injection H as <-. simpl. auto.
Qed.

(** The keys a constructed component has: those of the base class and the
    four this class adds. *)
Lemma __init___keys exp parentName name startType startVal stopType stopVal
    startEstim durationEstim save forceEnd lights clickable timeRelativeTo
    self base :
  BaseComponent_init exp parentName name startType startVal stopType
                     stopVal startEstim durationEstim = Ok base ->
  __init__ exp parentName name startType startVal stopType stopVal
           startEstim durationEstim save forceEnd lights clickable
           timeRelativeTo = Ok self ->
  dom (params self) =
    {["forceEndRoutineOnPress"; "lights"; "timeRelativeTo"; "clickable"]}
    ∪ dom (params base).
Proof.
  intros Hbase H. apply __init___Ok in H as (base' & Hbase' & _ & _ & -> & _).
  rewrite Hbase in Hbase'. injection Hbase' as <-.
  rewrite !dom_insert_L. apply set_eq. intros k.
  rewrite !elem_of_union, !elem_of_singleton. tauto.
Qed.

(** [writeFrameCode] reads [saveMouseState]: without the key it raises. *)
Lemma writeFrameCode_reads_saveMouseState self buff r :
  writeFrameCode self buff = Ok r ->
  is_Some (params self !! "saveMouseState").
Proof.
  intros H. unfold writeFrameCode in H.
  bind_inv H as pF HF. bind_inv H as pT HT. bind_inv H as tr Htr.
  bind_inv H as self1 Hself1.
  apply clock_step_params in Hself1 as (Hps & _ & _).
  bind_inv H as pN HN. bind_inv H as [b1 n1] Hb1. bind_inv H as b1' Hb1'.
  bind_inv H as [b2 n2] Hb2. bind_inv H as code Hcode.
  bind_inv H as pS HS. apply getParam_Ok in HS. rewrite Hps in HS. eauto.
Qed.

End Construction.

(** C1. With [forceEndRoutineOnPress = 'never'] and
    [saveMouseState = 'never'], a valid configuration, [writeFrameCode]
    does not leave the indent level where it found it: the level that
    [if ... status == STARTED:] adds is never taken back, and the buffer is
    left one level deeper. (For every other pair of values the level is
    restored, see [writeFrameCode_indent].) *)
Theorem writeFrameCode_never_never_indent `{host : Host}
    (self self' : Component) (buff buff' : IndentingBuffer) (pF pS : Param) :
  returns_its_indent writeStartTestCode ->
  returns_its_indent writeStopTestCode ->
  params self !! "forceEndRoutineOnPress" = Some pF ->
  val pF = VStr "never" ->
  params self !! "saveMouseState" = Some pS ->
  val pS = VStr "never" ->
  writeFrameCode self buff = Ok (self', buff') ->
  indentLevel buff' = indentLevel buff + 1.
Proof.
  intros Hstart Hstop HF HFv HS HSv H.
  rewrite (writeFrameCode_indent _ _ _ _ _ _ Hstart Hstop HF HS H).
  now rewrite bool_decide_eq_true_2.
Qed.

Lemma writeFrameCode_never_never_indent_witness :
  exists self' buff',
    writeFrameCode (host := ExampleHost.host)
      (ExampleHost.configured (VStr "never") (VStr "never")
         (VList ["red"; "blue"]) true (VStr "buttonbox onset"))
      Buffer.fresh = Ok (self', buff')
    /\ indentLevel buff' = indentLevel Buffer.fresh + 1.
Proof.
  eexists _, _. split.
  - vm_compute. reflexivity.
  - eapply (writeFrameCode_never_never_indent (host := ExampleHost.host)
              (ExampleHost.configured (VStr "never") (VStr "never")
                 (VList ["red"; "blue"]) true (VStr "buttonbox onset"))).
    + exact startTest_returns_its_indent.
    + exact stopTest_returns_its_indent.
    + vm_compute. reflexivity.
    + reflexivity.
    + vm_compute. reflexivity.
    + reflexivity.
    + vm_compute. reflexivity.
Defined.

(** C8. [__init__] defines the keys [forceEndRoutineOnPress], [lights],
    [timeRelativeTo] and [clickable] and no other: the argument [save] is
    never stored. When the base class does not define [saveMouseState]
    either, the constructed component has no such key and [writeFrameCode]
    cannot succeed on it: the missing-key lookup is reached. *)
Theorem __init___omits_saveMouseState `{host : Host}
    (exp : Experiment) (parentName : string)
    (name startType startVal stopType stopVal startEstim durationEstim
     save forceEnd lights clickable timeRelativeTo : Val)
    (base self : Component) :
  BaseComponent_init exp parentName name startType startVal stopType
                     stopVal startEstim durationEstim = Ok base ->
  params base !! "saveMouseState" = None ->
  __init__ exp parentName name startType startVal stopType stopVal
           startEstim durationEstim save forceEnd lights clickable
           timeRelativeTo = Ok self ->
  params self !! "saveMouseState" = None /\
  forall buff, exists e, writeFrameCode self buff = Raise e.
Proof.
  intros Hbase Hnone H.
  assert (Hself : params self !! "saveMouseState" = None).
  { apply __init___Ok in H as (base' & Hbase' & _ & _ & -> & _).
    rewrite Hbase in Hbase'. injection Hbase' as <-.
    now rewrite !lookup_insert_ne by discriminate. }
  split; [done|]. intros buff.
  destruct (writeFrameCode self buff) as [r|e] eqn:E; [|eauto].
  apply writeFrameCode_reads_saveMouseState in E as [p Hp]. congruence.
Qed.

Lemma __init___omits_saveMouseState_witness :
  exists self,
    ExampleHost.construct (VStr "any click") (VStr "buttonbox onset") = Ok self
    /\ params self !! "saveMouseState" = None
    /\ forall buff, exists e,
         writeFrameCode (host := ExampleHost.host) self buff = Raise e.
Proof.
  destruct (ExampleHost.construct (VStr "any click") (VStr "buttonbox onset"))
    as [self|e] eqn:E; [|vm_compute in E; discriminate].
  exists self. split; [reflexivity|].
  unfold ExampleHost.construct in E.
  eapply (__init___omits_saveMouseState (host := ExampleHost.host));
    [ | | exact E]; [reflexivity | vm_compute; reflexivity].
Defined.



(** ** What the phases leave of the component *)

(** Takes a successful run apart, down to its last step. *)
Ltac run_inv H :=
  repeat first
    [ let a := fresh "a" in let Ha := fresh "Ha" in
      apply bind_Ok in H; destruct H as (a & Ha & H)
    | match type of H with
      | (if ?c then _ else _) = Ok _ => destruct c
      | (let '(_, _) := ?x in _) = Ok _ => destruct x
      | (match ?x with Some _ => _ | None => _ end) = Ok _ =>
          destruct x; [|discriminate H]
      end ].

Section Phases.

Context `{host : Host}.

(** [writeFrameCode] hands back [self] with the clock string set, as the
    first step left it. *)
Lemma writeFrameCode_returns_self self buff self' buff' :
  writeFrameCode self buff = Ok (self', buff') ->
  exists pF pT tr,
    getParam self "forceEndRoutineOnPress" = Ok pF /\
    getParam self "timeRelativeTo" = Ok pT /\
    val_lower (val pT) = Ok tr /\
    (if bool_decide (tr = "experiment") then Ok (set_clockStr "globalClock" self)
     else if bool_decide (tr ∈ ["routine"; "buttonbox onset"]) then
       getParam self "name" ≫= λ pN : Param,
         Ok (set_clockStr (Val_str (val pN) +:+ ".buttonboxClock") self)
     else Ok self) = Ok self'.
Proof.
  intros H. unfold writeFrameCode in H.
  bind_inv H as pF HF. bind_inv H as pT HT. bind_inv H as tr Htr.
  bind_inv H as self1 Hself1. exists pF, pT, tr. repeat split; try done.
  bind_inv H as pN HN. bind_inv H as [b1 n1] Hb1. bind_inv H as b1' Hb1'.
  bind_inv H as [b2 n2] Hb2. bind_inv H as code Hcode. bind_inv H as pS HS.
  clear -H Hself1.
  run_inv H; injection H as <- <-; exact Hself1.
Qed.

Lemma writeRoutineStartCode_returns_self self buff self' buff' :
  writeRoutineStartCode self buff = Ok (self', buff') -> self' = self.
Proof.
  intros H. unfold writeRoutineStartCode in H.
  run_inv H; now injection H as <- <-.
Qed.

Lemma writeRoutineEndCode_returns_self self buff self' buff' :
  writeRoutineEndCode self buff = Ok (self', buff') -> self' = self.
Proof.
  intros H. unfold writeRoutineEndCode in H.
  destruct (getParam self "name") as [name|]; [simpl in H|discriminate].
  destruct (getParam self "saveMouseState") as [pS|]; [simpl in H|discriminate].
  destruct (bool_decide (val pS = VStr "nothing")).
  { now injection H as <- <-. }
  bind_inv H as pF HF. bind_inv H as code Hcode. bind_inv H as b1 Hb1.
  bind_inv H as b2 Hb2. clear -H.
  run_inv H; now injection H as <- <-.
Qed.

(** No phase changes the parameters. *)
Lemma expand_params phase self buff self' buff' :
  expand phase self buff = Ok (self', buff') -> params self' = params self.
Proof.
  destruct phase; simpl; intros H.
  - discriminate.
  - now apply writeRoutineStartCode_returns_self in H as ->.
  - apply writeFrameCode_returns_self in H as (pF & pT & tr & _ & _ & _ & H).
    now apply clock_step_params in H.
  - now apply writeRoutineEndCode_returns_self in H as ->.
Qed.

Lemma assign_in_domain self key v self' k allowed :
  assign key v self = Ok self' ->
  allowed <> [] ->
  in_domain self k allowed -> in_domain self' k allowed.
Proof.
  unfold assign, Param_assign. intros H Hne (p & Hp & Hal & Hv).
  bind_inv H as q Hq. bind_inv H as q' Hq'. injection H as <-.
  apply getParam_Ok in Hq. apply Param_init_Ok in Hq' as [-> Hq'].
  unfold in_domain. simpl.
  destruct (decide (key = k)) as [->|Hk].
  - rewrite lookup_insert_eq. rewrite Hp in Hq. injection Hq as <-.
    eexists. split; [done|]. simpl. split; [done|].
    rewrite Hal in Hq'. destruct Hq'; [contradiction|done].
  - rewrite lookup_insert_ne by done. eauto.
Qed.

Lemma reachable_in_domain self :
  reachable self ->
  in_domain self "forceEndRoutineOnPress" forceEnd_allowed /\
  in_domain self "timeRelativeTo" timeRelativeTo_allowed.
Proof.
  induction 1 as [? ? ? ? ? ? ? ? ? ? ? ? ? ? self H
                 | self key v self' _ [IH1 IH2] H
                 | self phase buff self' buff' _ [IH1 IH2] H].
  - apply __init___Ok in H as (base & _ & H1 & H2 & Hps & _).
    unfold in_domain. rewrite Hps. split.
    + eexists. split.
      { rewrite !lookup_insert_ne by discriminate. apply lookup_insert_eq. }
      done.
    + eexists. split.
      { rewrite lookup_insert_ne by discriminate. apply lookup_insert_eq. }
      done.
  - split; eapply assign_in_domain; eauto; discriminate.
  - apply expand_params in H. unfold in_domain. rewrite H. auto.
Qed.

End Phases.

Section Determinism.

Context `{host : Host}.

Lemma writeFrameCode_after_clock self s buff :
  (exists pT tr,
     getParam self "timeRelativeTo" = Ok pT /\
     val_lower (val pT) = Ok tr /\
     (if bool_decide (tr = "experiment")
      then Ok (set_clockStr "globalClock" self)
      else if bool_decide (tr ∈ ["routine"; "buttonbox onset"]) then
        getParam self "name" ≫= λ pN : Param,
          Ok (set_clockStr (Val_str (val pN) +:+ ".buttonboxClock") self)
      else Ok self) = Ok (set_clockStr s self)) ->
  writeFrameCode (set_clockStr s self) buff = writeFrameCode self buff.
Proof.
  intros (pT & tr & HT & Htr & Hstep).
  unfold writeFrameCode.
  change (getParam (set_clockStr s self)) with (getParam self).
  destruct (getParam self "forceEndRoutineOnPress") as [pF|]; [|reflexivity].
  rewrite HT. cbn [mbind result_bind]. rewrite Htr. cbn [mbind result_bind].
  destruct (bool_decide (tr = "experiment")).
  - injection Hstep as <-. reflexivity.
  - destruct (bool_decide (tr ∈ ["routine"; "buttonbox onset"])).
    + destruct (getParam self "name") as [pN|]; [|discriminate].
      injection Hstep as <-. reflexivity.
    + injection Hstep as <-. reflexivity.
Qed.

End Determinism.

(** C5. A value outside the declared set is refused when it is assigned,
    by the constructor and by a later assignment alike, with a
    configuration error; so every component a build pass can meet (built by
    [__init__], changed by assignments, with phases run in between) holds
    an allowed value in [forceEndRoutineOnPress] and in [timeRelativeTo],
    and that is all a generation phase can read there. *)
Theorem out_of_domain_raises_at_assignment `{host : Host} :
  (forall exp parentName name startType startVal stopType stopVal
          startEstim durationEstim save forceEnd lights clickable
          timeRelativeTo base,
     BaseComponent_init exp parentName name startType startVal stopType
                        stopVal startEstim durationEstim = Ok base ->
     (normalized forceEnd ∉ forceEnd_allowed ->
      __init__ exp parentName name startType startVal stopType stopVal
               startEstim durationEstim save forceEnd lights clickable
               timeRelativeTo
      = Raise (ConfigurationError "forceEndRoutineOnPress"
                                  (normalized forceEnd))) /\
     (normalized forceEnd ∈ forceEnd_allowed ->
      timeRelativeTo ∉ timeRelativeTo_allowed ->
      __init__ exp parentName name startType startVal stopType stopVal
               startEstim durationEstim save forceEnd lights clickable
               timeRelativeTo
      = Raise (ConfigurationError "timeRelativeTo" timeRelativeTo))) /\
  (forall self key v p,
     params self !! key = Some p ->
     allowedVals p <> [] -> v ∉ allowedVals p ->
     assign key v self = Raise (ConfigurationError key v)) /\
  (forall self,
     reachable self ->
     in_domain self "forceEndRoutineOnPress" forceEnd_allowed /\
     in_domain self "timeRelativeTo" timeRelativeTo_allowed).
Proof.
  split; [|split].
  - intros exp parentName name startType startVal stopType stopVal
      startEstim durationEstim save forceEnd lights clickable
      timeRelativeTo base Hbase.
    unfold __init__. rewrite Hbase. cbn [mbind result_bind].
    fold (normalized forceEnd). fold forceEnd_allowed.
    fold timeRelativeTo_allowed. split.
    + intros Hout.
      now rewrite (Param_init_rejects _ _ _ _ _ forceEnd_allowed).
    + intros Hin Hout.
      rewrite (Param_init_accepts "forceEndRoutineOnPress") by auto.
      cbn [mbind result_bind].
      rewrite (Param_init_accepts "lights") by auto.
      cbn [mbind result_bind].
      now rewrite (Param_init_rejects _ _ _ _ _ timeRelativeTo_allowed).
  - intros self key v p Hp Hne Hout. unfold assign, getParam. rewrite Hp.
    cbn [mbind result_bind]. unfold Param_assign.
    now rewrite Param_init_rejects.
  - intros self. apply reachable_in_domain.
Qed.

Lemma out_of_domain_raises_at_assignment_witness :
  ExampleHost.construct (VStr "sometimes") (VStr "routine")
  = Raise (ConfigurationError "forceEndRoutineOnPress" (VStr "sometimes"))
  /\ exists self,
       ExampleHost.construct (VBool false) (VStr "Routine") = 
       Raise (ConfigurationError "timeRelativeTo" (VStr "Routine")) /\
       ExampleHost.construct (VBool false) (VStr "routine") = Ok self /\
       assign "timeRelativeTo" (VStr "Routine") self
       = Raise (ConfigurationError "timeRelativeTo" (VStr "Routine")) /\
       in_domain self "forceEndRoutineOnPress" forceEnd_allowed /\
       in_domain self "timeRelativeTo" timeRelativeTo_allowed.
Proof.
  destruct (out_of_domain_raises_at_assignment (host := ExampleHost.host))
    as (Hinit & Hassign & Hreach).
  split.
  - eapply (Hinit ExampleHost.experiment "trial" (VStr "buttonbox")
              (VStr "time (s)") (VNum 0) (VStr "duration (s)") (VNum 1)
              (VStr "") (VStr "") (VStr "on click") (VStr "sometimes")).
    + reflexivity.
    + intros H. vm_compute in H. elem_of_false H.
  - destruct (ExampleHost.construct (VBool false) (VStr "routine"))
      as [self|e] eqn:E; [|vm_compute in E; discriminate].
    exists self. split; [|split; [reflexivity|split]].
    + eapply (Hinit ExampleHost.experiment "trial" (VStr "buttonbox")
                (VStr "time (s)") (VNum 0) (VStr "duration (s)") (VNum 1)
                (VStr "") (VStr "") (VStr "on click") (VBool false)).
      * reflexivity.
      * vm_compute. apply elem_of_cons. now left.
      * intros H. elem_of_false H.
    + assert (Hp : exists p, params self !! "timeRelativeTo" = Some p /\
                             allowedVals p = timeRelativeTo_allowed).
      { unfold ExampleHost.construct in E.
        apply __init___Ok in E as (base & _ & _ & _ & -> & _).
        eexists. split.
        - rewrite lookup_insert_ne by discriminate. apply lookup_insert_eq.
        - reflexivity. }
      destruct Hp as (p & Hp & Hal).
      apply (Hassign self "timeRelativeTo" (VStr "Routine") p Hp).
      * rewrite Hal. discriminate.
      * rewrite Hal. intros H. elem_of_false H.
    + apply Hreach. unfold ExampleHost.construct in E.
      eapply reachable_init. exact E.
Defined.

(** C6. A generation phase is a function of the component and of the
    buffer it is given. Run a second time on the component as the first
    run left it, from a buffer in the same state, it leaves the component
    as it is and writes the same chunks, hence the same bytes. *)
Theorem expand_twice_same_output `{host : Host}
    (phase : GenerationPhase) (self self1 : Component)
    (buff buff1 : IndentingBuffer) :
  expand phase self buff = Ok (self1, buff1) ->
  exists buff2,
    expand phase self1 buff = Ok (self1, buff2) /\
    written buff2 = written buff1 /\
    getvalue buff2 = getvalue buff1.
Proof.
  intros H. exists buff1. split; [|done].
  destruct phase; simpl in *.
  - discriminate.
  - pose proof (writeRoutineStartCode_returns_self _ _ _ _ H) as ->. exact H.
  - pose proof (writeFrameCode_returns_self _ _ _ _ H)
      as (pF & pT & tr & HF & HT & Htr & Hstep).
    destruct (bool_decide (tr = "experiment")) eqn:E1.
    + injection Hstep as <-.
      rewrite writeFrameCode_after_clock; [done|].
      exists pT, tr. now rewrite E1.
    + destruct (bool_decide (tr ∈ ["routine"; "buttonbox onset"])) eqn:E2.
      * destruct (getParam self "name") as [pN|] eqn:EN; [|discriminate].
        injection Hstep as <-.
        rewrite writeFrameCode_after_clock; [done|].
        exists pT, tr. now rewrite E1, E2, EN.
      * now injection Hstep as <-.
  - pose proof (writeRoutineEndCode_returns_self _ _ _ _ H) as ->. exact H.
Qed.

Lemma expand_twice_same_output_witness :
  exists self1 buff1 buff2,
    expand (host := ExampleHost.host) FrameUpdate
      (ExampleHost.configured (VStr "any click") (VStr "on click")
         (VList ["red"; "blue"]) true (VStr "buttonbox onset"))
      Buffer.fresh = Ok (self1, buff1) /\
    expand (host := ExampleHost.host) FrameUpdate self1 Buffer.fresh
      = Ok (self1, buff2) /\
    written buff2 = written buff1 /\
    getvalue buff2 = getvalue buff1.
Proof.
  destruct (expand (host := ExampleHost.host) FrameUpdate
      (ExampleHost.configured (VStr "any click") (VStr "on click")
         (VList ["red"; "blue"]) true (VStr "buttonbox onset"))
      Buffer.fresh) as [[self1 buff1]|e] eqn:E;
    [|vm_compute in E; discriminate].
  destruct (expand_twice_same_output (host := ExampleHost.host) _ _ _ _ _ E)
    as (buff2 & H2). exists self1, buff1, buff2. split; [reflexivity|exact H2].
Defined.

(** ** Strings and lines *)

Lemma sapp_cons (c : ascii) (a b : string) :
  String c a +:+ b = String c (a +:+ b).
Proof. reflexivity. Qed.

Lemma sapp_nil_r (s : string) : s +:+ "" = s.
Proof. induction s as [|c s IH]; [done|]. now rewrite sapp_cons, IH. Qed.

Lemma sapp_assoc (a b c : string) : (a +:+ b) +:+ c = a +:+ (b +:+ c).
Proof. induction a as [|x a IH]; [done|]. now rewrite !sapp_cons, IH. Qed.

Lemma contains_app (a b : string) (c : ascii) :
  PyStr.contains (a +:+ b) c = PyStr.contains a c || PyStr.contains b c.
Proof.
  induction a as [|x a IH]; [done|]. rewrite sapp_cons. cbn.
  rewrite IH. now rewrite orb_assoc.
Qed.

Lemma one_line_app (a b : string) :
  one_line (a +:+ b) <-> one_line a /\ one_line b.
Proof. unfold one_line. rewrite contains_app. apply orb_false_iff. Qed.

Lemma rev_append_rev_append (a b c : string) :
  PyStr.rev_append (PyStr.rev_append a b) c = PyStr.rev_append b (a +:+ c).
Proof.
  revert b c. induction a as [|x a IH]; intros b c; [done|].
  rewrite sapp_cons. cbn. now rewrite IH.
Qed.

Lemma rev_rev_append (a : string) : PyStr.rev (PyStr.rev_append a "") = a.
Proof. unfold PyStr.rev. rewrite rev_append_rev_append. apply sapp_nil_r. Qed.

Lemma splitlines_aux_app (a rest cur : string) :
  one_line a ->
  PyStr.splitlines_aux (a +:+ rest) cur
  = PyStr.splitlines_aux rest (PyStr.rev_append a cur).
Proof.
  unfold one_line. revert cur. induction a as [|x a IH]; intros cur Ha; [done|].
  rewrite sapp_cons. cbn in Ha |- *. apply orb_false_iff in Ha as [Hx Ha].
  rewrite Hx. now apply IH.
Qed.

Lemma splitlines_line (a rest : string) :
  one_line a ->
  PyStr.splitlines (a +:+ nl +:+ rest) = a :: PyStr.splitlines rest.
Proof.
  intros Ha. unfold PyStr.splitlines. rewrite splitlines_aux_app by done.
  change (nl +:+ rest) with (String (ascii_of_nat 10) rest).
  cbn. now rewrite rev_rev_append.
Qed.

Lemma splitlines_unlines (ls : list string) :
  Forall one_line ls -> PyStr.splitlines (unlines ls) = ls.
Proof.
  induction 1 as [|l ls Hl _ IH]; [done|].
  cbn [unlines fold_right]. rewrite splitlines_line by done.
  f_equal. exact IH.
Qed.

Lemma endswith_app (a b : string) (c : ascii) :
  b <> "" -> PyStr.endswith (a +:+ b) c = PyStr.endswith b c.
Proof.
  intros Hb. induction a as [|x a IH]; [done|].
  rewrite sapp_cons. cbn. destruct (a +:+ b) eqn:E; [|exact IH].
  destruct a; [contradiction | discriminate].
Qed.

Lemma endswith_unlines (ls : list string) :
  ls <> [] -> PyStr.endswith (unlines ls) (ascii_of_nat 10) = true.
Proof.
  induction ls as [|l ls IH]; [done|]. intros _.
  cbn [unlines fold_right]. rewrite endswith_app by (destruct ls; discriminate).
  destruct ls as [|l' ls]; [reflexivity|].
  rewrite (endswith_app nl) by (cbn [unlines fold_right]; destruct l'; discriminate).
  apply IH. discriminate.
Qed.

Lemma endswith_contains (s : string) (c : ascii) :
  PyStr.endswith s c = true -> PyStr.contains s c = true.
Proof.
  induction s as [|x s IH]; [done|]. cbn.
  destruct s; [now rewrite orb_false_r|].
  intros H. rewrite (IH H). apply orb_true_r.
Qed.

Lemma unlines_app (ls ls' : list string) :
  unlines (ls ++ ls') = unlines ls +:+ unlines ls'.
Proof.
  induction ls as [|l ls IH]; [done|].
  cbn [unlines fold_right app]. fold (unlines (ls ++ ls')). fold (unlines ls).
  now rewrite IH, !sapp_assoc.
Qed.

(** ** The buffer: what is written *)

Lemma fold_writeIndented (ls : list string) buff :
  fold_left (fun b line => writeIndented (line +:+ nl) b) ls buff
  = mkBuffer (indentLevel buff) (written buff ++ chunks (indentLevel buff) ls).
Proof.
  revert buff. induction ls as [|l ls IH]; intros buff.
  - cbn. rewrite app_nil_r. now destruct buff.
  - cbn [fold_left]. rewrite IH. cbn. now rewrite <- app_assoc.
Qed.

(** [writeIndentedLines] on a text of whole lines. *)
Lemma writeIndentedLines_unlines (ls : list string) buff :
  ls <> [] -> Forall one_line ls ->
  writeIndentedLines (unlines ls) buff
  = mkBuffer (indentLevel buff) (written buff ++ chunks (indentLevel buff) ls).
Proof.
  intros Hne Hls. unfold writeIndentedLines.
  rewrite endswith_unlines by done. rewrite splitlines_unlines by done.
  apply fold_writeIndented.
Qed.

(** [writeIndentedLines] on a text whose last line is not closed. *)
Lemma writeIndentedLines_open (ls : list string) (l : string) buff :
  l <> "" -> Forall one_line (ls ++ [l]) ->
  writeIndentedLines (unlines ls +:+ l) buff
  = mkBuffer (indentLevel buff)
             (written buff ++ chunks (indentLevel buff) (ls ++ [l])).
Proof.
  intros Hl Hls. unfold writeIndentedLines.
  assert (Hend : PyStr.endswith (unlines ls +:+ l) (ascii_of_nat 10) = false).
  { rewrite endswith_app by done.
    apply Forall_app in Hls as [_ Hl1]. apply Forall_cons in Hl1 as [Hl1 _].
    destruct (PyStr.endswith l _) eqn:E; [|done].
    apply endswith_contains in E. unfold one_line in Hl1. congruence. }
  rewrite Hend.
  replace ((unlines ls +:+ l) +:+ nl) with (unlines (ls ++ [l])).
  2:{ rewrite unlines_app. cbn [unlines fold_right].
      now rewrite sapp_nil_r, sapp_assoc. }
  rewrite splitlines_unlines by done. apply fold_writeIndented.
Qed.

(** The same two facts, for a text given in another form. *)
Lemma writeIndentedLines_lines (text : string) (ls : list string) buff :
  text = unlines ls -> ls <> [] -> Forall one_line ls ->
  writeIndentedLines text buff
  = mkBuffer (indentLevel buff) (written buff ++ chunks (indentLevel buff) ls).
Proof. intros ->. apply writeIndentedLines_unlines. Qed.

Lemma writeIndentedLines_lines_open (text : string) (ls : list string)
    (l : string) buff :
  text = unlines ls +:+ l -> l <> "" -> Forall one_line (ls ++ [l]) ->
  writeIndentedLines text buff
  = mkBuffer (indentLevel buff)
             (written buff ++ chunks (indentLevel buff) (ls ++ [l])).
Proof. intros ->. apply writeIndentedLines_open. Qed.

(** Proves that a text built from literals and names has no line break,
    given that the names have none. *)
Ltac one_line_tac :=
  repeat first
    [ assumption
    | reflexivity
    | exact I
    | apply Forall_nil
    | apply Forall_cons; split
    | apply one_line_app; split ].

(** A text of a template is the [unlines] of its lines. *)
Ltac unlines_eq :=
  cbn [unlines fold_right app]; rewrite ?sapp_assoc, ?sapp_nil_r; reflexivity.

(** Uses a known [params] lookup in the run at hand. *)
Tactic Notation "lookup" constr(E) :=
  rewrite (proj2 (getParam_Ok _ _ _) E); cbn [mbind result_bind].

Tactic Notation "lookup" constr(E) "in" hyp(H) :=
  rewrite (proj2 (getParam_Ok _ _ _) E) in H; cbn [mbind result_bind] in H.

Section RoutineStart.

Context `{host : Host}.

(** C7. At the start of the routine the component writes the comment, the
    device-start call [name.start()] and, where the initializer of the
    list of responses is meant, the text [(name)sResp = []] of the
    template as it stands: the placeholder lacks its [%], the name is not
    put in, and the line is the same for every component. One more line,
    the clock reset, is written exactly when [timeRelativeTo] is
    ['routine'] up to case; for ['buttonbox onset'] and ['experiment']
    there is no such line. *)
Theorem writeRoutineStartCode_lines (self : Component)
    (buff : IndentingBuffer) (pN pT : Param) (t : string) :
  params self !! "name" = Some pN ->
  one_line (Param_str pN) ->
  params self !! "timeRelativeTo" = Some pT ->
  val pT = VStr t ->
  writeRoutineStartCode self buff
  = Ok (self,
        mkBuffer (indentLevel buff)
          (written buff ++
           chunks (indentLevel buff)
             (routineStartLines (Param_str pN) ++
              if bool_decide (PyStr.lower t = "routine")
              then [clockResetLine (Param_str pN)] else []))).
Proof.
  intros HN Hname HT Ht.
  unfold writeRoutineStartCode, format_params.
  lookup HT. rewrite Ht. cbn [mbind result_bind val_lower]. lookup HN.
  destruct (bool_decide (PyStr.lower t = "routine")).
  - rewrite <- (writeIndentedLines_unlines
                  (routineStartLines (Param_str pN) ++
                   [clockResetLine (Param_str pN)])).
    + do 3 f_equal. unfold routineStartLines, clockResetLine. unlines_eq.
    + discriminate.
    + unfold routineStartLines, clockResetLine. cbn [app]. one_line_tac.
  - rewrite <- (writeIndentedLines_unlines
                  (routineStartLines (Param_str pN) ++ [])).
    + do 3 f_equal. unfold routineStartLines. unlines_eq.
    + discriminate.
    + unfold routineStartLines. cbn [app]. one_line_tac.
Qed.

End RoutineStart.

Lemma writeRoutineStartCode_lines_witness :
  writeRoutineStartCode (host := ExampleHost.host)
    (ExampleHost.configured (VStr "any click") (VStr "on click")
       (VList ["red"; "blue"]) true (VStr "Routine"))
    Buffer.fresh
  = Ok (ExampleHost.configured (VStr "any click") (VStr "on click")
          (VList ["red"; "blue"]) true (VStr "Routine"),
        mkBuffer 0
          (chunks 0
             ["# starting the buttonbox and setup a python list for storing the button presses of buttonbox";
              "buttonbox.start()";
              "(name)sResp = []";
              "buttonbox.buttonboxClock.reset()"])).
Proof.
  rewrite (writeRoutineStartCode_lines (host := ExampleHost.host) _ _
             (ExampleHost.plainParam (VStr "buttonbox") "code")
             (ExampleHost.plainParam (VStr "Routine") "str") "Routine").
  - reflexivity.
  - vm_compute. reflexivity.
  - reflexivity.
  - vm_compute. reflexivity.
  - reflexivity.
Defined.

(** ** The end of the routine *)

Lemma splitlines_aux_nonempty (s cur : string) :
  s <> "" \/ cur <> "" -> PyStr.splitlines_aux s cur <> [].
Proof.
  revert cur. induction s as [|c s IH]; intros cur H.
  - destruct H as [H|H]; [done|]. cbn. now destruct cur.
  - cbn. destruct (bool_decide _); [discriminate|]. apply IH. now right.
Qed.

(** [writeIndentedLines] writes at least one chunk, whatever the text. *)
Lemma writeIndentedLines_writes (text : string) buff :
  exists c cs,
    written (writeIndentedLines text buff) = written buff ++ c :: cs.
Proof.
  unfold writeIndentedLines. rewrite fold_writeIndented. cbn [written].
  set (text' := if PyStr.endswith text _ then text else text +:+ nl).
  assert (Hne : text' <> "").
  { subst text'. destruct (PyStr.endswith text _) eqn:E.
    - now destruct text.
    - destruct text; discriminate. }
  destruct (PyStr.splitlines text') as [|l ls] eqn:E.
  - exfalso. revert E. apply splitlines_aux_nonempty. now left.
  - cbn. eauto.
Qed.

Section RoutineEnd.

Context `{host : Host}.

(** The early return of [writeRoutineEndCode] is taken for the value
    ['nothing']. *)
Lemma writeRoutineEndCode_nothing self buff pN pS :
  params self !! "name" = Some pN ->
  params self !! "saveMouseState" = Some pS ->
  val pS = VStr "nothing" ->
  writeRoutineEndCode self buff = Ok (self, buff).
Proof.
  intros HN HS Hv. unfold writeRoutineEndCode.
  lookup HN. lookup HS. now rewrite Hv.
Qed.

(** C2. The early return of [writeRoutineEndCode] is for the value
    ['nothing']: with it nothing is written and the enclosing loop is not
    looked at. With [saveMouseState = 'never'] the early return is not
    taken: the enclosing loop is looked up, the comment that names it is
    written, no data line is written, the parent's end-of-routine code is
    asked for, and the [nextEntry] call is written when the loop is the
    experiment handler. *)
Theorem writeRoutineEndCode_never_writes (self self' : Component)
    (buff buff' : IndentingBuffer) (pS : Param) :
  params self !! "saveMouseState" = Some pS ->
  (val pS = VStr "nothing" ->
   is_Some (params self !! "name") ->
   writeRoutineEndCode self buff = Ok (self, buff)) /\
  (val pS = VStr "never" ->
   writeRoutineEndCode self buff = Ok (self', buff') ->
   exists code c cs buff1 pL,
     routineEndComment (currLoop self) = Ok code /\
     written (writeIndentedLines code buff) = written buff ++ c :: cs /\
     BaseComponent_writeRoutineEndCode (params self)
       (writeIndentedLines code buff) = Ok buff1 /\
     loop_params (currLoop self) !! "name" = Some pL /\
     buff' =
       if bool_decide (val pL = VStr (loop_name (_expHandler (exp self))))
       then writeIndented (loop_name (_expHandler (exp self)) +:+
                           ".nextEntry()" +:+ nl) buff1
       else buff1).
Proof.
  intros HS. split.
  { intros Hv [pN HN]. now apply (writeRoutineEndCode_nothing _ _ pN pS). }
  intros Hv H. unfold writeRoutineEndCode in H.
  bind_inv H as pN HN. lookup HS in H. rewrite Hv in H.
  rewrite (bool_decide_eq_false_2 (VStr "never" = VStr "nothing")) in H
    by discriminate.
  bind_inv H as pF HF. bind_inv H as code Hcode.
  rewrite (bool_decide_eq_false_2 (VStr "never" = VStr "final")) in H
    by discriminate.
  rewrite (bool_decide_eq_false_2 (VStr "never" ≠ VStr "never")) in H
    by (intros Hne; now apply Hne).
  cbn [mbind result_bind] in H.
  bind_inv H as buff1 Hbase. bind_inv H as pL HL.
  destruct (writeIndentedLines_writes code buff) as (c & cs & Hw).
  exists code, c, cs, buff1, pL. repeat split; try done.
  - unfold loopNameParam in HL.
    destruct (loop_params (currLoop self) !! "name"); congruence.
  - destruct (bool_decide _); now injection H as _ <-.
Qed.

End RoutineEnd.

Lemma writeRoutineEndCode_never_writes_witness :
  (exists self' buff',
     writeRoutineEndCode (host := ExampleHost.host)
       (ExampleHost.configured (VStr "any click") (VStr "never")
          (VList ["red"; "blue"]) true (VStr "buttonbox onset"))
       Buffer.fresh = Ok (self', buff') /\
     written buff'
     = [mkChunk 0 ("# store data for trials (TrialHandler)" +:+ nl)]) /\
  writeRoutineEndCode (host := ExampleHost.host)
    (ExampleHost.configured (VStr "any click") (VStr "nothing")
       (VList ["red"; "blue"]) true (VStr "buttonbox onset"))
    Buffer.fresh
  = Ok (ExampleHost.configured (VStr "any click") (VStr "nothing")
          (VList ["red"; "blue"]) true (VStr "buttonbox onset"),
        Buffer.fresh).
Proof.
  split.
  - destruct (writeRoutineEndCode (host := ExampleHost.host)
        (ExampleHost.configured (VStr "any click") (VStr "never")
           (VList ["red"; "blue"]) true (VStr "buttonbox onset"))
        Buffer.fresh) as [[self' buff']|e] eqn:E;
      [|vm_compute in E; discriminate].
    exists self', buff'. split; [reflexivity|].
    assert (HS : params (ExampleHost.configured (VStr "any click")
                           (VStr "never") (VList ["red"; "blue"]) true
                           (VStr "buttonbox onset"))
                 !! "saveMouseState"
                 = Some (ExampleHost.plainParam (VStr "never") "str"))
      by (vm_compute; reflexivity).
    destruct (proj2 (writeRoutineEndCode_never_writes
                       (host := ExampleHost.host) _ _ _ _ _ HS) eq_refl E)
      as (code & c & cs & buff1 & pL & Hcode & Hw & Hbase & HL & ->).
    vm_compute in Hcode. injection Hcode as <-.
    vm_compute in HL. injection HL as <-.
    vm_compute in Hbase. injection Hbase as <-.
    vm_compute. reflexivity.
  - assert (HS : params (ExampleHost.configured (VStr "any click")
                           (VStr "nothing") (VList ["red"; "blue"]) true
                           (VStr "buttonbox onset"))
                 !! "saveMouseState"
                 = Some (ExampleHost.plainParam (VStr "nothing") "str"))
      by (vm_compute; reflexivity).
    apply (proj1 (writeRoutineEndCode_never_writes
                    (host := ExampleHost.host) _
                    (ExampleHost.configured (VStr "any click")
                       (VStr "nothing") (VList ["red"; "blue"]) true
                       (VStr "buttonbox onset"))
                    Buffer.fresh Buffer.fresh _ HS) eq_refl).
    exists (ExampleHost.plainParam (VStr "buttonbox") "code").
    vm_compute. reflexivity.
Defined.

(** With ['never'] one line is written, and it names the loop: the phase
    does not emit zero lines and does consult the enclosing loop. *)
Lemma writeRoutineEndCode_never_counterexample :
  ExampleHost.listing
    (writeRoutineEndCode (host := ExampleHost.host)
       (ExampleHost.configured (VStr "any click") (VStr "never")
          (VList ["red"; "blue"]) true (VStr "buttonbox onset"))
       Buffer.fresh)
  = Some [(0, "# store data for trials (TrialHandler)")] /\
  ExampleHost.listing
    (writeRoutineEndCode (host := ExampleHost.host)
       (ExampleHost.configured (VStr "any click") (VStr "never")
          (VList ["red"; "blue"]) true (VStr "buttonbox onset"))
       Buffer.fresh)
  <> Some [].
Proof. split; [vm_compute; reflexivity | vm_compute; discriminate]. Qed.

(** ** The frame code for ['any click'] *)

Lemma last_char_cons (c : ascii) (s : string) :
  exists d, last_char (String c s) = Some d.
Proof.
  revert c. induction s as [|y s IH]; intros c; [now exists c|].
  destruct (IH y) as [d Hd]. exists d. exact Hd.
Qed.

Lemma last_char_app (a b : string) :
  last_char (a +:+ b) =
  match last_char b with
  | Some c => Some c
  | None => last_char a
  end.
Proof.
  induction a as [|x a IH].
  - change ("" +:+ b) with b. cbn. now destruct (last_char b).
  - destruct a as [|y a].
    + change (String x "" +:+ b) with (String x b).
      destruct b as [|y b]; [reflexivity|].
      destruct (last_char_cons y b) as [d Hd].
      change (last_char (String x (String y b))) with (last_char (String y b)).
      now rewrite Hd.
    + change (last_char (String x (String y a) +:+ b))
        with (last_char (String y a +:+ b)).
      exact IH.
Qed.

Lemma drop_last_app_nl (l : string) : PyStr.drop_last (l +:+ nl) = l.
Proof.
  induction l as [|c l IH]; [done|].
  rewrite sapp_cons. cbn [PyStr.drop_last]. rewrite IH.
  destruct (l +:+ nl) eqn:E; [|done]. destruct l; discriminate.
Qed.

(** The statement of a line written with its newline is the line. *)
Lemma stmt_line (L : Z) (l : string) : stmt (mkChunk L (l +:+ nl)) = l.
Proof.
  unfold stmt. cbn [c_text]. rewrite endswith_app by discriminate.
  cbn. apply drop_last_app_nl.
Qed.

(** Lines are told apart by their last character. *)
Lemma last_char_neq (a b : string) : last_char a <> last_char b -> a <> b.
Proof. congruence. Qed.

Ltac last_char_tac :=
  apply last_char_neq; rewrite ?last_char_app; cbn; discriminate.

Lemma plain_line (L : Z) (l : string) :
  last_char l <> Some "e"%char -> last_char l <> Some "?"%char ->
  plain (mkChunk L (l +:+ nl)).
Proof.
  intros H1 H2. unfold plain. rewrite stmt_line.
  split; apply last_char_neq; cbn; congruence.
Qed.

Lemma plain_text (L : Z) (text l : string) :
  text = l +:+ nl ->
  last_char l <> Some "e"%char -> last_char l <> Some "?"%char ->
  plain (mkChunk L text).
Proof. intros ->. apply plain_line. Qed.

Ltac plain_tac :=
  repeat first
    [ exact I
    | apply Forall_nil
    | apply Forall_cons; split
    | apply Forall_app; split
    | apply plain_line; rewrite ?last_char_app; cbn; discriminate ].

Section AnyClick.

Context `{host : Host}.

Lemma _buttonPressCode_written self buff dedent buff' dedent' pN :
  params self !! "name" = Some pN ->
  one_line (Param_str pN) ->
  _buttonPressCode self buff dedent = Ok (buff', dedent') ->
  buff' = mkBuffer (indentLevel buff + 1 + 1)
            (written buff ++ pressChunks (Param_str pN) (indentLevel buff))
  /\ dedent' = dedent + 1 + 1.
Proof.
  intros HN Hname. unfold _buttonPressCode, format_params. lookup HN.
  intros [= <- <-]. split; [|done].
  rewrite (writeIndentedLines_lines_open _
             ["buttons = " +:+ Param_str pN +:+ ".getKeys()"] buttonStateGuard
             buff);
    [ | unlines_eq | discriminate | cbn [app]; one_line_tac ].
  match goal with
  | |- context [writeIndentedLines ?t ?b] =>
      rewrite (writeIndentedLines_lines_open t
                 ["if buttons > 0:  # state changed to a new click"]
                 "lastResp = buttons[-1]" b);
      [ | unlines_eq | discriminate | cbn [app]; one_line_tac ]
  end.
  unfold setIndentLevel, writeIndented, pressChunks. cbn.
  rewrite <- !app_assoc. reflexivity.
Qed.

Lemma mouseCode_unlines (name clock : string) :
  mouseCode name clock = unlines (mouseLines name clock).
Proof. unfold mouseCode, mouseLines. unlines_eq. Qed.

Lemma mouseLines_one_line (name clock : string) :
  one_line name -> one_line clock -> Forall one_line (mouseLines name clock).
Proof. intros Hn Hc. unfold mouseLines. one_line_tac. Qed.

Lemma writeIndentedLines_mouseCode name clock buff :
  one_line name -> one_line clock ->
  writeIndentedLines (mouseCode name clock) buff
  = mkBuffer (indentLevel buff)
      (written buff ++ chunks (indentLevel buff) (mouseLines name clock)).
Proof.
  intros Hn Hc. rewrite mouseCode_unlines.
  apply writeIndentedLines_unlines; [discriminate|].
  now apply mouseLines_one_line.
Qed.

Lemma writeClickData_written self save name clock buff buff' :
  one_line name -> one_line clock ->
  writeClickData self save (mouseCode name clock) buff = Ok buff' ->
  exists clickable,
    buff' = mkBuffer (indentLevel buff)
              (written buff ++
               dataChunks save clickable name clock (indentLevel buff)).
Proof.
  intros Hn Hc. unfold writeClickData, dataChunks.
  destruct (bool_decide (save ∈ [VStr "on click"])).
  - intros [= <-]. exists VNone. now apply writeIndentedLines_mouseCode.
  - intros H. bind_inv H as pC HC. exists (val pC).
    destruct (truthy (val pC) && bool_decide (save ∈ [VStr "on valid click"])).
    + injection H as <-.
      rewrite (writeIndentedLines_lines _ ["if gotValidClick:"] buff);
        [ | unlines_eq | discriminate | one_line_tac ].
      rewrite writeIndentedLines_mouseCode by done.
      unfold setIndentLevel. cbn. rewrite <- !app_assoc.
      f_equal. lia.
    + injection H as <-. rewrite app_nil_r. now destruct buff.
Qed.

Lemma clock_step_one_line (t : string) self self1 pN :
  params self !! "name" = Some pN ->
  one_line (Val_str (val pN)) ->
  VStr t ∈ timeRelativeTo_allowed ->
  (if bool_decide (PyStr.lower t = "experiment")
   then Ok (set_clockStr "globalClock" self)
   else if bool_decide (PyStr.lower t ∈ ["routine"; "buttonbox onset"]) then
     getParam self "name" ≫= λ pN : Param,
       Ok (set_clockStr (Val_str (val pN) +:+ ".buttonboxClock") self)
   else Ok self) = Ok self1 ->
  exists clock, clockStr self1 = Some clock /\ one_line clock.
Proof.
  intros HN Hname Ht.
  repeat (apply elem_of_cons in Ht as [Ht|Ht];
          [injection Ht as ->; cbn; lookup HN; intros [= <-]; cbn;
           eexists; split; [reflexivity|]; one_line_tac|]).
  now apply elem_of_nil in Ht.
Qed.

Lemma writeFrameCode_click_written self buff self' buff' pF pN pT f :
  writes_plain (params self) writeStartTestCode ->
  writes_plain (params self) writeStopTestCode ->
  params self !! "forceEndRoutineOnPress" = Some pF ->
  val pF = VStr f ->
  f ∈ ["any click"; "correct click"] ->
  params self !! "name" = Some pN ->
  one_line (Param_str pN) ->
  one_line (Val_str (val pN)) ->
  params self !! "timeRelativeTo" = Some pT ->
  val pT ∈ timeRelativeTo_allowed ->
  writeFrameCode self buff = Ok (self', buff') ->
  exists pre L pS clickable clock,
    params self !! "saveMouseState" = Some pS /\
    Forall plain pre /\
    one_line clock /\
    written buff' =
      written buff ++ pre ++
      clickBlock f (val pS) clickable (Param_str pN) clock L.
Proof.
  intros Hstart Hstop HF HFv Hf HN Hname Hname' HT HTv H.
  unfold writeFrameCode in H.
  lookup HF in H. lookup HT in H. rewrite HFv in H.
  destruct (val pT) as [| | |t|] eqn:Ht;
    try (exfalso; unfold timeRelativeTo_allowed in HTv; elem_of_false HTv).
  cbn [val_lower mbind result_bind] in H.
  bind_inv H as self1 Hself1.
  destruct (clock_step_one_line _ _ _ _ HN Hname' HTv Hself1)
    as (clock & Hclock & Hclock1).
  apply clock_step_params in Hself1 as (Hps & _ & _).
  rewrite <- Hps in Hstart, Hstop.
  assert (HN1 : params self1 !! "name" = Some pN) by now rewrite Hps.
  lookup HN1 in H.
  bind_inv H as [b1 n1] Hb1. apply Hstart in Hb1 as (cs1 & Hcs1 & Hplain1).
  bind_inv H as b1' Hb1'.
  assert (Hinit : exists cs, written b1' = written b1 ++ cs /\ Forall plain cs).
  { destruct (bool_decide (n1 ≠ 0)).
    - bind_inv Hb1' as pNew HNew. unfold format_params in Hb1'.
      lookup HN1 in Hb1'. injection Hb1' as <-.
      destruct (Param_bool pNew), (bool_decide (PyStr.lower t = "buttonbox onset"));
        match goal with
        | |- context [writeIndentedLines ?text b1] =>
            first
              [ rewrite (writeIndentedLines_lines text
                  [clockResetLine (Param_str pN);
                   "prevButtonState = " +:+ Param_str pN +:+ ".getKeys()" +:+
                   "  # if button is down already this ISN'T a new click"] b1);
                [ | unfold clockResetLine; unlines_eq | discriminate
                  | unfold clockResetLine; one_line_tac ]
              | rewrite (writeIndentedLines_lines text
                  ["prevButtonState = " +:+ Param_str pN +:+ ".getKeys()" +:+
                   "  # if button is down already this ISN'T a new click"] b1);
                [ | unlines_eq | discriminate | one_line_tac ]
              | rewrite (writeIndentedLines_lines text
                  [clockResetLine (Param_str pN);
                   "prevButtonState = []" +:+
                   "  # if now button is down we will treat as 'new' click"] b1);
                [ | unfold clockResetLine; unlines_eq | discriminate
                  | unfold clockResetLine; one_line_tac ]
              | rewrite (writeIndentedLines_lines text
                  ["prevButtonState = []" +:+
                   "  # if now button is down we will treat as 'new' click"] b1);
                [ | unlines_eq | discriminate | one_line_tac ] ]
        end;
        (eexists; split; [reflexivity|]; unfold chunks, clockResetLine;
         cbn [map]; plain_tac).
    - injection Hb1' as <-. exists []. now rewrite app_nil_r. }
  clear Hb1'. destruct Hinit as (cs0 & Hcs0 & Hplain0).
  bind_inv H as [b2 n2] Hb2. apply Hstop in Hb2 as (cs2 & Hcs2 & Hplain2).
  unfold format_params in H at 1. lookup HN1 in H.
  bind_inv H as pS HS. apply getParam_Ok in HS.
  rewrite Hps in HS.
  set (b3 := setIndentLevel 1 true
               (writeIndented _ (setIndentLevel (- n2) true b2))) in H.
  assert (Hb3 : exists pre, written b3 = written buff ++ pre /\ Forall plain pre).
  { eexists. split.
    - subst b3. cbn [written setIndentLevel writeIndented].
      rewrite Hcs2. cbn [written setIndentLevel]. rewrite Hcs0, Hcs1.
      cbn [written writeIndented]. rewrite <- !app_assoc. reflexivity.
    - repeat first
        [ assumption
        | apply Forall_app; split
        | apply Forall_cons; split
        | exact I
        | apply Forall_nil ].
      + apply (plain_text _ _ ("# *" +:+ Param_str pN +:+ "* updates"));
          [now rewrite ?sapp_assoc | |];
          rewrite ?last_char_app; cbn; discriminate.
      + apply (plain_text _ _
                 ("if " +:+ Param_str pN +:+ ".status == STARTED:  " +:+
                  "# only update if started and not finished!"));
          [now rewrite ?sapp_assoc | |];
          rewrite ?last_char_app; cbn; discriminate. }
  destruct Hb3 as (pre & Hpre & Hplain). clearbody b3.
  assert (Hf' : f = "any click" \/ f = "correct click").
  { apply elem_of_cons in Hf as [Hf|Hf]; [now left|].
    apply elem_of_cons in Hf as [Hf|Hf]; [now right|].
    now apply elem_of_nil in Hf. }
  clear Hf.
  assert (Hfn : VStr f ≠ VStr "never") by (destruct Hf' as [-> | ->]; discriminate).
  assert (Hfv : VStr f ≠ VStr "valid click")
    by (destruct Hf' as [-> | ->]; discriminate).
  rewrite (bool_decide_eq_true_2 _ Hfn) in H.
  rewrite (bool_decide_eq_false_2 _ Hfv) in H.
  rewrite (bool_decide_eq_false_2 (VStr f = VStr "never")) in H
    by (intros E; now apply Hfn).
  cbn [andb] in H.
  destruct (bool_decide (val pS ∈ [VStr "never"; VStr "final"])) eqn:EA;
    cbn [andb] in H.
  - (* no tracking: the press code, then the termination statement *)
    bind_inv H as [b4 d4] Hb4.
    apply (_buttonPressCode_written _ _ _ _ _ pN HN1 Hname) in Hb4 as [-> ->].
    injection H as <- <-.
    exists pre, (indentLevel b3), pS, VNone, clock.
    repeat split; try done.
    unfold clickBlock. rewrite EA.
    cbn [written setIndentLevel writeIndented indentLevel].
    rewrite Hpre, <- !app_assoc. reflexivity.
  - assert (Hnever : val pS ≠ VStr "never").
    { apply bool_decide_eq_false in EA. intros E. apply EA. rewrite E.
      apply elem_of_cons. now left. }
    rewrite (bool_decide_eq_true_2 _ Hnever) in H.
    unfold getattr_clockStr in H. rewrite Hclock in H.
    cbn [mbind result_bind] in H.
    bind_inv H as [b6 d6] Hb6. injection H as <- <-.
    bind_inv Hb6 as [b4 d4] Hb4. bind_inv Hb6 as b5 Hb5.
    bind_inv Hb6 as pC HC. injection Hb6 as <- <-.
    apply (_buttonPressCode_written _ _ _ _ _ pN HN1 Hname) in Hb4 as [-> ->].
    apply writeClickData_written in Hb5 as (clickable & ->); [|done..].
    exists pre, (indentLevel b3), pS, clickable, clock.
    repeat split; try done.
    unfold clickBlock. rewrite EA.
    set (b0 := if bool_decide (val pS ∈ [VStr "every frame"])
               then writeIndentedLines (mouseCode (Param_str pN) clock) b3
               else b3).
    assert (Hb0 : written b0 = written buff ++ pre ++
                  (if bool_decide (val pS ∈ [VStr "every frame"])
                   then chunks (indentLevel b3)
                          (mouseLines (Param_str pN) clock)
                   else []) /\ indentLevel b0 = indentLevel b3).
    { subst b0. destruct (bool_decide (val pS ∈ [VStr "every frame"])).
      - rewrite writeIndentedLines_mouseCode by done.
        cbn [written indentLevel]. now rewrite Hpre, <- !app_assoc.
      - now rewrite Hpre, app_nil_r. }
    destruct Hb0 as [Hw0 HL0]. clearbody b0.
    replace (if truthy (val pC) then _ else _)
      with (mkBuffer (indentLevel b0 + 1 + 1)
              (written b0 ++ pressChunks (Param_str pN) (indentLevel b0) ++
               dataChunks (val pS) clickable (Param_str pN) clock
                 (indentLevel b0 + 1 + 1)))
      by (cbn [indentLevel written]; rewrite <- !app_assoc;
          now destruct (truthy (val pC))).
    destruct Hf' as [-> | ->].
    + rewrite (bool_decide_eq_true_2 (VStr "any click" = VStr "any click"))
        by reflexivity.
      rewrite (bool_decide_eq_true_2 ("any click" = "any click"))
        by reflexivity.
      match goal with
      | |- context [writeIndentedLines (nl +:+ endRoutine +:+ nl) ?b] =>
          rewrite (writeIndentedLines_lines (nl +:+ endRoutine +:+ nl)
                     [""; endRoutine] b);
          [ | reflexivity | discriminate | one_line_tac ]
      end.
      cbn [written setIndentLevel indentLevel].
      rewrite Hw0, HL0, <- !app_assoc. reflexivity.
    + rewrite (bool_decide_eq_false_2 (VStr "correct click" = VStr "any click"))
        by discriminate.
      rewrite (bool_decide_eq_true_2 (VStr "correct click" = VStr "correct click"))
        by reflexivity.
      rewrite (bool_decide_eq_false_2 ("correct click" = "any click"))
        by discriminate.
      cbn [written setIndentLevel indentLevel].
      rewrite Hw0, HL0, app_nil_r, <- !app_assoc. reflexivity.
Qed.

End AnyClick.

(** ** The shape of the ['any click'] block *)

Lemma Forall_chunks (P : Chunk -> Prop) (L : Z) (ls : list string) :
  Forall (fun l => P (mkChunk L (l +:+ nl))) ls -> Forall P (chunks L ls).
Proof. unfold chunks. now rewrite Forall_map. Qed.

Lemma mouseLines_plain (name clock : string) (L : Z) :
  Forall plain (chunks L (mouseLines name clock)).
Proof. unfold mouseLines, chunks. cbn [map]. plain_tac. Qed.

Lemma chunks_level (L : Z) (ls : list string) (P : Z -> Prop) :
  P L -> Forall (fun c => P (c_level c)) (chunks L ls).
Proof. intros HP. apply Forall_chunks. now apply Forall_forall. Qed.

Lemma dataChunks_plain save clickable name clock L :
  Forall plain (dataChunks save clickable name clock L).
Proof.
  unfold dataChunks.
  destruct (bool_decide (save ∈ [VStr "on click"]));
    [|destruct (truthy clickable && _)]; try apply Forall_nil_2.
  - apply mouseLines_plain.
  - apply Forall_app. split; [|apply mouseLines_plain].
    unfold chunks. cbn [map]. plain_tac.
Qed.

Lemma dataChunks_level save clickable name clock L L0 :
  L0 < L ->
  Forall (fun c => L0 < c_level c) (dataChunks save clickable name clock L).
Proof.
  intros HL. unfold dataChunks.
  destruct (bool_decide (save ∈ [VStr "on click"]));
    [|destruct (truthy clickable && _)]; try apply Forall_nil_2.
  - now apply (chunks_level _ _ (fun z => L0 < z)).
  - apply Forall_app. split; apply (chunks_level _ _ (fun z => L0 < z)); lia.
Qed.

(** The block is: plain chunks, the read of the buttons, the guard, then
    deeper plain chunks, then the termination statement, which is last. *)
Lemma clickBlock_any_click_shape save clickable name clock L :
  exists before body t,
    clickBlock "any click" save clickable name clock L
    = before ++
      mkChunk L (("buttons = " +:+ name +:+ ".getKeys()") +:+ nl) ::
      mkChunk L (buttonStateGuard +:+ nl) :: body ++ [t] /\
    Forall plain before /\ Forall plain body /\
    Forall (fun c => L < c_level c) body /\
    stmt t = endRoutine /\ c_level t = L + 1 + 1 /\
    (save = VStr "on click" ->
     before = [] /\
     exists b1 b2,
       body = b1 ++ chunks (L + 1 + 1) (mouseLines name clock) ++ b2).
Proof.
  unfold clickBlock.
  rewrite (bool_decide_eq_true_2 ("any click" = "any click")) by reflexivity.
  destruct (bool_decide (save ∈ [VStr "never"; VStr "final"])) eqn:EA.
  - exists [],
      [mkChunk (L + 1) ("prevButtonState = buttons" +:+ nl);
       mkChunk (L + 1) ("if buttons > 0:  # state changed to a new click" +:+ nl);
       mkChunk (L + 1) ("lastResp = buttons[-1]" +:+ nl)],
      (mkChunk (L + 1 + 1) endRoutine).
    split; [reflexivity|]. split; [apply Forall_nil_2|].
    split; [plain_tac|]. split.
    { repeat (apply Forall_cons; split; [cbn; lia|]). apply Forall_nil_2. }
    split; [reflexivity|]. split; [reflexivity|].
    intros ->. apply bool_decide_eq_true in EA. elem_of_false EA.
  - exists (if bool_decide (save ∈ [VStr "every frame"])
            then chunks L (mouseLines name clock) else []),
      ([mkChunk (L + 1) ("prevButtonState = buttons" +:+ nl);
        mkChunk (L + 1) ("if buttons > 0:  # state changed to a new click" +:+ nl);
        mkChunk (L + 1) ("lastResp = buttons[-1]" +:+ nl)] ++
       dataChunks save clickable name clock (L + 1 + 1) ++
       [mkChunk (L + 1 + 1) ("" +:+ nl)]),
      (mkChunk (L + 1 + 1) (endRoutine +:+ nl)).
    split.
    { unfold pressChunks, chunks. cbn [map app].
      rewrite <- !app_assoc. reflexivity. }
    split.
    { destruct (bool_decide (save ∈ [VStr "every frame"]));
        [apply mouseLines_plain | apply Forall_nil_2]. }
    split.
    { apply Forall_app. split; [plain_tac|].
      apply Forall_app. split; [apply dataChunks_plain | plain_tac]. }
    split.
    { apply Forall_app. split.
      - repeat (apply Forall_cons; split; [cbn; lia|]). apply Forall_nil_2.
      - apply Forall_app. split; [apply dataChunks_level; lia|].
        apply Forall_cons. split; [cbn; lia | apply Forall_nil_2]. }
    split; [apply stmt_line|]. split; [reflexivity|].
    intros ->. split; [reflexivity|].
    unfold dataChunks.
    rewrite (bool_decide_eq_true_2 (VStr "on click" ∈ [VStr "on click"]))
      by (apply elem_of_cons; now left).
    eexists _, _. reflexivity.
Qed.

Lemma emitted_app (buff buff' : IndentingBuffer) (cs : list Chunk) :
  written buff' = written buff ++ cs -> emitted buff buff' = cs.
Proof. intros H. unfold emitted. rewrite H. apply drop_app_length. Qed.

Lemma plain_not_endRoutine (cs : list Chunk) :
  Forall plain cs -> Forall (fun c => stmt c <> endRoutine) cs.
Proof. intros H. eapply Forall_impl; [exact H|]. now intros c [? _]. Qed.

Lemma plain_not_guard (cs : list Chunk) :
  Forall plain cs -> Forall (fun c => stmt c <> buttonStateGuard) cs.
Proof. intros H. eapply Forall_impl; [exact H|]. now intros c [_ ?]. Qed.

(** C4. With [forceEndRoutineOnPress = 'any click'], a one-line component
    name, an allowed [timeRelativeTo] and start and stop tests that write
    neither a termination statement nor a guard of their own, the frame
    code that is written holds one statement [continueRoutine = False] and
    no other; it comes after the button-state-changed guard, and every
    chunk from the guard to it lies deeper than the guard, so it is in the
    guard's block. With [saveMouseState = 'on click'] that guard is the
    only one, and its block holds the data-append lines before the
    termination statement, at the level of the latter. *)
Theorem any_click_one_termination_in_guard `{host : Host}
    (self self' : Component) (buff buff' : IndentingBuffer)
    (pF pN pT : Param) :
  writes_plain (params self) writeStartTestCode ->
  writes_plain (params self) writeStopTestCode ->
  params self !! "forceEndRoutineOnPress" = Some pF ->
  val pF = VStr "any click" ->
  params self !! "name" = Some pN ->
  one_line (Param_str pN) ->
  one_line (Val_str (val pN)) ->
  params self !! "timeRelativeTo" = Some pT ->
  val pT ∈ timeRelativeTo_allowed ->
  writeFrameCode self buff = Ok (self', buff') ->
  exists before g body t after,
    emitted buff buff' = before ++ g :: body ++ t :: after /\
    stmt g = buttonStateGuard /\
    stmt t = endRoutine /\
    Forall (fun c => c_level g < c_level c) (body ++ [t]) /\
    Forall (fun c => stmt c <> endRoutine) (before ++ g :: body ++ after) /\
    (forall pS,
       params self !! "saveMouseState" = Some pS ->
       val pS = VStr "on click" ->
       Forall (fun c => stmt c <> buttonStateGuard)
              (before ++ body ++ t :: after) /\
       exists clock b1 b2,
         body = b1 ++ chunks (c_level t) (mouseLines (Param_str pN) clock)
                   ++ b2).
Proof.
  intros Hstart Hstop HF HFv HN Hname Hname' HT HTv H.
  destruct (writeFrameCode_click_written _ _ _ _ _ _ _ "any click"
              Hstart Hstop HF HFv ltac:(apply elem_of_cons; now left)
              HN Hname Hname' HT HTv H)
    as (pre & L & pS & clickable & clock & HS & Hpre & Hclock & Hw).
  destruct (clickBlock_any_click_shape (val pS) clickable (Param_str pN)
              clock L)
    as (before & body & t & Hblock & Hbefore & Hbody & Hlevel & Ht & HtL & Hclick).
  rewrite Hblock in Hw. apply emitted_app in Hw.
  exists (pre ++ before ++
          [mkChunk L (("buttons = " +:+ Param_str pN +:+ ".getKeys()") +:+ nl)]),
    (mkChunk L (buttonStateGuard +:+ nl)), body, t, [].
  split; [rewrite Hw, <- !app_assoc; reflexivity|].
  split; [apply stmt_line|]. split; [exact Ht|].
  assert (Hbuttons :
    plain (mkChunk L (("buttons = " +:+ Param_str pN +:+ ".getKeys()") +:+ nl))).
  { apply plain_line; rewrite ?last_char_app; cbn; discriminate. }
  split; [|split].
  - apply Forall_app. split; [exact Hlevel|].
    apply Forall_cons. split; [cbn [c_level]; lia | apply Forall_nil_2].
  - rewrite app_nil_r. apply Forall_app. split.
    + apply plain_not_endRoutine.
      repeat (apply Forall_app; split); try done.
      apply Forall_cons. split; [done | apply Forall_nil_2].
    + apply Forall_cons. split.
      * rewrite stmt_line. apply last_char_neq. cbn. discriminate.
      * now apply plain_not_endRoutine.
  - intros pS' HS' Hon. rewrite HS in HS'. injection HS' as <-.
    destruct (Hclick Hon) as (-> & b1 & b2 & Hb). split.
    + apply Forall_app. split.
      * apply plain_not_guard.
        repeat (apply Forall_app; split); try done.
        apply Forall_cons. split; [done | apply Forall_nil_2].
      * apply Forall_app. split; [now apply plain_not_guard|].
        apply Forall_cons. split; [|apply Forall_nil_2].
        rewrite Ht. apply last_char_neq. cbn. discriminate.
    + exists clock, b1, b2. now rewrite HtL.
Qed.


(** The example host writes plain start and stop tests for the example
    component. *)
Lemma example_tests_write_plain forceEnd save clickable storeCorrect t :
  writes_plain
    (params (ExampleHost.configured forceEnd save clickable storeCorrect t))
    ExampleHost.startTest /\
  writes_plain
    (params (ExampleHost.configured forceEnd save clickable storeCorrect t))
    ExampleHost.stopTest.
Proof.
  assert (HN : params (ExampleHost.configured forceEnd save clickable
                         storeCorrect t) !! "name"
               = Some (ExampleHost.plainParam (VStr "buttonbox") "code"))
    by (vm_compute; reflexivity).
  assert (HV : params (ExampleHost.configured forceEnd save clickable
                         storeCorrect t) !! "stopVal"
               = Some (ExampleHost.plainParam (VNum 1) "code"))
    by (vm_compute; reflexivity).
  split; intros buff buff' n.
  - unfold ExampleHost.startTest. rewrite HN. intros [= <- <-].
    eexists. split.
    + unfold writeIndentedLines. rewrite fold_writeIndented.
      cbn [written setIndentLevel writeIndented indentLevel].
      rewrite <- app_assoc. reflexivity.
    + apply Forall_app. split.
      * apply Forall_cons. split; [|apply Forall_nil_2].
        split; intros E; vm_compute in E; discriminate E.
      * vm_compute PyStr.splitlines. apply Forall_chunks.
        repeat (apply Forall_cons; split;
                [split; intros E; vm_compute in E; discriminate E|]).
        apply Forall_nil_2.
  - unfold ExampleHost.stopTest. rewrite HN, HV. cbn [truthy val ExampleHost.plainParam Z.eqb negb].
    intros [= <- <-]. eexists. split.
    + unfold writeIndentedLines. rewrite fold_writeIndented.
      cbn [written setIndentLevel writeIndented indentLevel].
      rewrite <- app_assoc. reflexivity.
    + apply Forall_app. split.
      * apply Forall_cons. split; [|apply Forall_nil_2].
        split; intros E; vm_compute in E; discriminate E.
      * vm_compute PyStr.splitlines. apply Forall_chunks.
        repeat (apply Forall_cons; split;
                [split; intros E; vm_compute in E; discriminate E|]).
        apply Forall_nil_2.
Qed.

Lemma any_click_one_termination_in_guard_witness :
  exists self' buff' before g body t after,
    writeFrameCode (host := ExampleHost.host)
      (ExampleHost.configured (VStr "any click") (VStr "on click")
         (VList ["red"; "blue"]) true (VStr "buttonbox onset"))
      Buffer.fresh = Ok (self', buff') /\
    emitted Buffer.fresh buff' = before ++ g :: body ++ t :: after /\
    stmt g = buttonStateGuard /\
    stmt t = endRoutine /\
    Forall (fun c => c_level g < c_level c) (body ++ [t]) /\
    Forall (fun c => stmt c <> endRoutine) (before ++ g :: body ++ after) /\
    Forall (fun c => stmt c <> buttonStateGuard)
           (before ++ body ++ t :: after) /\
    exists clock b1 b2,
      body = b1 ++ chunks (c_level t) (mouseLines "buttonbox" clock) ++ b2.
Proof.
  destruct (writeFrameCode (host := ExampleHost.host)
      (ExampleHost.configured (VStr "any click") (VStr "on click")
         (VList ["red"; "blue"]) true (VStr "buttonbox onset"))
      Buffer.fresh) as [[self' buff']|e] eqn:E;
    [|vm_compute in E; discriminate].
  destruct (example_tests_write_plain (VStr "any click") (VStr "on click")
              (VList ["red"; "blue"]) true (VStr "buttonbox onset"))
    as [Hstart Hstop].
  destruct (any_click_one_termination_in_guard (host := ExampleHost.host)
              (ExampleHost.configured (VStr "any click") (VStr "on click")
                 (VList ["red"; "blue"]) true (VStr "buttonbox onset"))
              self' Buffer.fresh buff'
              (ExampleHost.plainParam (VStr "any click") "str")
              (ExampleHost.plainParam (VStr "buttonbox") "code")
              (ExampleHost.plainParam (VStr "buttonbox onset") "str")
              Hstart Hstop)
    as (before & g & body & t & after & H1 & H2 & H3 & H4 & H5 & H6);
    try (vm_compute; reflexivity); try exact E.
  { apply elem_of_cons. now left. }
  destruct (H6 (ExampleHost.plainParam (VStr "on click") "str"))
    as (H7 & H8); try (vm_compute; reflexivity).
  exists self', buff', before, g, body, t, after. auto 10.
Defined.

(** ** The frame code for ['correct click'] *)

Lemma pressChunks_not_endRoutine (name : string) (L : Z) :
  Forall (fun c => stmt c <> endRoutine) (pressChunks name L).
Proof.
  unfold pressChunks, chunks. cbn [map app].
  repeat (apply Forall_cons; split;
          [rewrite stmt_line; apply last_char_neq;
           rewrite ?last_char_app; cbn; discriminate|]).
  apply Forall_nil_2.
Qed.

(** C3. With [forceEndRoutineOnPress = 'correct click'] and
    [saveMouseState = 'on click'] (a one-line name, an allowed
    [timeRelativeTo], plain start and stop tests), what the frame code
    writes ends with the chunks of the button-press code (the
    button-state-changed guard, the new-click guard) and the data-append
    lines, in this order, and nothing follows them: the source builds the
    text of the correctness guard around the termination statement and
    does not write it, so no chunk of the fragment is the termination
    statement. *)
Theorem correct_click_writes_no_termination `{host : Host}
    (self self' : Component) (buff buff' : IndentingBuffer)
    (pF pS pN pT : Param) :
  writes_plain (params self) writeStartTestCode ->
  writes_plain (params self) writeStopTestCode ->
  params self !! "forceEndRoutineOnPress" = Some pF ->
  val pF = VStr "correct click" ->
  params self !! "saveMouseState" = Some pS ->
  val pS = VStr "on click" ->
  params self !! "name" = Some pN ->
  one_line (Param_str pN) ->
  one_line (Val_str (val pN)) ->
  params self !! "timeRelativeTo" = Some pT ->
  val pT ∈ timeRelativeTo_allowed ->
  writeFrameCode self buff = Ok (self', buff') ->
  exists before L clock,
    emitted buff buff' =
      before ++ pressChunks (Param_str pN) L ++
      chunks (L + 1 + 1) (mouseLines (Param_str pN) clock) /\
    Forall (fun c => stmt c <> endRoutine) (emitted buff buff').
Proof.
  intros Hstart Hstop HF HFv HS HSv HN Hname Hname' HT HTv H.
  destruct (writeFrameCode_click_written _ _ _ _ _ _ _ "correct click"
              Hstart Hstop HF HFv
              ltac:(apply elem_of_cons; right; apply elem_of_cons; now left)
              HN Hname Hname' HT HTv H)
    as (pre & L & pS' & clickable & clock & HS' & Hpre & Hclock & Hw).
  rewrite HS in HS'. injection HS' as <-. rewrite HSv in Hw.
  unfold clickBlock, dataChunks in Hw.
  rewrite (bool_decide_eq_false_2
             (VStr "on click" ∈ [VStr "never"; VStr "final"])) in Hw
    by (intros E; elem_of_false E).
  rewrite (bool_decide_eq_false_2
             (VStr "on click" ∈ [VStr "every frame"])) in Hw
    by (intros E; elem_of_false E).
  rewrite (bool_decide_eq_true_2 (VStr "on click" ∈ [VStr "on click"])) in Hw
    by (apply elem_of_cons; now left).
  rewrite (bool_decide_eq_false_2 ("correct click" = "any click")) in Hw
    by discriminate.
  cbn [app] in Hw. rewrite app_nil_r in Hw. apply emitted_app in Hw.
  exists pre, L, clock. split; [exact Hw|]. rewrite Hw.
  apply Forall_app. split; [now apply plain_not_endRoutine|].
  apply Forall_app. split; [apply pressChunks_not_endRoutine|].
  apply plain_not_endRoutine, mouseLines_plain.
Qed.

Lemma correct_click_writes_no_termination_witness :
  exists self' buff' before L clock,
    writeFrameCode (host := ExampleHost.host)
      (ExampleHost.configured (VStr "correct click") (VStr "on click")
         (VList ["red"; "blue"]) true (VStr "buttonbox onset"))
      Buffer.fresh = Ok (self', buff') /\
    emitted Buffer.fresh buff' =
      before ++ pressChunks "buttonbox" L ++
      chunks (L + 1 + 1) (mouseLines "buttonbox" clock) /\
    Forall (fun c => stmt c <> endRoutine) (emitted Buffer.fresh buff').
Proof.
  destruct (writeFrameCode (host := ExampleHost.host)
      (ExampleHost.configured (VStr "correct click") (VStr "on click")
         (VList ["red"; "blue"]) true (VStr "buttonbox onset"))
      Buffer.fresh) as [[self' buff']|e] eqn:E;
    [|vm_compute in E; discriminate].
  destruct (example_tests_write_plain (VStr "correct click") (VStr "on click")
              (VList ["red"; "blue"]) true (VStr "buttonbox onset"))
    as [Hstart Hstop].
  destruct (correct_click_writes_no_termination (host := ExampleHost.host)
              (ExampleHost.configured (VStr "correct click") (VStr "on click")
                 (VList ["red"; "blue"]) true (VStr "buttonbox onset"))
              self' Buffer.fresh buff'
              (ExampleHost.plainParam (VStr "correct click") "str")
              (ExampleHost.plainParam (VStr "on click") "str")
              (ExampleHost.plainParam (VStr "buttonbox") "code")
              (ExampleHost.plainParam (VStr "buttonbox onset") "str")
              Hstart Hstop)
    as (before & L & clock & H1 & H2);
    try (vm_compute; reflexivity); try exact E.
  { apply elem_of_cons. now left. }
  exists self', buff', before, L, clock. auto.
Defined.

(** The configuration of the scenario of C3, run on the example host: the
    listing ends with the data-append lines. *)
Example correct_click_listing :
  ExampleHost.listing
    (writeFrameCode (host := ExampleHost.host)
       (ExampleHost.configured (VStr "correct click") (VStr "on click")
          (VList ["red"; "blue"]) true (VStr "buttonbox onset"))
       Buffer.fresh)
  = Some
      [(0, "# *buttonbox* updates");
       (0, "if buttonbox.status == NOT_STARTED and tThisFlip >= 0.0-frameTolerance:");
       (1, "buttonbox.frameNStart = frameN");
       (1, "buttonbox.status = STARTED");
       (1, "buttonbox.buttonboxClock.reset()");
       (1, "prevButtonState = buttonbox.getKeys()  # if button is down already this ISN'T a new click");
       (0, "if buttonbox.status == STARTED:");
       (1, "buttonbox.status = FINISHED");
       (0, "if buttonbox.status == STARTED:  # only update if started and not finished!");
       (1, "buttons = buttonbox.getKeys()");
       (1, "if buttons != prevButtonState:  # button state changed?");
       (2, "prevButtonState = buttons");
       (2, "if buttons > 0:  # state changed to a new click");
       (2, "lastResp = buttons[-1]");
       (3, "x, y = buttonbox.getPos()");
       (3, "buttonbox.x.append(x)");
       (3, "buttonbox.y.append(y)");
       (3, "buttons = buttonbox.getPressed()");
       (3, "buttonbox.leftButton.append(buttons[0])");
       (3, "buttonbox.midButton.append(buttons[1])");
       (3, "buttonbox.rightButton.append(buttons[2])");
       (3, "buttonbox.time.append(buttonbox.buttonboxClock.getTime())")].
Proof. vm_compute. reflexivity. Qed.

(** ** getFromNames *)

Lemma rev_append_app (a b c : string) :
  PyStr.rev_append (a +:+ b) c = PyStr.rev_append b (PyStr.rev_append a c).
Proof.
  revert c. induction a as [|x a IH]; intros c; [done|].
  rewrite sapp_cons. cbn. apply IH.
Qed.

Lemma rev_append_rev (a c : string) :
  PyStr.rev_append a c = PyStr.rev a +:+ c.
Proof.
  unfold PyStr.rev. revert c. induction a as [|x a IH]; intros c; [done|].
  cbn. rewrite IH, (IH (String x "")), sapp_assoc. reflexivity.
Qed.

Lemma rev_app (a b : string) :
  PyStr.rev (a +:+ b) = PyStr.rev b +:+ PyStr.rev a.
Proof.
  unfold PyStr.rev at 1. rewrite rev_append_app. apply rev_append_rev.
Qed.

Lemma rev_involutive (s : string) : PyStr.rev (PyStr.rev s) = s.
Proof. apply rev_rev_append. Qed.

Lemma rev_nil_inv (s : string) : PyStr.rev s = "" -> s = "".
Proof. intros H. apply (f_equal PyStr.rev) in H. now rewrite rev_involutive in H. Qed.

Lemma rev_cons (c : ascii) (s : string) :
  PyStr.rev (String c s) = PyStr.rev s +:+ String c "".
Proof. change (String c s) with (String c "" +:+ s). now rewrite rev_app. Qed.

Lemma length_sapp (a b : string) :
  String.length (a +:+ b) = (String.length a + String.length b)%nat.
Proof. induction a as [|c a IH]; [done|]. rewrite sapp_cons. cbn. now rewrite IH. Qed.

Lemma length_rev (s : string) : String.length (PyStr.rev s) = String.length s.
Proof.
  induction s as [|c s IH]; [done|].
  rewrite rev_cons, length_sapp, IH. cbn. lia.
Qed.

Lemma sapp_inv_head (a x y : string) : a +:+ x = a +:+ y -> x = y.
Proof.
  induction a as [|c a IH]; [done|]. rewrite !sapp_cons. intros H.
  injection H as H. now apply IH.
Qed.

(** Two ways to cut one string: one of the two heads begins the other. *)
Lemma sapp_eq_sapp (a b c d : string) :
  a +:+ b = c +:+ d ->
  (exists x, c = a +:+ x /\ b = x +:+ d) \/
  (exists x, a = c +:+ x /\ d = x +:+ b).
Proof.
  revert c. induction a as [|u a IH]; intros c H.
  - left. exists c. now split.
  - destruct c as [|v c].
    + right. exists (String u a). now split.
    + rewrite !sapp_cons in H. injection H as -> H.
      destruct (IH _ H) as [(x & -> & ->)|(x & -> & ->)].
      * left. exists x. now split.
      * right. exists x. now split.
Qed.

(** ** Stripping *)

Lemma prefix_rest_Some (tok s rest : string) :
  PyStr.prefix_rest tok s = Some rest <-> s = tok +:+ rest.
Proof.
  revert s. induction tok as [|c tok IH]; intros s; cbn.
  - split; [now intros [= ->] | now intros ->].
  - destruct s as [|d s]; [split; intros H; discriminate|].
    rewrite sapp_cons. destruct (bool_decide (c = d)) eqn:E.
    + apply bool_decide_eq_true in E as ->. rewrite IH.
      split; [now intros -> | now intros [= ->]].
    + apply bool_decide_eq_false in E.
      split; [discriminate | intros [= -> _]; contradiction].
Qed.

Lemma first_rest_Some (chars : list string) (s rest : string) :
  PyStr.first_rest chars s = Some rest ->
  exists ch, ch ∈ chars /\ s = ch +:+ rest.
Proof.
  induction chars as [|ch chars IH]; [discriminate|]. cbn.
  destruct (PyStr.prefix_rest ch s) as [r|] eqn:E.
  - intros [= ->]. exists ch. split; [apply elem_of_cons; now left|].
    now apply prefix_rest_Some.
  - intros H. destruct (IH H) as (ch' & Hin & Hs).
    exists ch'. split; [apply elem_of_cons; now right | done].
Qed.

Lemma first_rest_None (chars : list string) (s : string) :
  PyStr.first_rest chars s = None ->
  forall ch rest, ch ∈ chars -> s <> ch +:+ rest.
Proof.
  induction chars as [|ch chars IH]; intros H ch' rest Hin.
  - now apply elem_of_nil in Hin.
  - cbn in H. destruct (PyStr.prefix_rest ch s) as [r|] eqn:E; [discriminate|].
    apply elem_of_cons in Hin as [->|Hin].
    + intros Hs. apply prefix_rest_Some in Hs. congruence.
    + now apply IH.
Qed.

Lemma first_rest_is_None (chars : list string) (s : string) :
  (forall ch rest, ch ∈ chars -> s <> ch +:+ rest) ->
  PyStr.first_rest chars s = None.
Proof.
  intros H. destruct (PyStr.first_rest chars s) as [r|] eqn:E; [|done].
  apply first_rest_Some in E as (ch & Hin & Hs). now apply H in Hs.
Qed.

Section Chars.

Variable chars : list string.

(** No character is the empty string, and none begins another. *)
Hypothesis chars_nonempty : "" ∉ chars.
Hypothesis chars_prefix_free :
  forall a b x y, a ∈ chars -> b ∈ chars -> a +:+ x = b +:+ y -> a = b.

Lemma first_rest_char (ch rest : string) :
  ch ∈ chars -> PyStr.first_rest chars (ch +:+ rest) = Some rest.
Proof.
  intros Hin.
  destruct (PyStr.first_rest chars (ch +:+ rest)) as [r|] eqn:E.
  - apply first_rest_Some in E as (ch' & Hin' & Hs).
    assert (ch = ch') as <- by now apply (chars_prefix_free _ _ rest r).
    now apply sapp_inv_head in Hs as ->.
  - exfalso. now apply (first_rest_None _ _ E ch rest).
Qed.

Lemma char_length (ch : string) : ch ∈ chars -> (1 <= String.length ch)%nat.
Proof.
  intros Hin. destruct ch; [contradiction|]. cbn. lia.
Qed.

(** A run followed by a text that begins with none of the characters:
    stripping leaves the text. *)
Lemma lstrip_aux_run (ws core : string) (fuel : nat) :
  Core.run chars ws ->
  (forall ch rest, ch ∈ chars -> core <> ch +:+ rest) ->
  (String.length ws <= fuel)%nat ->
  PyStr.lstrip_aux chars fuel (ws +:+ core) = core.
Proof.
  intros Hrun Hcore. revert fuel.
  induction Hrun as [|ch ws Hin Hrun IH]; intros fuel Hfuel.
  - change ("" +:+ core) with core. destruct fuel as [|fuel]; [done|].
    cbn. now rewrite first_rest_is_None.
  - rewrite length_sapp in Hfuel. pose proof (char_length _ Hin).
    destruct fuel as [|fuel]; [lia|]. cbn [PyStr.lstrip_aux].
    rewrite sapp_assoc, first_rest_char by done. apply IH. lia.
Qed.

(** What stripping takes off is a run, and what it leaves begins with
    none of the characters. *)
Lemma lstrip_aux_decomp (fuel : nat) (s : string) :
  (String.length s <= fuel)%nat ->
  exists ws,
    Core.run chars ws /\ s = ws +:+ PyStr.lstrip_aux chars fuel s /\
    forall ch rest, ch ∈ chars ->
      PyStr.lstrip_aux chars fuel s <> ch +:+ rest.
Proof.
  revert s. induction fuel as [|fuel IH]; intros s Hfuel.
  - destruct s; [|cbn in Hfuel; lia]. exists "". cbn.
    split; [constructor|]. split; [done|]. intros ch rest Hin H.
    destruct ch; [contradiction | discriminate].
  - cbn [PyStr.lstrip_aux].
    destruct (PyStr.first_rest chars s) as [r|] eqn:E.
    + apply first_rest_Some in E as (ch & Hin & ->).
      pose proof (char_length _ Hin). rewrite length_sapp in Hfuel.
      destruct (IH r ltac:(lia)) as (ws & Hrun & Hr & Hlead).
      exists (ch +:+ ws). split; [now constructor|]. split; [|exact Hlead].
      rewrite sapp_assoc. now rewrite <- Hr.
    + exists "". split; [constructor|]. split; [done|].
      now apply first_rest_None.
Qed.

Lemma run_app (a b : string) : Core.run chars a -> Core.run chars b -> Core.run chars (a +:+ b).
Proof.
  intros Ha Hb. induction Ha as [|ch ws Hin Hrun IH]; [done|].
  rewrite sapp_assoc. now constructor.
Qed.

Lemma run_char (ch : string) : ch ∈ chars -> Core.run chars ch.
Proof.
  intros Hin. rewrite <- (sapp_nil_r ch). constructor; [done | constructor].
Qed.

End Chars.

Lemma elem_of_map_rev (chars : list string) (ch : string) :
  ch ∈ chars -> PyStr.rev ch ∈ map PyStr.rev chars.
Proof.
  induction chars as [|a chars IH]; intros H.
  - now apply elem_of_nil in H.
  - cbn [map]. apply elem_of_cons in H as [->|H]; apply elem_of_cons;
      [now left | right; now apply IH].
Qed.

Lemma elem_of_map_rev_inv (chars : list string) (ch : string) :
  ch ∈ map PyStr.rev chars -> exists ch', ch' ∈ chars /\ ch = PyStr.rev ch'.
Proof.
  induction chars as [|a chars IH]; intros H.
  - now apply elem_of_nil in H.
  - cbn [map] in H. apply elem_of_cons in H as [->|H].
    + exists a. split; [apply elem_of_cons; now left | done].
    + destruct (IH H) as (ch' & Hin & ->). exists ch'.
      split; [apply elem_of_cons; now right | done].
Qed.

Lemma run_rev (chars : list string) (ws : string) :
  Core.run chars ws -> Core.run (map PyStr.rev chars) (PyStr.rev ws).
Proof.
  intros H. induction H as [|ch ws Hin Hrun IH]; [constructor|].
  rewrite rev_app. apply run_app; [exact IH|].
  apply run_char. now apply elem_of_map_rev.
Qed.

(** ** The whitespace characters *)

(** Goes through the whitespace characters, one goal for each. *)
Ltac each_whitespace H :=
  let l := eval vm_compute in PyStr.whitespace in
  change PyStr.whitespace with l in H;
  repeat (apply elem_of_cons in H as [->|H]);
  [..|apply elem_of_nil in H; contradiction].

Ltac each_whitespace_rev H :=
  let l := eval vm_compute in (map PyStr.rev PyStr.whitespace) in
  change (map PyStr.rev PyStr.whitespace) with l in H;
  repeat (apply elem_of_cons in H as [->|H]);
  [..|apply elem_of_nil in H; contradiction].

Lemma whitespace_nonempty : "" ∉ PyStr.whitespace.
Proof.
  intros H.
  let l := eval vm_compute in PyStr.whitespace in
  change PyStr.whitespace with l in H.
  repeat (apply elem_of_cons in H as [H|H]; [discriminate H|]).
  now apply elem_of_nil in H.
Qed.

Lemma whitespace_rev_nonempty : "" ∉ map PyStr.rev PyStr.whitespace.
Proof.
  intros H. apply elem_of_map_rev_inv in H as (ch & Hin & H).
  symmetry in H. apply rev_nil_inv in H as ->.
  now apply whitespace_nonempty.
Qed.

(** No whitespace character begins another. *)
Lemma whitespace_prefix_free (a b x y : string) :
  a ∈ PyStr.whitespace -> b ∈ PyStr.whitespace ->
  a +:+ x = b +:+ y -> a = b.
Proof.
  intros Ha Hb. each_whitespace Ha; each_whitespace Hb;
    intros E; first [reflexivity | vm_compute in E; congruence].
Qed.

(** No whitespace character ends another. *)
Lemma whitespace_rev_prefix_free (a b x y : string) :
  a ∈ map PyStr.rev PyStr.whitespace -> b ∈ map PyStr.rev PyStr.whitespace ->
  a +:+ x = b +:+ y -> a = b.
Proof.
  intros Ha Hb. each_whitespace_rev Ha; each_whitespace_rev Hb;
    intros E; first [reflexivity | vm_compute in E; congruence].
Qed.

(** The first byte of a whitespace character is not a continuation byte
    of UTF-8, and its other bytes are. *)
Lemma whitespace_first_byte (ch : string) :
  ch ∈ PyStr.whitespace ->
  exists c rest, ch = String c rest /\
    ((nat_of_ascii c <? 128) || (192 <=? nat_of_ascii c))%nat = true.
Proof. intros H. each_whitespace H; eexists _, _; split; reflexivity. Qed.

Lemma whitespace_next_bytes (ch pre rest : string) (c : ascii) :
  ch ∈ PyStr.whitespace -> pre <> "" -> ch = pre +:+ String c rest ->
  ((nat_of_ascii c <? 128) || (192 <=? nat_of_ascii c))%nat = false.
Proof.
  intros H Hpre E. destruct pre as [|p1 pre]; [contradiction|]. clear Hpre.
  rewrite sapp_cons in E.
  each_whitespace H; injection E as _ E;
    repeat (destruct pre as [|? pre];
            [ change ("" +:+ String c rest) with (String c rest) in E;
              first [discriminate E | injection E as <- _; reflexivity]
            | rewrite sapp_cons in E;
              first [discriminate E | injection E as _ E] ]).
Qed.

(** A text that does not begin with whitespace and is not empty does not
    begin with whitespace when a run of whitespace follows it. *)
Lemma no_lead_app (core ws : string) :
  core <> "" -> Core.spaces ws ->
  (forall ch rest, ch ∈ PyStr.whitespace -> core <> ch +:+ rest) ->
  forall ch rest, ch ∈ PyStr.whitespace -> core +:+ ws <> ch +:+ rest.
Proof.
  intros Hne Hws Hcore ch rest Hin E.
  apply sapp_eq_sapp in E as [(x & -> & Hws')|(x & -> & _)].
  - destruct x as [|c x].
    { rewrite sapp_nil_r in Hin. apply (Hcore core ""); [done|].
      now rewrite sapp_nil_r. }
    pose proof (whitespace_next_bytes _ _ _ _ Hin Hne eq_refl) as Hc.
    destruct Hws as [|ch' ws' Hin' _]; [discriminate|].
    apply whitespace_first_byte in Hin' as (c' & r' & -> & Hc').
    rewrite !sapp_cons in Hws'. injection Hws' as -> _. congruence.
  - now apply (Hcore ch x).
Qed.

(** A quote character is no byte of a whitespace character at its ends. *)
Lemma whitespace_not_quote_first (ch rest : string) (q : ascii) :
  ch ∈ PyStr.whitespace -> q ∈ Core.quotes -> ch <> String q rest.
Proof.
  intros H Hq E.
  apply elem_of_cons in Hq as [->|Hq];
    [|apply elem_of_cons in Hq as [->|Hq]; [|now apply elem_of_nil in Hq]];
    each_whitespace H; discriminate E.
Qed.

Lemma whitespace_not_quote_last (ch : string) (q : ascii) :
  ch ∈ PyStr.whitespace -> q ∈ Core.quotes -> PyStr.endswith ch q = false.
Proof.
  intros H Hq.
  apply elem_of_cons in Hq as [->|Hq];
    [|apply elem_of_cons in Hq as [->|Hq]; [|now apply elem_of_nil in Hq]];
    each_whitespace H; reflexivity.
Qed.

(** ** [str.strip()] *)

Lemma empty_no_lead (ch rest : string) :
  ch ∈ PyStr.whitespace -> "" <> ch +:+ rest.
Proof.
  intros Hin E. destruct ch; [now apply whitespace_nonempty | discriminate].
Qed.

Lemma lstrip_shape (ws core : string) :
  Core.spaces ws ->
  (forall ch rest, ch ∈ PyStr.whitespace -> core <> ch +:+ rest) ->
  PyStr.lstrip (ws +:+ core) = core.
Proof.
  intros Hws Hcore. unfold PyStr.lstrip.
  apply lstrip_aux_run; try done.
  - apply whitespace_nonempty.
  - apply whitespace_prefix_free.
  - rewrite length_sapp. lia.
Qed.

Lemma rstrip_shape (core ws : string) :
  Core.spaces ws ->
  (forall ch rest, ch ∈ PyStr.whitespace -> core <> rest +:+ ch) ->
  PyStr.rstrip (core +:+ ws) = core.
Proof.
  intros Hws Hcore. unfold PyStr.rstrip. rewrite rev_app.
  rewrite lstrip_aux_run.
  - apply rev_involutive.
  - apply whitespace_rev_nonempty.
  - apply whitespace_rev_prefix_free.
  - now apply run_rev.
  - intros ch rest Hin E.
    apply elem_of_map_rev_inv in Hin as (ch' & Hin & ->).
    apply (f_equal PyStr.rev) in E.
    rewrite rev_involutive, rev_app, rev_involutive in E.
    now apply (Hcore ch' (PyStr.rev rest)).
  - rewrite length_rev, length_sapp. lia.
Qed.

(** Between two runs of whitespace, [strip] finds a trimmed text. *)
Lemma strip_shape (ws1 ws2 core : string) :
  Core.spaces ws1 -> Core.spaces ws2 -> Core.trimmed core ->
  PyStr.strip (ws1 +:+ core +:+ ws2) = core.
Proof.
  intros H1 H2 Hcore. unfold PyStr.strip.
  destruct core as [|c core].
  - change ("" +:+ ws2) with ws2.
    rewrite <- (sapp_nil_r (ws1 +:+ ws2)).
    rewrite lstrip_shape; [done | now apply run_app | apply empty_no_lead].
  - rewrite lstrip_shape; [|done|].
    + apply rstrip_shape; [done|]. intros ch rest Hin.
      exact (proj2 (Hcore ch rest Hin)).
    + apply no_lead_app; [done | done |]. intros ch rest Hin.
      exact (proj1 (Hcore ch rest Hin)).
Qed.

Lemma map_rev_rev (chars : list string) :
  map PyStr.rev (map PyStr.rev chars) = chars.
Proof.
  induction chars as [|ch chars IH]; [done|]. cbn.
  now rewrite rev_involutive, IH.
Qed.

(** Every text is a trimmed text between two runs of whitespace, and
    [strip] finds it. *)
Lemma strip_decomp (s : string) :
  exists ws1 ws2,
    Core.spaces ws1 /\ Core.spaces ws2 /\
    s = ws1 +:+ PyStr.strip s +:+ ws2 /\ Core.trimmed (PyStr.strip s).
Proof.
  unfold PyStr.strip.
  destruct (lstrip_aux_decomp PyStr.whitespace whitespace_nonempty
              (String.length s) s ltac:(lia)) as (ws1 & H1 & Hs & Hlead).
  fold (PyStr.lstrip s) in Hs, Hlead. set (t := PyStr.lstrip s) in *.
  destruct (lstrip_aux_decomp (map PyStr.rev PyStr.whitespace)
              whitespace_rev_nonempty (String.length t) (PyStr.rev t))
    as (wr & Hr & Ht & Htrail).
  { rewrite length_rev. lia. }
  unfold PyStr.rstrip.
  set (u := PyStr.lstrip_aux (map PyStr.rev PyStr.whitespace)
              (String.length t) (PyStr.rev t)) in *.
  assert (Ht' : t = PyStr.rev u +:+ PyStr.rev wr).
  { rewrite <- rev_app, <- Ht. now rewrite rev_involutive. }
  exists ws1, (PyStr.rev wr). split; [exact H1|]. split; [|split].
  - apply run_rev in Hr. now rewrite map_rev_rev in Hr.
  - now rewrite <- Ht'.
  - intros ch rest Hin. split.
    + intros E. apply (Hlead ch (rest +:+ PyStr.rev wr)); [done|].
      rewrite Ht', E. apply sapp_assoc.
    + intros E. apply (Htrail (PyStr.rev ch) (PyStr.rev rest)).
      * now apply elem_of_map_rev.
      * rewrite <- rev_app, <- E. now rewrite rev_involutive.
Qed.


Lemma split_aux_length (c : ascii) (s cur : string) :
  List.length (PyStr.split_aux c s cur) = S (PyStr.count s c).
Proof.
  revert cur. induction s as [|d s IH]; intros cur; [done|].
  cbn. destruct (bool_decide (d = c)); cbn; now rewrite IH.
Qed.

Lemma count_drop_last (s : string) (c d : ascii) :
  PyStr.endswith s d = true -> d <> c ->
  PyStr.count (PyStr.drop_last s) c = PyStr.count s c.
Proof.
  intros Hend Hdc. induction s as [|x s IH]; [done|].
  destruct s as [|y s].
  - cbn in Hend |- *. apply bool_decide_eq_true in Hend. subst x.
    now rewrite bool_decide_eq_false_2.
  - change (PyStr.drop_last (String x (String y s)))
      with (String x (PyStr.drop_last (String y s))).
    cbn [PyStr.count]. rewrite IH; [done|exact Hend].
Qed.

Lemma count_stripParentheses (s : string) :
  PyStr.count (Core.stripParentheses s) "," = PyStr.count s ",".
Proof.
  unfold Core.stripParentheses.
  destruct (_ || _) eqn:E; [|done].
  destruct s as [|x s]; [done|].
  apply orb_true_iff in E as [E|E]; apply andb_true_iff in E as [E1 E2];
    cbn in E1; apply bool_decide_eq_true in E1; subst x;
    (destruct s as [|y s]; [cbn in E2; apply bool_decide_eq_true in E2; discriminate|]);
    cbn [PyStr.slice_1_m1];
    match type of E2 with
    | PyStr.endswith _ ?d = true =>
        change (PyStr.endswith (String y s) d = true) in E2
    end;
    rewrite (count_drop_last _ _ _ E2) by discriminate;
    reflexivity.
Qed.

(** ** Listlike strings *)

Lemma drop_last_app_char (l : string) (c : ascii) :
  PyStr.drop_last (l +:+ String c "") = l.
Proof.
  induction l as [|d l IH]; [done|].
  rewrite sapp_cons. cbn [PyStr.drop_last]. rewrite IH.
  destruct (l +:+ String c "") eqn:E; [|done]. destruct l; discriminate.
Qed.

(** A piece without the separator is read to its end. *)
Lemma split_aux_piece (c : ascii) (piece rest cur : string) :
  PyStr.contains piece c = false ->
  PyStr.split_aux c (piece +:+ rest) cur
  = PyStr.split_aux c rest (PyStr.rev_append piece cur).
Proof.
  revert cur. induction piece as [|d piece IH]; intros cur H; [done|].
  cbn in H. apply orb_false_iff in H as [Hd H].
  rewrite sapp_cons. cbn [PyStr.split_aux PyStr.rev_append].
  rewrite Hd. now apply IH.
Qed.

Lemma rev_rev_append_nil (piece : string) :
  PyStr.rev (PyStr.rev_append piece "") = piece.
Proof. apply rev_involutive. Qed.

(** Splitting at the commas undoes joining with commas. *)
Lemma split_join_comma (pieces : list string) :
  pieces <> [] ->
  Forall (fun piece => PyStr.contains piece "," = false) pieces ->
  PyStr.split (join_comma pieces) "," = pieces.
Proof.
  unfold PyStr.split.
  induction pieces as [|piece rest IH]; [done|]. intros _ H.
  apply Forall_cons in H as [Hp Hrest].
  destruct rest as [|piece' rest].
  - cbn [join_comma]. rewrite <- (sapp_nil_r piece) at 1.
    rewrite split_aux_piece by done. cbn [PyStr.split_aux].
    now rewrite rev_rev_append_nil.
  - change (join_comma (piece :: piece' :: rest))
      with (piece +:+ "," +:+ join_comma (piece' :: rest)).
    rewrite split_aux_piece by done.
    change ("," +:+ join_comma (piece' :: rest))
      with (String "," (join_comma (piece' :: rest))).
    cbn [PyStr.split_aux]. rewrite bool_decide_eq_true_2 by done.
    rewrite rev_rev_append_nil. f_equal. now apply IH.
Qed.

Lemma contains_join_comma (pieces : list string) :
  (2 <= List.length pieces)%nat ->
  PyStr.contains (join_comma pieces) "," = true.
Proof.
  destruct pieces as [|piece [|piece' rest]]; cbn [List.length]; [lia..|].
  intros _.
  change (join_comma (piece :: piece' :: rest))
    with (piece +:+ String "," (join_comma (piece' :: rest))).
  rewrite contains_app. cbn. now rewrite orb_true_r.
Qed.

Lemma stripParentheses_brackets (body : string) :
  Core.stripParentheses ("[" +:+ body +:+ "]") = body.
Proof.
  unfold Core.stripParentheses.
  change ("[" +:+ body +:+ "]") with (String "[" (body +:+ "]")).
  assert (He : PyStr.endswith (String "[" (body +:+ "]")) "]" = true).
  { change (String "[" (body +:+ "]")) with (("[" +:+ body) +:+ "]").
    now rewrite endswith_app. }
  rewrite He. cbn [PyStr.startswith PyStr.slice_1_m1].
  rewrite bool_decide_eq_true_2 by done. cbn [andb orb].
  apply drop_last_app_char.
Qed.

Lemma stripParentheses_parens (body : string) :
  Core.stripParentheses ("(" +:+ body +:+ ")") = body.
Proof.
  unfold Core.stripParentheses.
  change ("(" +:+ body +:+ ")") with (String "(" (body +:+ ")")).
  assert (He : PyStr.endswith (String "(" (body +:+ ")")) ")" = true).
  { change (String "(" (body +:+ ")")) with (("(" +:+ body) +:+ ")").
    now rewrite endswith_app. }
  rewrite He. cbn [PyStr.startswith PyStr.slice_1_m1].
  rewrite bool_decide_eq_false_2 by discriminate.
  rewrite bool_decide_eq_true_2 by done. cbn [andb orb].
  apply drop_last_app_char.
Qed.

Lemma stripParentheses_bare (s : string) :
  PyStr.startswith s "[" = false ->
  PyStr.startswith s "(" = false ->
  Core.stripParentheses s = s.
Proof. unfold Core.stripParentheses. now intros -> ->. Qed.

(** What [getFromNames] does with a string that has a comma, given what
    the string is without its parentheses. *)
Lemma getFromNames_listlike (globals : gmap string PyObj)
    (namespace : option (gmap string PyObj)) (s : string)
    (pieces : list string) :
  PyStr.contains s "," = true ->
  PyStr.split (Core.stripParentheses s) "," = pieces ->
  Core.getFromNames globals (OStr s) namespace
  = Core.getFromNames globals
      (OList (map (fun piece => OStr (Core.cleanName piece)) pieces))
      namespace.
Proof.
  intros Hs Hsplit. unfold Core.getFromNames, Core.splitNames.
  now rewrite Hs, Hsplit.
Qed.


(** ** Quoted names *)

Lemma startswith_inv (s : string) (c : ascii) :
  PyStr.startswith s c = true -> exists rest, s = String c rest.
Proof.
  destruct s as [|d s]; [discriminate|]. cbn. intros H.
  apply bool_decide_eq_true in H as ->. eauto.
Qed.

Lemma endswith_inv (s : string) (c : ascii) :
  PyStr.endswith s c = true -> exists rest, s = rest +:+ String c "".
Proof.
  induction s as [|d s IH]; [discriminate|]. destruct s as [|e s].
  - cbn. intros H. apply bool_decide_eq_true in H as ->. now exists "".
  - intros H. destruct (IH H) as [rest ->]. now exists (String d rest).
Qed.

Lemma endswith_snoc (rest : string) (c : ascii) :
  PyStr.endswith (rest +:+ String c "") c = true.
Proof.
  rewrite endswith_app by discriminate. cbn. now apply bool_decide_eq_true_2.
Qed.

(** The test of [cleanName] for a pair of quotes holds for the quoted
    texts and for no other. *)
Lemma quoted_test (s : string) :
  Core.quoted s <->
  (PyStr.startswith s PyStr.dquote && PyStr.endswith s PyStr.dquote)
  || (PyStr.startswith s "'" && PyStr.endswith s "'") = true.
Proof.
  split.
  - intros (q & Hq & Hs).
    assert (Hend : PyStr.endswith s q = true).
    { destruct Hs as [->|[inner ->]].
      - cbn. now apply bool_decide_eq_true_2.
      - change (String q (inner +:+ String q ""))
          with (String q inner +:+ String q "").
        apply endswith_snoc. }
    assert (Hstart : PyStr.startswith s q = true).
    { destruct Hs as [->|[inner ->]]; cbn; now apply bool_decide_eq_true_2. }
    apply elem_of_cons in Hq as [->|Hq].
    + now rewrite Hstart, Hend.
    + apply elem_of_cons in Hq as [->|Hq]; [|now apply elem_of_nil in Hq].
      rewrite Hstart, Hend. now rewrite orb_true_r.
  - intros H.
    assert (Hq : exists q, q ∈ Core.quotes /\
                   PyStr.startswith s q = true /\ PyStr.endswith s q = true).
    { apply orb_true_iff in H as [H|H]; apply andb_true_iff in H as [H1 H2].
      - exists PyStr.dquote. split; [apply elem_of_cons; now left | done].
      - exists "'"%char. split; [|done].
        apply elem_of_cons. right. apply elem_of_cons. now left. }
    destruct Hq as (q & Hq & H1 & H2). exists q. split; [done|].
    apply startswith_inv in H1 as [rest ->].
    destruct rest as [|c rest]; [now left|]. right.
    change (PyStr.endswith (String c rest) q = true) in H2.
    apply endswith_inv in H2 as [inner ->]. now exists inner.
Qed.

(** A text in quotes has no whitespace at its ends. *)
Lemma quoted_trimmed (s : string) : Core.quoted s -> Core.trimmed s.
Proof.
  intros Hq ch rest Hin.
  pose proof Hq as (q & Hin_q & Hs). split.
  - intros E.
    assert (exists r, ch = String q r) as [r ->].
    { destruct ch as [|c ch]; [now apply whitespace_nonempty in Hin|].
      rewrite sapp_cons in E.
      destruct Hs as [->|[inner ->]]; injection E as -> _; eauto. }
    now apply (whitespace_not_quote_first _ r q Hin).
  - intros E.
    assert (Hend : PyStr.endswith s q = true).
    { destruct Hs as [->|[inner ->]].
      - cbn. now apply bool_decide_eq_true_2.
      - change (String q (inner +:+ String q ""))
          with (String q inner +:+ String q "").
        apply endswith_snoc. }
    rewrite E, endswith_app in Hend.
    + now rewrite (whitespace_not_quote_last _ _ Hin Hin_q) in Hend.
    + intros ->. now apply whitespace_nonempty in Hin.
Qed.

Lemma quoted_shape (q : ascii) (inner ws2 : string) :
  String q (inner +:+ String q ws2)
  = String q (inner +:+ String q "") +:+ ws2.
Proof. now rewrite sapp_cons, sapp_assoc. Qed.

(** [cleanName] does what the shape of the piece tells. *)
Lemma cleaned_cleanName (piece name : string) :
  Core.cleaned piece name -> Core.cleanName piece = name.
Proof.
  intros H. unfold Core.cleanName. destruct H as
    [ws1 ws2 q inner H1 H2 Hq | ws1 ws2 q H1 H2 Hq | ws1 ws2 name H1 H2 Ht Hn].
  - assert (Hquoted : Core.quoted (String q (inner +:+ String q ""))).
    { exists q. split; [done|]. right. now exists inner. }
    rewrite quoted_shape, strip_shape by (try done; now apply quoted_trimmed).
    rewrite (proj1 (quoted_test _) Hquoted). cbn [PyStr.slice_1_m1].
    apply drop_last_app_char.
  - assert (Hquoted : Core.quoted (String q "")).
    { exists q. split; [done|]. now left. }
    change (String q ws2) with (String q "" +:+ ws2).
    rewrite strip_shape by (try done; now apply quoted_trimmed).
    now rewrite (proj1 (quoted_test _) Hquoted).
  - rewrite strip_shape by done.
    destruct (_ || _) eqn:E; [|done].
    apply quoted_test in E. contradiction.
Qed.

(** Every piece has one of the shapes. *)
Lemma cleanName_cleaned (piece : string) :
  Core.cleaned piece (Core.cleanName piece).
Proof.
  unfold Core.cleanName.
  destruct (strip_decomp piece) as (ws1 & ws2 & H1 & H2 & Hs & Ht).
  remember (PyStr.strip piece) as core eqn:Hcore. clear Hcore.
  rewrite Hs at 1. clear Hs.
  destruct (_ || _) eqn:E.
  - apply quoted_test in E as (q & Hq & [->|[inner ->]]).
    + change (ws1 +:+ String q "" +:+ ws2) with (ws1 +:+ String q ws2).
      now constructor.
    + rewrite <- quoted_shape. cbn [PyStr.slice_1_m1].
      rewrite drop_last_app_char. now constructor.
  - constructor; try done. intros Hquoted.
    apply quoted_test in Hquoted. congruence.
Qed.

(** ** Brackets *)

Lemma wrapped_test (s : string) :
  Core.wrapped s <->
  (PyStr.startswith s "[" && PyStr.endswith s "]")
  || (PyStr.startswith s "(" && PyStr.endswith s ")") = true.
Proof.
  split.
  - intros [[body ->]|[body ->]].
    + assert (He : PyStr.endswith ("[" +:+ body +:+ "]") "]" = true).
      { change ("[" +:+ body +:+ "]") with (String "[" body +:+ "]").
        apply endswith_snoc. }
      rewrite He. reflexivity.
    + assert (He : PyStr.endswith ("(" +:+ body +:+ ")") ")" = true).
      { change ("(" +:+ body +:+ ")") with (String "(" body +:+ ")").
        apply endswith_snoc. }
      rewrite He. reflexivity.
  - intros H.
    apply orb_true_iff in H as [H|H]; apply andb_true_iff in H as [H1 H2];
      apply startswith_inv in H1 as [rest ->];
      (destruct rest as [|c rest];
       [cbn in H2; apply bool_decide_eq_true in H2; discriminate|]);
      match type of H2 with
      | PyStr.endswith _ ?d = true =>
          change (PyStr.endswith (String c rest) d = true) in H2
      end;
      apply endswith_inv in H2 as [body ->]; [left|right]; now exists body.
Qed.

Lemma stripParentheses_unwrapped (s : string) :
  ~ Core.wrapped s -> Core.stripParentheses s = s.
Proof.
  intros H. unfold Core.stripParentheses.
  destruct (_ || _) eqn:E; [|done]. apply wrapped_test in E. contradiction.
Qed.

(** ** Pieces *)

Lemma contains_rev_append (s cur : string) (c : ascii) :
  PyStr.contains (PyStr.rev_append s cur) c
  = PyStr.contains s c || PyStr.contains cur c.
Proof.
  revert cur. induction s as [|d s IH]; intros cur; [done|].
  cbn [PyStr.rev_append PyStr.contains]. rewrite IH. cbn [PyStr.contains].
  destruct (bool_decide (d = c)), (PyStr.contains s c); cbn;
    try reflexivity; now rewrite ?orb_true_r.
Qed.

Lemma join_comma_cons (piece : string) (rest : list string) :
  rest <> [] ->
  join_comma (piece :: rest) = piece +:+ "," +:+ join_comma rest.
Proof. now destruct rest. Qed.

Lemma split_aux_nonempty (c : ascii) (s cur : string) :
  PyStr.split_aux c s cur <> [].
Proof.
  revert cur. induction s as [|d s IH]; intros cur; [done|].
  cbn. destruct (bool_decide (d = c)); [done | apply IH].
Qed.

(** Joining with commas undoes splitting at the commas, and no piece has
    a comma. *)
Lemma join_split_aux (s cur : string) :
  PyStr.contains cur "," = false ->
  join_comma (PyStr.split_aux "," s cur) = PyStr.rev cur +:+ s /\
  Forall (fun piece => PyStr.contains piece "," = false)
         (PyStr.split_aux "," s cur).
Proof.
  revert cur. induction s as [|d s IH]; intros cur Hcur.
  - cbn. rewrite sapp_nil_r. split; [done|].
    apply Forall_cons. split; [|apply Forall_nil_2].
    unfold PyStr.rev. rewrite contains_rev_append. now rewrite Hcur.
  - cbn [PyStr.split_aux]. destruct (bool_decide (d = ","%char)) eqn:E.
    + apply bool_decide_eq_true in E as ->.
      destruct (IH "" eq_refl) as [Hj Hf]. split.
      * rewrite join_comma_cons by apply split_aux_nonempty.
        now rewrite Hj.
      * apply Forall_cons. split; [|exact Hf].
        unfold PyStr.rev. rewrite contains_rev_append. now rewrite Hcur.
    + destruct (IH (String d cur)) as [Hj Hf].
      { cbn. now rewrite E, Hcur. }
      split; [|exact Hf]. rewrite Hj, rev_cons. now rewrite sapp_assoc.
Qed.

Lemma contains_count (s : string) (c : ascii) :
  PyStr.contains s c = true -> (1 <= PyStr.count s c)%nat.
Proof.
  induction s as [|d s IH]; [discriminate|]. cbn.
  destruct (bool_decide (d = c)); cbn; [lia|]. intros H. now apply IH.
Qed.

Section NamesLoop.

Variable globals : gmap string PyObj.

(** The loop of [getFromNames] over names that are strings resolves each
    of them, in order, in the namespace in force. *)
Lemma getObjs_strings (names : list string)
    (namespace : option (gmap string PyObj)) (objs : list PyObj) :
  Core.getObjs globals (map OStr names) namespace objs
  = Ok (objs ++ map (Core.resolve (default globals namespace)) names).
Proof.
  revert namespace objs. induction names as [|nm names IH];
    intros namespace objs.
  - cbn. now rewrite app_nil_r.
  - cbn [map Core.getObjs]. unfold Core.dict_get. cbn [Core.hashable].
    set (ns := match namespace with Some ns => ns | None => globals end).
    assert (Hns : default globals namespace = ns) by now destruct namespace.
    rewrite Hns.
    assert (Hr : match ns !! nm with
                 | Some obj => Ok obj
                 | None => Ok (OStr nm)
                 end = Ok (Core.resolve ns nm))
      by (unfold Core.resolve; now destruct (ns !! nm)).
    rewrite Hr. cbn [mbind result_bind]. rewrite IH. cbn [default id].
    now rewrite <- app_assoc.
Qed.

End NamesLoop.


Lemma cleaned_map (pieces names : list string) :
  Forall2 Core.cleaned pieces names -> map Core.cleanName pieces = names.
Proof.
  intros H. induction H as [|piece name pieces names Hc _ IH]; [done|].
  cbn. now rewrite (cleaned_cleanName _ _ Hc), IH.
Qed.

Lemma map_cleaned (pieces : list string) :
  Forall2 Core.cleaned pieces (map Core.cleanName pieces).
Proof.
  induction pieces as [|piece pieces IH]; [constructor|].
  cbn. constructor; [apply cleanName_cleaned | exact IH].
Qed.

(** A string with a comma: the pieces of what is left without the
    brackets, each cleaned, each resolved. *)
Lemma getFromNames_pieces (globals : gmap string PyObj)
    (namespace : option (gmap string PyObj)) (s : string)
    (pieces names : list string) :
  PyStr.contains s "," = true ->
  PyStr.split (Core.stripParentheses s) "," = pieces ->
  Forall2 Core.cleaned pieces names ->
  Core.getFromNames globals (OStr s) namespace
  = Ok (map (Core.resolve (default globals namespace)) names).
Proof.
  intros Hs Hsplit Hc.
  rewrite (getFromNames_listlike _ _ _ _ Hs Hsplit).
  rewrite <- (map_map Core.cleanName OStr), (cleaned_map _ _ Hc).
  apply (getObjs_strings globals names namespace []).
Qed.

(** Shows that a character is in a list of characters. *)
Ltac in_chars :=
  repeat first [ apply elem_of_cons; left; reflexivity
               | apply elem_of_cons; right ].

(** C10. [getFromNames] gives one object per name, when the names are
    hashable. A string without a comma gives the one object it resolves
    to. An input that is not iterable gives itself when it is hashable, and
    [TypeError] is raised when it is not. A string with commas is, after
    one pair of square or round brackets around it is taken off, a list of
    pieces joined by commas, one more than there are commas; each piece
    stands for a name by its shape: the whitespace around it does not
    count, what is left stands for itself, and when that is a text in a
    pair of equal quotes it stands for what is between the quotes, as it
    is (whitespace inside the quotes is kept); the result is what these
    names resolve to, in order. A list or a tuple of names gives one object
    per name. A name that the namespace does not bind resolves to the name
    itself. *)
Theorem getFromNames_one_object_per_name
    (globals : gmap string PyObj) (namespace : option (gmap string PyObj)) :
  (forall s,
     PyStr.contains s "," = false ->
     Core.getFromNames globals (OStr s) namespace
     = Ok [Core.resolve (default globals namespace) s]) /\
  (forall o,
     Core.isinstance_Iterable o = false ->
     Core.getFromNames globals o namespace
     = if Core.hashable o then Ok [o]
       else Raise (TypeError "unhashable type")) /\
  (forall pieces names,
     (2 <= List.length pieces)%nat ->
     Forall (fun piece => PyStr.contains piece "," = false) pieces ->
     Forall2 Core.cleaned pieces names ->
     Core.getFromNames globals
       (OStr ("[" +:+ join_comma pieces +:+ "]")) namespace
     = Ok (map (Core.resolve (default globals namespace)) names) /\
     Core.getFromNames globals
       (OStr ("(" +:+ join_comma pieces +:+ ")")) namespace
     = Ok (map (Core.resolve (default globals namespace)) names) /\
     (~ Core.wrapped (join_comma pieces) ->
      Core.getFromNames globals (OStr (join_comma pieces)) namespace
      = Ok (map (Core.resolve (default globals namespace)) names))) /\
  (forall s,
     PyStr.contains s "," = true ->
     exists body pieces names,
       (s = "[" +:+ body +:+ "]" \/ s = "(" +:+ body +:+ ")" \/
        (s = body /\ ~ Core.wrapped s)) /\
       body = join_comma pieces /\
       List.length pieces = S (PyStr.count s ",") /\
       Forall (fun piece => PyStr.contains piece "," = false) pieces /\
       Forall2 Core.cleaned pieces names /\
       Core.getFromNames globals (OStr s) namespace
       = Ok (map (Core.resolve (default globals namespace)) names)) /\
  (forall names : list string,
     Core.getFromNames globals (OList (map OStr names)) namespace
     = Ok (map (Core.resolve (default globals namespace)) names) /\
     Core.getFromNames globals (OTuple (map OStr names)) namespace
     = Ok (map (Core.resolve (default globals namespace)) names)) /\
  (forall name,
     default globals namespace !! name = None ->
     Core.resolve (default globals namespace) name = OStr name).
Proof.
  split; [|split; [|split; [|split; [|split]]]].
  - intros s Hs. unfold Core.getFromNames, Core.splitNames. rewrite Hs.
    cbn [Core.asList Core.isinstance_str orb].
    apply (getObjs_strings globals [s] namespace []).
  - intros o Ho. unfold Core.getFromNames.
    destruct o; try discriminate; reflexivity.
  - intros pieces names Hlen Hpieces Hc.
    assert (Hne : pieces <> [])
      by (destruct pieces; [cbn in Hlen; lia | done]).
    pose proof (contains_join_comma _ Hlen) as Hcomma.
    split; [|split].
    + apply getFromNames_pieces with (pieces := pieces); [| |exact Hc].
      * change ("[" +:+ join_comma pieces +:+ "]")
          with (String "[" (join_comma pieces +:+ "]")).
        cbn [PyStr.contains]. rewrite contains_app, Hcomma.
        now rewrite orb_true_r.
      * rewrite stripParentheses_brackets. now apply split_join_comma.
    + apply getFromNames_pieces with (pieces := pieces); [| |exact Hc].
      * change ("(" +:+ join_comma pieces +:+ ")")
          with (String "(" (join_comma pieces +:+ ")")).
        cbn [PyStr.contains]. rewrite contains_app, Hcomma.
        now rewrite orb_true_r.
      * rewrite stripParentheses_parens. now apply split_join_comma.
    + intros Hw.
      apply getFromNames_pieces with (pieces := pieces); [done| |exact Hc].
      rewrite stripParentheses_unwrapped by done.
      now apply split_join_comma.
  - intros s Hs.
    destruct (join_split_aux (Core.stripParentheses s) "" eq_refl)
      as [Hjoin Hfree].
    change (PyStr.rev "" +:+ Core.stripParentheses s)
      with (Core.stripParentheses s) in Hjoin.
    exists (Core.stripParentheses s),
           (PyStr.split (Core.stripParentheses s) ","),
           (map Core.cleanName (PyStr.split (Core.stripParentheses s) ",")).
    split; [|split; [|split; [|split; [|split]]]].
    + destruct ((PyStr.startswith s "[" && PyStr.endswith s "]")
                || (PyStr.startswith s "(" && PyStr.endswith s ")")) eqn:E.
      * apply wrapped_test in E as [[body ->]|[body ->]].
        -- left. now rewrite stripParentheses_brackets.
        -- right. left. now rewrite stripParentheses_parens.
      * assert (Hw : ~ Core.wrapped s).
        { intros Hw. apply wrapped_test in Hw. congruence. }
        right. right. split; [|exact Hw].
        now rewrite stripParentheses_unwrapped.
    + symmetry. exact Hjoin.
    + unfold PyStr.split. rewrite split_aux_length.
      now rewrite count_stripParentheses.
    + exact Hfree.
    + apply map_cleaned.
    + apply getFromNames_pieces
        with (pieces := PyStr.split (Core.stripParentheses s) ",");
        [done | done | apply map_cleaned].
  - intros names. split; apply (getObjs_strings globals names namespace []).
  - intros name H. unfold Core.resolve. now rewrite H.
Qed.

Lemma getFromNames_one_object_per_name_witness :
  Core.getFromNames ∅ (OStr "[a, 'b' ,c]") (Some {[ "b" := OOpaque 1 ]})
  = Ok [OStr "a"; OOpaque 1; OStr "c"]
  /\ Core.getFromNames ∅ (OStr "b") (Some {[ "b" := OOpaque 1 ]})
     = Ok [OOpaque 1]
  /\ Core.getFromNames {[ "b" := OOpaque 1 ]} (ONum 5) None = Ok [ONum 5]
  /\ Core.getFromNames {[ "b" := OOpaque 1 ]} (OUnhashable 0) None
     = Raise (TypeError "unhashable type").
Proof.
  destruct (getFromNames_one_object_per_name ∅ (Some {[ "b" := OOpaque 1 ]}))
    as (H1 & _ & H3 & _).
  destruct (getFromNames_one_object_per_name {[ "b" := OOpaque 1 ]} None)
    as (_ & H2 & _).
  assert (Hlen : (2 <= List.length ["a"; " 'b' "; "c"])%nat) by (cbn; lia).
  assert (Hfree : Forall (fun piece => PyStr.contains piece "," = false)
                    ["a"; " 'b' "; "c"]).
  { repeat (apply Forall_cons; split; [reflexivity|]). apply Forall_nil_2. }
  assert (Hc : Forall2 Core.cleaned ["a"; " 'b' "; "c"] ["a"; "b"; "c"]).
  { repeat constructor.
    - exact (cleanName_cleaned "a").
    - exact (cleanName_cleaned " 'b' ").
    - exact (cleanName_cleaned "c"). }
  destruct (H3 ["a"; " 'b' "; "c"] ["a"; "b"; "c"] Hlen Hfree Hc)
    as (H3a & _ & _).
  split; [|split; [|split]].
  - etransitivity; [exact H3a | vm_compute; reflexivity].
  - rewrite (H1 "b" eq_refl). vm_compute. reflexivity.
  - apply (H2 (ONum 5) eq_refl).
  - apply (H2 (OUnhashable 0) eq_refl).
Defined.

(** A name in quotes keeps the whitespace inside the quotes, so it need
    not be trimmed, and an input that is neither iterable nor hashable
    gives no list. *)
Lemma getFromNames_one_object_per_name_counterexample :
  Core.getFromNames ∅ (OStr "a,' b '") None = Ok [OStr "a"; OStr " b "] /\
  ~ Core.trimmed " b " /\
  Core.getFromNames ∅ (OUnhashable 0) None
  = Raise (TypeError "unhashable type").
Proof.
  split; [vm_compute; reflexivity|]. split; [|reflexivity].
  intros H. destruct (H " " "b ") as [H1 _]; [|now apply H1].
  unfold PyStr.whitespace. cbn [map]. in_chars.
Qed.

(** ** The frame code, part by part *)

Section FrameParts.

Context `{host : Host}.

(** [writeFrameCode] is its parts, one after the other. *)
Lemma writeFrameCode_parts self buff :
  writeFrameCode self buff =
  pF ← getParam self "forceEndRoutineOnPress";
  pT ← getParam self "timeRelativeTo";
  tr ← val_lower (val pT);
  self1 ← frameClock tr self;
  pN ← getParam self1 "name";
  '(b1, n1) ← writeStartTestCode (params self1)
                (writeIndented ("# *" +:+ Param_str pN +:+ "* updates" +:+ nl)
                               buff);
  b1' ← frameInit self1 tr n1 b1;
  '(b2, n2) ← writeStopTestCode (params self1)
                (setIndentLevel (- n1) true b1');
  code ← format_params (fun name =>
            "if " +:+ name +:+ ".status == STARTED:  " +:+
            "# only update if started and not finished!" +:+ nl) self1;
  frameTail self1 (val pF)
    (setIndentLevel 1 true
       (writeIndented code (setIndentLevel (- n2) true b2))).
Proof. reflexivity. Qed.

Lemma frameClock_fields tr self self1 :
  frameClock tr self = Ok self1 ->
  params self1 = params self /\ exp self1 = exp self /\
  type self1 = type self /\ url self1 = url self /\
  order self1 = order self /\
  _clickableParamsList self1 = _clickableParamsList self.
Proof.
  unfold frameClock. destruct (bool_decide (tr = "experiment")).
  - now intros [= <-].
  - destruct (bool_decide (tr ∈ ["routine"; "buttonbox onset"])).
    + intros H. bind_inv H as pN HN. now injection H as <-.
    + now intros [= <-].
Qed.

(** What a successful run of [writeFrameCode] went through. *)
Lemma writeFrameCode_inv self buff r :
  writeFrameCode self buff = Ok r ->
  exists pF pT tr self1 pN b1 n1 b1' b2 n2,
    params self !! "forceEndRoutineOnPress" = Some pF /\
    params self !! "timeRelativeTo" = Some pT /\
    val_lower (val pT) = Ok tr /\
    frameClock tr self = Ok self1 /\
    params self !! "name" = Some pN /\
    writeStartTestCode (params self)
      (writeIndented (updatesLine (Param_str pN) +:+ nl) buff) = Ok (b1, n1) /\
    frameInit self1 tr n1 b1 = Ok b1' /\
    writeStopTestCode (params self) (setIndentLevel (- n1) true b1')
      = Ok (b2, n2) /\
    frameTail self1 (val pF)
      (setIndentLevel 1 true
         (writeIndented (startedIfLine (Param_str pN) +:+ nl)
                        (setIndentLevel (- n2) true b2))) = Ok r.
Proof.
  rewrite writeFrameCode_parts. intros H.
  bind_inv H as pF HF. bind_inv H as pT HT. bind_inv H as tr Htr.
  bind_inv H as self1 Hself1.
  pose proof (frameClock_fields _ _ _ Hself1) as (Hps & _).
  bind_inv H as pN HN. bind_inv H as [b1 n1] Hb1. bind_inv H as b1' Hb1'.
  bind_inv H as [b2 n2] Hb2. unfold format_params in H.
  rewrite HN in H. cbn [mbind result_bind] in H.
  apply getParam_Ok in HF, HT, HN. rewrite Hps in HN, Hb1, Hb2.
  exists pF, pT, tr, self1, pN, b1, n1, b1', b2, n2.
  repeat split; try done.
  - unfold updatesLine. now rewrite !sapp_assoc.
  - unfold startedIfLine. now rewrite !sapp_assoc.
Qed.

End FrameParts.

Section FrameMatrix.

Context `{host : Host}.

(** The [if indented:] block only adds plain lines. *)
Lemma frameInit_written self tr n b b' pN :
  params self !! "name" = Some pN ->
  one_line (Param_str pN) ->
  frameInit self tr n b = Ok b' ->
  indentLevel b' = indentLevel b /\
  exists cs, written b' = written b ++ cs /\ Forall plain cs.
Proof.
  intros HN Hname H. unfold frameInit in H.
  destruct (bool_decide (n ≠ 0)).
  - bind_inv H as pNew HNew. unfold format_params in H.
    lookup HN in H. injection H as <-.
    split; [apply indentLevel_writeIndentedLines|].
    destruct (Param_bool pNew), (bool_decide (tr = "buttonbox onset"));
      match goal with
      | |- context [writeIndentedLines ?text b] =>
          first
            [ rewrite (writeIndentedLines_lines text
                [clockResetLine (Param_str pN);
                 "prevButtonState = " +:+ Param_str pN +:+ ".getKeys()" +:+
                 "  # if button is down already this ISN'T a new click"] b);
              [ | unfold clockResetLine; unlines_eq | discriminate
                | unfold clockResetLine; one_line_tac ]
            | rewrite (writeIndentedLines_lines text
                ["prevButtonState = " +:+ Param_str pN +:+ ".getKeys()" +:+
                 "  # if button is down already this ISN'T a new click"] b);
              [ | unlines_eq | discriminate | one_line_tac ]
            | rewrite (writeIndentedLines_lines text
                [clockResetLine (Param_str pN);
                 "prevButtonState = []" +:+
                 "  # if now button is down we will treat as 'new' click"] b);
              [ | unfold clockResetLine; unlines_eq | discriminate
                | unfold clockResetLine; one_line_tac ]
            | rewrite (writeIndentedLines_lines text
                ["prevButtonState = []" +:+
                 "  # if now button is down we will treat as 'new' click"] b);
              [ | unlines_eq | discriminate | one_line_tac ] ]
      end;
      (eexists; split; [reflexivity|]; unfold chunks, clockResetLine;
       cbn [map]; plain_tac).
  - injection H as <-. split; [done|]. exists []. now rewrite app_nil_r.
Qed.

Lemma updatesLine_plain (L : Z) (name : string) :
  plain (mkChunk L (updatesLine name +:+ nl)).
Proof.
  apply plain_line; unfold updatesLine; rewrite ?last_char_app; cbn;
    discriminate.
Qed.

Lemma startedIfLine_plain (L : Z) (name : string) :
  plain (mkChunk L (startedIfLine name +:+ nl)).
Proof.
  apply plain_line; unfold startedIfLine; rewrite ?last_char_app; cbn;
    discriminate.
Qed.

(** [writeClickData], with the value of [clickable] read off the
    parameters. *)
Lemma writeClickData_clickableVal self save name clock buff buff' :
  one_line name -> one_line clock ->
  writeClickData self save (mouseCode name clock) buff = Ok buff' ->
  buff' = mkBuffer (indentLevel buff)
            (written buff ++
             dataChunks save (clickableVal self) name clock (indentLevel buff)).
Proof.
  intros Hn Hc. unfold writeClickData, dataChunks, clickableVal.
  destruct (bool_decide (save ∈ [VStr "on click"])).
  - intros [= <-]. now apply writeIndentedLines_mouseCode.
  - intros H. bind_inv H as pC HC. apply getParam_Ok in HC. rewrite HC.
    destruct (truthy (val pC) && bool_decide (save ∈ [VStr "on valid click"])).
    + injection H as <-.
      rewrite (writeIndentedLines_lines _ ["if gotValidClick:"] buff);
        [ | unlines_eq | discriminate | one_line_tac ].
      rewrite writeIndentedLines_mouseCode by done.
      unfold setIndentLevel. cbn. rewrite <- !app_assoc.
      f_equal. lia.
    + injection H as <-. rewrite app_nil_r. now destruct buff.
Qed.

(** The matrix of the frame code: what [frameTail] writes, for every value
    of [forceEndRoutineOnPress] and of [saveMouseState]. *)
Lemma frameTail_written self forceEnd buff self' buff' pN pS clock :
  params self !! "name" = Some pN ->
  one_line (Param_str pN) ->
  params self !! "saveMouseState" = Some pS ->
  clockStr self = Some clock ->
  one_line clock ->
  frameTail self forceEnd buff = Ok (self', buff') ->
  self' = self /\
  written buff' =
    written buff ++
    frameBlock forceEnd (val pS) (clickableVal self) (Param_str pN) clock
               (indentLevel buff).
Proof.
  intros HN Hname HS Hclock Hclock1 H. unfold frameTail in H.
  lookup HS in H. unfold frameBlock.
  destruct (bool_decide (val pS ∈ [VStr "never"; VStr "final"])
            && bool_decide (forceEnd ≠ VStr "never")).
  - bind_inv H as [b4 d4] Hb4.
    apply (_buttonPressCode_written _ _ _ _ _ pN HN Hname) in Hb4 as [-> ->].
    destruct (bool_decide (forceEnd = VStr "valid click")).
    + injection H as <- <-. split; [done|].
      match goal with
      | |- context [writeIndentedLines ?text ?b] =>
          rewrite (writeIndentedLines_lines text
                     ["if gotValidClick:  "; "    " +:+ endRoutine] b);
          [ | unlines_eq | discriminate | one_line_tac ]
      end.
      cbn [written setIndentLevel indentLevel]. now rewrite <- !app_assoc.
    + injection H as <- <-. split; [done|].
      cbn [written setIndentLevel writeIndented indentLevel].
      now rewrite <- !app_assoc.
  - destruct (bool_decide (val pS ≠ VStr "never")).
    + lookup HN in H. unfold getattr_clockStr in H. rewrite Hclock in H.
      cbn [mbind result_bind] in H.
      bind_inv H as [b6 d6] Hb6. injection H as <- <-. split; [done|].
      set (b0 := if bool_decide (val pS ∈ [VStr "every frame"])
                 then writeIndentedLines (mouseCode (Param_str pN) clock) buff
                 else buff) in Hb6.
      assert (Hb0 : written b0 = written buff ++
                    (if bool_decide (val pS ∈ [VStr "every frame"])
                     then chunks (indentLevel buff)
                            (mouseLines (Param_str pN) clock)
                     else []) /\ indentLevel b0 = indentLevel buff).
      { subst b0. destruct (bool_decide (val pS ∈ [VStr "every frame"])).
        - now rewrite writeIndentedLines_mouseCode.
        - now rewrite app_nil_r. }
      destruct Hb0 as [Hw0 HL0]. clearbody b0.
      destruct (bool_decide (forceEnd = VStr "never")
                && bool_decide (val pS ∈ [VStr "on click"; VStr "on valid click"])).
      * bind_inv Hb6 as [b4 d4] Hb4. bind_inv Hb6 as b5 Hb5.
        injection Hb6 as <- <-.
        apply (_buttonPressCode_written _ _ _ _ _ pN HN Hname) in Hb4 as [-> ->].
        apply writeClickData_clickableVal in Hb5 as ->; [|done..].
        cbn [written setIndentLevel indentLevel].
        now rewrite Hw0, HL0, <- !app_assoc.
      * destruct (bool_decide (forceEnd ≠ VStr "never")).
        -- bind_inv Hb6 as [b4 d4] Hb4. bind_inv Hb6 as b5 Hb5.
           bind_inv Hb6 as pC HC. injection Hb6 as <- <-.
           apply (_buttonPressCode_written _ _ _ _ _ pN HN Hname) in Hb4
             as [-> ->].
           apply writeClickData_clickableVal in Hb5 as ->; [|done..].
           apply getParam_Ok in HC.
           assert (HCv : clickableVal self = val pC)
             by (unfold clickableVal; now rewrite HC).
           rewrite HCv.
           destruct (truthy (val pC)),
                    (bool_decide (forceEnd = VStr "valid click")),
                    (bool_decide (forceEnd = VStr "any click"));
             cbn [andb];
             repeat match goal with
             | |- context [writeIndentedLines
                             ("if gotValidClick:" +:+ nl +:+ "    " +:+
                              endRoutine +:+ nl) ?b] =>
                 rewrite (writeIndentedLines_lines
                            ("if gotValidClick:" +:+ nl +:+ "    " +:+
                             endRoutine +:+ nl)
                            ["if gotValidClick:"; "    " +:+ endRoutine] b);
                 [ | unlines_eq | discriminate | one_line_tac ]
             | |- context [writeIndentedLines (nl +:+ endRoutine +:+ nl) ?b] =>
                 rewrite (writeIndentedLines_lines (nl +:+ endRoutine +:+ nl)
                            [""; endRoutine] b);
                 [ | reflexivity | discriminate | one_line_tac ]
             end;
             try destruct (bool_decide (forceEnd = VStr "correct click"));
             cbn [written setIndentLevel indentLevel];
             rewrite Hw0, HL0, ?app_nil_r, <- ?app_assoc; reflexivity.
        -- injection Hb6 as <- <-.
           cbn [written setIndentLevel]. now rewrite Hw0, app_nil_r.
    + injection H as <- <-. split; [done|]. now rewrite app_nil_r.
Qed.

End FrameMatrix.

(** ** The frame code: every configuration *)

Section FrameFragment.

Context `{host : Host}.

Lemma frameClock_one_line (t : string) self self1 pN :
  params self !! "name" = Some pN ->
  one_line (Val_str (val pN)) ->
  VStr t ∈ timeRelativeTo_allowed ->
  frameClock (PyStr.lower t) self = Ok self1 ->
  exists clock, clockStr self1 = Some clock /\ one_line clock.
Proof. apply clock_step_one_line. Qed.

(** The fragment [writeFrameCode] writes: plain chunks, the line that
    opens the block, and the block of the matrix. *)
Lemma writeFrameCode_block self buff self' buff' pF pS pN pT :
  writes_plain (params self) writeStartTestCode ->
  writes_plain (params self) writeStopTestCode ->
  params self !! "forceEndRoutineOnPress" = Some pF ->
  params self !! "saveMouseState" = Some pS ->
  params self !! "name" = Some pN ->
  one_line (Param_str pN) ->
  one_line (Val_str (val pN)) ->
  params self !! "timeRelativeTo" = Some pT ->
  val pT ∈ timeRelativeTo_allowed ->
  writeFrameCode self buff = Ok (self', buff') ->
  exists pre L clock,
    Forall plain pre /\
    clockStr self' = Some clock /\
    one_line clock /\
    emitted buff buff' =
      pre ++
      mkChunk L (startedIfLine (Param_str pN) +:+ nl) ::
      frameBlock (val pF) (val pS) (clickableVal self) (Param_str pN) clock
                 (L + 1).
Proof.
  intros Hstart Hstop HF HS HN Hname Hname' HT HTv H.
  apply writeFrameCode_inv in H
    as (pF' & pT' & tr & self1 & pN' & b1 & n1 & b1' & b2 & n2 &
        HF' & HT' & Htr & Hclk & HN' & Hb1 & Hb1' & Hb2 & H).
  rewrite HF in HF'. injection HF' as <-.
  rewrite HT in HT'. injection HT' as <-.
  rewrite HN in HN'. injection HN' as <-.
  destruct (val pT) as [| | |t|] eqn:Ht;
    try (exfalso; unfold timeRelativeTo_allowed in HTv; elem_of_false HTv).
  injection Htr as <-.
  destruct (frameClock_one_line _ _ _ _ HN Hname' HTv Hclk)
    as (clock & Hclock & Hclock1).
  apply frameClock_fields in Hclk as (Hps & _).
  assert (HN1 : params self1 !! "name" = Some pN) by now rewrite Hps.
  assert (HS1 : params self1 !! "saveMouseState" = Some pS) by now rewrite Hps.
  apply Hstart in Hb1 as (cs1 & Hcs1 & Hplain1).
  apply (frameInit_written _ _ _ _ _ pN HN1 Hname) in Hb1'
    as (_ & cs0 & Hcs0 & Hplain0).
  apply Hstop in Hb2 as (cs2 & Hcs2 & Hplain2).
  pose proof (frameTail_written _ _ _ _ _ pN pS clock
                HN1 Hname HS1 Hclock Hclock1 H) as [Hself Hw].
  subst self'.
  exists (mkChunk (indentLevel buff) (updatesLine (Param_str pN) +:+ nl) ::
          cs1 ++ cs0 ++ cs2),
    (indentLevel b2 + - n2), clock.
  split; [|split; [done|split; [done|]]].
  - apply Forall_cons. split; [apply updatesLine_plain|].
    repeat (apply Forall_app; split); done.
  - apply emitted_app. rewrite Hw.
    cbn [written setIndentLevel writeIndented indentLevel].
    rewrite Hcs2. cbn [written setIndentLevel]. rewrite Hcs0, Hcs1.
    cbn [written writeIndented].
    assert (HC : clickableVal self1 = clickableVal self)
      by (unfold clickableVal; now rewrite Hps).
    rewrite HC, <- !app_assoc. cbn [app]. rewrite <- !app_assoc. reflexivity.
Qed.

End FrameFragment.

(** X1. The matrix of the frame code. For every value of
    [forceEndRoutineOnPress] and [saveMouseState] (a one-line name, an
    allowed [timeRelativeTo], plain start and stop tests), what
    [writeFrameCode] writes is: plain chunks, the line
    [if name.status == STARTED:], and under it the chunks [frameBlock]
    gives for the two values and for the truth of [clickable]. *)
Theorem writeFrameCode_fragment `{host : Host}
    (self self' : Component) (buff buff' : IndentingBuffer)
    (pF pS pN pT : Param) :
  writes_plain (params self) writeStartTestCode ->
  writes_plain (params self) writeStopTestCode ->
  params self !! "forceEndRoutineOnPress" = Some pF ->
  params self !! "saveMouseState" = Some pS ->
  params self !! "name" = Some pN ->
  one_line (Param_str pN) ->
  one_line (Val_str (val pN)) ->
  params self !! "timeRelativeTo" = Some pT ->
  val pT ∈ timeRelativeTo_allowed ->
  writeFrameCode self buff = Ok (self', buff') ->
  exists pre L clock,
    Forall plain pre /\
    clockStr self' = Some clock /\
    emitted buff buff' =
      pre ++
      mkChunk L (startedIfLine (Param_str pN) +:+ nl) ::
      frameBlock (val pF) (val pS) (clickableVal self) (Param_str pN) clock
                 (L + 1).
Proof.
  intros Hstart Hstop HF HS HN Hname Hname' HT HTv H.
  destruct (writeFrameCode_block _ _ _ _ _ _ _ _
              Hstart Hstop HF HS HN Hname Hname' HT HTv H)
    as (pre & L & clock & H1 & H2 & _ & H3).
  eauto 10.
Qed.

Lemma writeFrameCode_fragment_witness :
  exists self' buff' pre L clock,
    writeFrameCode (host := ExampleHost.host)
      (ExampleHost.configured (VStr "valid click") (VStr "on valid click")
         (VList ["red"; "blue"]) true (VStr "experiment"))
      Buffer.fresh = Ok (self', buff') /\
    Forall plain pre /\
    clockStr self' = Some clock /\
    emitted Buffer.fresh buff' =
      pre ++
      mkChunk L (startedIfLine "buttonbox" +:+ nl) ::
      frameBlock (VStr "valid click") (VStr "on valid click")
                 (VList ["red"; "blue"]) "buttonbox" clock (L + 1).
Proof.
  destruct (writeFrameCode (host := ExampleHost.host)
      (ExampleHost.configured (VStr "valid click") (VStr "on valid click")
         (VList ["red"; "blue"]) true (VStr "experiment"))
      Buffer.fresh) as [[self' buff']|e] eqn:E;
    [|vm_compute in E; discriminate].
  destruct (example_tests_write_plain (VStr "valid click")
              (VStr "on valid click") (VList ["red"; "blue"]) true
              (VStr "experiment")) as [Hstart Hstop].
  destruct (writeFrameCode_fragment (host := ExampleHost.host)
              (ExampleHost.configured (VStr "valid click")
                 (VStr "on valid click") (VList ["red"; "blue"]) true
                 (VStr "experiment"))
              self' Buffer.fresh buff'
              (ExampleHost.plainParam (VStr "valid click") "str")
              (ExampleHost.plainParam (VStr "on valid click") "str")
              (ExampleHost.plainParam (VStr "buttonbox") "code")
              (ExampleHost.plainParam (VStr "experiment") "str")
              Hstart Hstop)
    as (pre & L & clock & H1 & H2 & H3);
    try (vm_compute; reflexivity); try exact E.
  { apply elem_of_cons. right. apply elem_of_cons. now left. }
  exists self', buff', pre, L, clock. auto.
Defined.

(** X2. [writeFrameCode] leaves the indent level where it found it for
    every pair of values of [saveMouseState] and [forceEndRoutineOnPress]
    other than ['never'] and ['never'], whatever these values are, when the
    start and stop tests return the number of levels they indented by. *)
Theorem writeFrameCode_restores_indent `{host : Host}
    (self self' : Component) (buff buff' : IndentingBuffer) (pF pS : Param) :
  returns_its_indent writeStartTestCode ->
  returns_its_indent writeStopTestCode ->
  params self !! "forceEndRoutineOnPress" = Some pF ->
  params self !! "saveMouseState" = Some pS ->
  val pS <> VStr "never" \/ val pF <> VStr "never" ->
  writeFrameCode self buff = Ok (self', buff') ->
  indentLevel buff' = indentLevel buff.
Proof.
  intros Hstart Hstop HF HS Hne H.
  rewrite (writeFrameCode_indent _ _ _ _ _ _ Hstart Hstop HF HS H).
  rewrite bool_decide_eq_false_2; [lia|]. tauto.
Qed.

Lemma writeFrameCode_restores_indent_witness :
  exists self' buff',
    writeFrameCode (host := ExampleHost.host)
      (ExampleHost.configured (VStr "valid click") (VStr "on valid click")
         (VList ["red"; "blue"]) true (VStr "experiment"))
      Buffer.fresh = Ok (self', buff')
    /\ indentLevel buff' = indentLevel Buffer.fresh.
Proof.
  destruct (writeFrameCode (host := ExampleHost.host)
      (ExampleHost.configured (VStr "valid click") (VStr "on valid click")
         (VList ["red"; "blue"]) true (VStr "experiment"))
      Buffer.fresh) as [[self' buff']|e] eqn:E;
    [|vm_compute in E; discriminate].
  exists self', buff'. split; [reflexivity|].
  eapply (writeFrameCode_restores_indent (host := ExampleHost.host)
            (ExampleHost.configured (VStr "valid click")
               (VStr "on valid click") (VList ["red"; "blue"]) true
               (VStr "experiment"))
            self' Buffer.fresh buff'
            (ExampleHost.plainParam (VStr "valid click") "str")
            (ExampleHost.plainParam (VStr "on valid click") "str")).
  - exact startTest_returns_its_indent.
  - exact stopTest_returns_its_indent.
  - vm_compute. reflexivity.
  - vm_compute. reflexivity.
  - left. discriminate.
  - exact E.
Defined.

(** X3. With [forceEndRoutineOnPress = 'never'] and [saveMouseState] equal
    to ['never'] or ['final'], nothing is written under
    [if name.status == STARTED:]: that line is the last chunk of the
    fragment, an [if] with an empty block, and no button-press code is
    written. *)
Theorem never_block_is_empty `{host : Host}
    (self self' : Component) (buff buff' : IndentingBuffer)
    (pF pS pN pT : Param) :
  writes_plain (params self) writeStartTestCode ->
  writes_plain (params self) writeStopTestCode ->
  params self !! "forceEndRoutineOnPress" = Some pF ->
  val pF = VStr "never" ->
  params self !! "saveMouseState" = Some pS ->
  val pS ∈ [VStr "never"; VStr "final"] ->
  params self !! "name" = Some pN ->
  one_line (Param_str pN) ->
  one_line (Val_str (val pN)) ->
  params self !! "timeRelativeTo" = Some pT ->
  val pT ∈ timeRelativeTo_allowed ->
  writeFrameCode self buff = Ok (self', buff') ->
  exists pre L,
    Forall plain pre /\
    emitted buff buff' =
      pre ++ [mkChunk L (startedIfLine (Param_str pN) +:+ nl)].
Proof.
  intros Hstart Hstop HF HFv HS HSv HN Hname Hname' HT HTv H.
  destruct (writeFrameCode_block _ _ _ _ _ _ _ _
              Hstart Hstop HF HS HN Hname Hname' HT HTv H)
    as (pre & L & clock & H1 & _ & _ & H3).
  exists pre, L. split; [done|]. rewrite H3. do 2 f_equal.
  unfold frameBlock. rewrite HFv.
  rewrite (bool_decide_eq_false_2 (VStr "never" ≠ VStr "never"))
    by (intros E; now apply E).
  rewrite (bool_decide_eq_true_2 (VStr "never" = VStr "never")) by done.
  rewrite andb_false_r. cbn [andb].
  apply elem_of_cons in HSv as [->|HSv].
  - now rewrite bool_decide_eq_false_2 by (intros E; now apply E).
  - apply elem_of_cons in HSv as [->|HSv]; [|now apply elem_of_nil in HSv].
    rewrite (bool_decide_eq_true_2 (VStr "final" ≠ VStr "never")) by done.
    rewrite (bool_decide_eq_false_2 (VStr "final" ∈ [VStr "every frame"]))
      by (intros E; elem_of_false E).
    rewrite (bool_decide_eq_false_2
               (VStr "final" ∈ [VStr "on click"; VStr "on valid click"]))
      by (intros E; elem_of_false E).
    reflexivity.
Qed.

Lemma never_block_is_empty_witness :
  exists self' buff' pre L,
    writeFrameCode (host := ExampleHost.host)
      (ExampleHost.configured (VStr "never") (VStr "final")
         (VList ["red"; "blue"]) true (VStr "routine"))
      Buffer.fresh = Ok (self', buff') /\
    Forall plain pre /\
    emitted Buffer.fresh buff' =
      pre ++ [mkChunk L (startedIfLine "buttonbox" +:+ nl)].
Proof.
  destruct (writeFrameCode (host := ExampleHost.host)
      (ExampleHost.configured (VStr "never") (VStr "final")
         (VList ["red"; "blue"]) true (VStr "routine"))
      Buffer.fresh) as [[self' buff']|e] eqn:E;
    [|vm_compute in E; discriminate].
  destruct (example_tests_write_plain (VStr "never") (VStr "final")
              (VList ["red"; "blue"]) true (VStr "routine"))
    as [Hstart Hstop].
  destruct (never_block_is_empty (host := ExampleHost.host)
              (ExampleHost.configured (VStr "never") (VStr "final")
                 (VList ["red"; "blue"]) true (VStr "routine"))
              self' Buffer.fresh buff'
              (ExampleHost.plainParam (VStr "never") "str")
              (ExampleHost.plainParam (VStr "final") "str")
              (ExampleHost.plainParam (VStr "buttonbox") "code")
              (ExampleHost.plainParam (VStr "routine") "str")
              Hstart Hstop)
    as (pre & L & H1 & H2);
    try (vm_compute; reflexivity); try exact E.
  { apply elem_of_cons. right. apply elem_of_cons. now left. }
  { apply elem_of_cons. right. apply elem_of_cons. right.
    apply elem_of_cons. now left. }
  exists self', buff', pre, L. auto.
Defined.

(** A line whose last character is not [e] is neither the termination
    statement nor its form behind a guard. *)
Lemma not_termination_line (L : Z) (l : string) :
  last_char l <> Some "e"%char ->
  stmt (mkChunk L (l +:+ nl)) <> endRoutine /\
  stmt (mkChunk L (l +:+ nl)) <> "    " +:+ endRoutine.
Proof.
  intros H. rewrite stmt_line.
  split; apply last_char_neq; rewrite ?last_char_app; cbn; congruence.
Qed.

Ltac not_termination_tac :=
  repeat first
    [ exact I
    | apply Forall_nil
    | apply Forall_cons; split
    | apply Forall_app; split
    | apply not_termination_line; rewrite ?last_char_app; cbn; discriminate ].

Lemma mouseLines_not_termination (name clock : string) (L : Z) :
  Forall (fun c => stmt c <> endRoutine /\ stmt c <> "    " +:+ endRoutine)
         (chunks L (mouseLines name clock)).
Proof. unfold mouseLines, chunks. cbn [map]. not_termination_tac. Qed.

Lemma pressChunks_not_termination (name : string) (L : Z) :
  Forall (fun c => stmt c <> endRoutine /\ stmt c <> "    " +:+ endRoutine)
         (pressChunks name L).
Proof.
  unfold pressChunks, chunks, buttonStateGuard. cbn [map app].
  not_termination_tac.
Qed.

Lemma dataChunks_not_termination save clickable name clock L :
  Forall (fun c => stmt c <> endRoutine /\ stmt c <> "    " +:+ endRoutine)
         (dataChunks save clickable name clock L).
Proof.
  unfold dataChunks.
  destruct (bool_decide (save ∈ [VStr "on click"]));
    [|destruct (truthy clickable && _)]; try apply Forall_nil_2.
  - apply mouseLines_not_termination.
  - apply Forall_app. split; [|apply mouseLines_not_termination].
    unfold chunks. cbn [map]. not_termination_tac.
Qed.

(** X4. With [forceEndRoutineOnPress = 'valid click'], a [saveMouseState]
    other than ['never'] and ['final'], and a [clickable] that is empty
    (as [__init__] leaves it), the block under
    [if name.status == STARTED:] holds the button-press code and the data
    lines and no statement that ends the routine, neither bare nor behind
    [if gotValidClick:]. *)
Theorem valid_click_without_clickable_never_ends `{host : Host}
    (self self' : Component) (buff buff' : IndentingBuffer)
    (pF pS pN pT : Param) :
  writes_plain (params self) writeStartTestCode ->
  writes_plain (params self) writeStopTestCode ->
  params self !! "forceEndRoutineOnPress" = Some pF ->
  val pF = VStr "valid click" ->
  params self !! "saveMouseState" = Some pS ->
  val pS ∉ [VStr "never"; VStr "final"] ->
  truthy (clickableVal self) = false ->
  params self !! "name" = Some pN ->
  one_line (Param_str pN) ->
  one_line (Val_str (val pN)) ->
  params self !! "timeRelativeTo" = Some pT ->
  val pT ∈ timeRelativeTo_allowed ->
  writeFrameCode self buff = Ok (self', buff') ->
  exists pre L block,
    Forall plain pre /\
    emitted buff buff' =
      pre ++ mkChunk L (startedIfLine (Param_str pN) +:+ nl) :: block /\
    Forall (fun c => stmt c <> endRoutine /\ stmt c <> "    " +:+ endRoutine)
           block.
Proof.
  intros Hstart Hstop HF HFv HS HSv HC HN Hname Hname' HT HTv H.
  destruct (writeFrameCode_block _ _ _ _ _ _ _ _
              Hstart Hstop HF HS HN Hname Hname' HT HTv H)
    as (pre & L & clock & H1 & _ & _ & H3).
  eexists pre, L, _. split; [done|]. split; [exact H3|].
  unfold frameBlock. rewrite HFv, HC.
  rewrite (bool_decide_eq_false_2 _ HSv).
  assert (Hnever : val pS ≠ VStr "never").
  { intros E. apply HSv. rewrite E. apply elem_of_cons. now left. }
  rewrite (bool_decide_eq_true_2 _ Hnever).
  rewrite (bool_decide_eq_false_2 (VStr "valid click" = VStr "never"))
    by discriminate.
  rewrite (bool_decide_eq_true_2 (VStr "valid click" ≠ VStr "never"))
    by discriminate.
  rewrite (bool_decide_eq_false_2 (VStr "valid click" = VStr "any click"))
    by discriminate.
  cbn [andb]. rewrite !app_nil_r.
  apply Forall_app. split.
  - destruct (bool_decide (val pS ∈ [VStr "every frame"]));
      [apply mouseLines_not_termination | apply Forall_nil_2].
  - apply Forall_app. split;
      [apply pressChunks_not_termination | apply dataChunks_not_termination].
Qed.

Lemma valid_click_without_clickable_never_ends_witness :
  exists self' buff' pre L block,
    writeFrameCode (host := ExampleHost.host)
      (ExampleHost.configured (VStr "valid click") (VStr "on click")
         (VStr "") true (VStr "routine"))
      Buffer.fresh = Ok (self', buff') /\
    Forall plain pre /\
    emitted Buffer.fresh buff' =
      pre ++ mkChunk L (startedIfLine "buttonbox" +:+ nl) :: block /\
    Forall (fun c => stmt c <> endRoutine /\ stmt c <> "    " +:+ endRoutine)
           block.
Proof.
  destruct (writeFrameCode (host := ExampleHost.host)
      (ExampleHost.configured (VStr "valid click") (VStr "on click")
         (VStr "") true (VStr "routine"))
      Buffer.fresh) as [[self' buff']|e] eqn:E;
    [|vm_compute in E; discriminate].
  destruct (example_tests_write_plain (VStr "valid click") (VStr "on click")
              (VStr "") true (VStr "routine"))
    as [Hstart Hstop].
  destruct (valid_click_without_clickable_never_ends (host := ExampleHost.host)
              (ExampleHost.configured (VStr "valid click") (VStr "on click")
                 (VStr "") true (VStr "routine"))
              self' Buffer.fresh buff'
              (ExampleHost.plainParam (VStr "valid click") "str")
              (ExampleHost.plainParam (VStr "on click") "str")
              (ExampleHost.plainParam (VStr "buttonbox") "code")
              (ExampleHost.plainParam (VStr "routine") "str")
              Hstart Hstop)
    as (pre & L & block & H1 & H2 & H3);
    try (vm_compute; reflexivity); try exact E.
  { intros Hin. elem_of_false Hin. }
  { apply elem_of_cons. right. apply elem_of_cons. right.
    apply elem_of_cons. now left. }
  exists self', buff', pre, L, block. auto.
Defined.

(** X5. With [saveMouseState] equal to ['never'] or ['final'] and
    [forceEndRoutineOnPress = 'correct click'], the frame code is that of
    ['any click']: after the button-press code the termination statement
    is written as it is, with no test of the recorded correctness. *)
Theorem correct_click_without_tracking_ends_on_any_click `{host : Host}
    (self self' : Component) (buff buff' : IndentingBuffer)
    (pF pS pN pT : Param) :
  writes_plain (params self) writeStartTestCode ->
  writes_plain (params self) writeStopTestCode ->
  params self !! "forceEndRoutineOnPress" = Some pF ->
  val pF = VStr "correct click" ->
  params self !! "saveMouseState" = Some pS ->
  val pS ∈ [VStr "never"; VStr "final"] ->
  params self !! "name" = Some pN ->
  one_line (Param_str pN) ->
  one_line (Val_str (val pN)) ->
  params self !! "timeRelativeTo" = Some pT ->
  val pT ∈ timeRelativeTo_allowed ->
  writeFrameCode self buff = Ok (self', buff') ->
  exists pre L clock,
    Forall plain pre /\
    emitted buff buff' =
      pre ++ mkChunk L (startedIfLine (Param_str pN) +:+ nl) ::
      pressChunks (Param_str pN) (L + 1) ++
      [mkChunk (L + 1 + 1 + 1) endRoutine] /\
    frameBlock (VStr "correct click") (val pS) (clickableVal self)
               (Param_str pN) clock (L + 1)
    = frameBlock (VStr "any click") (val pS) (clickableVal self)
                 (Param_str pN) clock (L + 1).
Proof.
  intros Hstart Hstop HF HFv HS HSv HN Hname Hname' HT HTv H.
  destruct (writeFrameCode_block _ _ _ _ _ _ _ _
              Hstart Hstop HF HS HN Hname Hname' HT HTv H)
    as (pre & L & clock & H1 & _ & _ & H3).
  exists pre, L, clock. split; [done|].
  rewrite H3, HFv. unfold frameBlock.
  rewrite (bool_decide_eq_true_2 _ HSv).
  rewrite (bool_decide_eq_true_2 (VStr "correct click" ≠ VStr "never"))
    by discriminate.
  rewrite (bool_decide_eq_true_2 (VStr "any click" ≠ VStr "never"))
    by discriminate.
  rewrite (bool_decide_eq_false_2 (VStr "correct click" = VStr "valid click"))
    by discriminate.
  rewrite (bool_decide_eq_false_2 (VStr "any click" = VStr "valid click"))
    by discriminate.
  cbn [andb]. split; reflexivity.
Qed.

Lemma correct_click_without_tracking_ends_on_any_click_witness :
  exists self' buff' pre L,
    writeFrameCode (host := ExampleHost.host)
      (ExampleHost.configured (VStr "correct click") (VStr "never")
         (VList ["red"; "blue"]) true (VStr "routine"))
      Buffer.fresh = Ok (self', buff') /\
    Forall plain pre /\
    emitted Buffer.fresh buff' =
      pre ++ mkChunk L (startedIfLine "buttonbox" +:+ nl) ::
      pressChunks "buttonbox" (L + 1) ++
      [mkChunk (L + 1 + 1 + 1) endRoutine].
Proof.
  destruct (writeFrameCode (host := ExampleHost.host)
      (ExampleHost.configured (VStr "correct click") (VStr "never")
         (VList ["red"; "blue"]) true (VStr "routine"))
      Buffer.fresh) as [[self' buff']|e] eqn:E;
    [|vm_compute in E; discriminate].
  destruct (example_tests_write_plain (VStr "correct click") (VStr "never")
              (VList ["red"; "blue"]) true (VStr "routine"))
    as [Hstart Hstop].
  destruct (correct_click_without_tracking_ends_on_any_click
              (host := ExampleHost.host)
              (ExampleHost.configured (VStr "correct click") (VStr "never")
                 (VList ["red"; "blue"]) true (VStr "routine"))
              self' Buffer.fresh buff'
              (ExampleHost.plainParam (VStr "correct click") "str")
              (ExampleHost.plainParam (VStr "never") "str")
              (ExampleHost.plainParam (VStr "buttonbox") "code")
              (ExampleHost.plainParam (VStr "routine") "str")
              Hstart Hstop)
    as (pre & L & clock & H1 & H2 & _);
    try (vm_compute; reflexivity); try exact E.
  { apply elem_of_cons. now left. }
  { apply elem_of_cons. right. apply elem_of_cons. right.
    apply elem_of_cons. now left. }
  exists self', buff', pre, L. auto.
Defined.

(** X6. The one thing [writeFrameCode] changes in the component is
    [self.clockStr]: ['globalClock'] when [timeRelativeTo] is
    ['experiment'] up to case, [<name>.buttonboxClock] when it is
    ['routine'] or ['buttonbox onset'] up to case, and what it was before
    for any other value; the parameters and the other attributes are as
    they were. *)
Theorem writeFrameCode_sets_clockStr `{host : Host}
    (self self' : Component) (buff buff' : IndentingBuffer)
    (pT pN : Param) (t : string) :
  params self !! "timeRelativeTo" = Some pT ->
  val pT = VStr t ->
  params self !! "name" = Some pN ->
  writeFrameCode self buff = Ok (self', buff') ->
  clockStr self' =
    (if bool_decide (PyStr.lower t = "experiment") then Some "globalClock"
     else if bool_decide (PyStr.lower t ∈ ["routine"; "buttonbox onset"])
          then Some (Val_str (val pN) +:+ ".buttonboxClock")
          else clockStr self) /\
  params self' = params self /\ exp self' = exp self /\
  type self' = type self /\ url self' = url self /\
  order self' = order self /\
  _clickableParamsList self' = _clickableParamsList self.
Proof.
  intros HT Ht HN H.
  apply writeFrameCode_returns_self in H
    as (pF & pT' & tr & _ & HT' & Htr & Hstep).
  apply getParam_Ok in HT'. rewrite HT in HT'. injection HT' as <-.
  rewrite Ht in Htr. injection Htr as <-.
  change (frameClock (PyStr.lower t) self = Ok self') in Hstep.
  split; [|now apply frameClock_fields in Hstep].
  unfold frameClock in Hstep.
  destruct (bool_decide (PyStr.lower t = "experiment")).
  - now injection Hstep as <-.
  - destruct (bool_decide (PyStr.lower t ∈ ["routine"; "buttonbox onset"])).
    + lookup HN in Hstep. now injection Hstep as <-.
    + now injection Hstep as <-.
Qed.

Lemma writeFrameCode_sets_clockStr_witness :
  exists self' buff',
    writeFrameCode (host := ExampleHost.host)
      (ExampleHost.configured (VStr "any click") (VStr "on click")
         (VList ["red"; "blue"]) true (VStr "Routine"))
      Buffer.fresh = Ok (self', buff') /\
    clockStr self' = Some "buttonbox.buttonboxClock".
Proof.
  destruct (writeFrameCode (host := ExampleHost.host)
      (ExampleHost.configured (VStr "any click") (VStr "on click")
         (VList ["red"; "blue"]) true (VStr "Routine"))
      Buffer.fresh) as [[self' buff']|e] eqn:E;
    [|vm_compute in E; discriminate].
  exists self', buff'. split; [reflexivity|].
  destruct (writeFrameCode_sets_clockStr (host := ExampleHost.host)
              (ExampleHost.configured (VStr "any click") (VStr "on click")
                 (VList ["red"; "blue"]) true (VStr "Routine"))
              self' Buffer.fresh buff'
              (ExampleHost.plainParam (VStr "Routine") "str")
              (ExampleHost.plainParam (VStr "buttonbox") "code")
              "Routine") as [H _];
    try (vm_compute; reflexivity); try exact E.
  rewrite H. reflexivity.
Defined.

(** X7. The clock string is only set for the three values of
    [timeRelativeTo]. For any other value, on a component whose
    [clockStr] was never set, [writeFrameCode] cannot write the data
    lines: with a [saveMouseState] other than ['never'] and ['final'] it
    raises. *)
Theorem writeFrameCode_without_clock_raises `{host : Host}
    (self : Component) (pT pS : Param) (t : string) :
  clockStr self = None ->
  params self !! "timeRelativeTo" = Some pT ->
  val pT = VStr t ->
  PyStr.lower t <> "experiment" ->
  PyStr.lower t ∉ ["routine"; "buttonbox onset"] ->
  params self !! "saveMouseState" = Some pS ->
  val pS ∉ [VStr "never"; VStr "final"] ->
  forall buff, exists e, writeFrameCode self buff = Raise e.
Proof.
  intros Hclock HT Ht Hexp Hrt HS HSv buff.
  destruct (writeFrameCode self buff) as [r|e] eqn:E; [|eauto].
  exfalso.
  apply writeFrameCode_inv in E
    as (pF & pT' & tr & self1 & pN & b1 & n1 & b1' & b2 & n2 &
        _ & HT' & Htr & Hclk & HN & _ & _ & _ & H).
  rewrite HT in HT'. injection HT' as <-.
  rewrite Ht in Htr. injection Htr as <-.
  unfold frameClock in Hclk.
  rewrite (bool_decide_eq_false_2 _ Hexp),
          (bool_decide_eq_false_2 _ Hrt) in Hclk.
  injection Hclk as <-.
  unfold frameTail in H. lookup HS in H.
  rewrite (bool_decide_eq_false_2 _ HSv) in H. cbn [andb] in H.
  rewrite bool_decide_eq_true_2 in H.
  2:{ intros Hn. apply HSv. rewrite Hn. apply elem_of_cons. now left. }
  lookup HN in H. unfold getattr_clockStr in H. rewrite Hclock in H.
  discriminate H.
Qed.

Lemma writeFrameCode_without_clock_raises_witness :
  exists e,
    writeFrameCode (host := ExampleHost.host)
      (ExampleHost.configured (VStr "any click") (VStr "on click")
         (VList ["red"; "blue"]) true (VStr "trial"))
      Buffer.fresh = Raise e.
Proof.
  apply (writeFrameCode_without_clock_raises (host := ExampleHost.host)
           (ExampleHost.configured (VStr "any click") (VStr "on click")
              (VList ["red"; "blue"]) true (VStr "trial"))
           (ExampleHost.plainParam (VStr "trial") "str")
           (ExampleHost.plainParam (VStr "on click") "str")
           "trial").
  - reflexivity.
  - vm_compute. reflexivity.
  - reflexivity.
  - discriminate.
  - intros Hin. elem_of_false Hin.
  - vm_compute. reflexivity.
  - intros Hin. elem_of_false Hin.
Defined.

(** ** The end of the routine, line by line *)

(** Case split on the test at the head of a hypothesis. *)
Ltac split_head H :=
  match type of H with
  | (if ?c then _ else _) = _ => destruct c eqn:?
  | (if ?c then _ else _) ≫= _ = _ => destruct c eqn:?
  end.

Section RoutineEndLines.

Context `{host : Host}.

Lemma if_same {A} (b : bool) (x : A) : (if b then x else x) = x.
Proof. now destruct b. Qed.

(** The loop over [mouseDataProps]: one [addData] line per property. *)
Lemma addData_fold (l : Loop) (name : Param) (store forceEnd : Val)
    (props : list string) (pL : Param) (b : IndentingBuffer) :
  loopNameParam l = Ok pL ->
  foldl (fun acc property =>
           buff ← acc;
           pL ← loopNameParam l;
           if bool_decide (store = VStr "every frame")
              || bool_decide (forceEnd = VStr "never") then
             Ok (writeIndented
                   (addDataLine (Param_str pL) (Param_str name) property) buff)
           else
             Ok (writeIndented
                   (addDataLine (Param_str pL) (Param_str name) property) buff))
        (Ok b) props
  = Ok (mkBuffer (indentLevel b)
          (written b ++
           map (fun property =>
                  mkChunk (indentLevel b)
                    (addDataLine (Param_str pL) (Param_str name) property))
               props)).
Proof.
  intros HL.
  match goal with |- foldl ?g _ _ = _ => set (f := g) end.
  assert (Hstep : forall b property,
             f (Ok b) property
             = Ok (writeIndented
                     (addDataLine (Param_str pL) (Param_str name) property) b)).
  { intros b0 property. unfold f. cbn [mbind result_bind]. rewrite HL.
    cbn [mbind result_bind]. apply if_same. }
  clearbody f. revert b. induction props as [|p props IH]; intros b.
  - cbn. rewrite app_nil_r. now destruct b.
  - change (foldl f (Ok b) (p :: props)) with (foldl f (f (Ok b) p) props).
    rewrite Hstep, IH. cbn [indentLevel written writeIndented map].
    now rewrite <- app_assoc.
Qed.

Lemma indentLevel_fold_writeIndentedLines {A} (f : A -> string)
    (l : list A) buff :
  indentLevel (fold_left (fun b a => writeIndentedLines (f a) b) l buff)
  = indentLevel buff.
Proof.
  revert buff. induction l as [|a l IH]; intros buff; [done|].
  cbn [fold_left]. rewrite IH. apply indentLevel_writeIndentedLines.
Qed.

(** X8. [writeRoutineEndCode] leaves the indent level where it found it,
    for every configuration, when the clicked-objects generator and the
    parent class do. *)
Theorem writeRoutineEndCode_keeps_indent
    (self self' : Component) (buff buff' : IndentingBuffer) :
  keeps_indent _writeClickableObjectsCode ->
  keeps_indent BaseComponent_writeRoutineEndCode ->
  writeRoutineEndCode self buff = Ok (self', buff') ->
  indentLevel buff' = indentLevel buff.
Proof.
  intros Hclick Hbase H. unfold writeRoutineEndCode in H.
  bind_inv H as pN HN. bind_inv H as pS HS. cbv zeta in H.
  split_head H.
  { now injection H as <- <-. }
  bind_inv H as pF HF. bind_inv H as code Hcode. bind_inv H as b1 Hb1.
  bind_inv H as b2 Hb2. bind_inv H as pL HL.
  apply Hbase in Hb2.
  assert (Hend : indentLevel buff' = indentLevel b2).
  { split_head H; now injection H as <- <-. }
  rewrite Hend, Hb2. clear H Hend Hb2.
  split_head Hb1.
  - bind_inv Hb1 as pC HC. bind_inv Hb1 as b3 Hb3.
    assert (H3 : indentLevel b3 = indentLevel buff).
    { split_head Hb3.
      - bind_inv Hb3 as b4 Hb4. apply Hclick in Hb4. injection Hb3 as <-.
        autorewrite with indent in *. lia.
      - injection Hb3 as <-. now autorewrite with indent. }
    split_head Hb1.
    + bind_inv Hb1 as pSC HSC. bind_inv Hb1 as pL' HL'.
      split_head Hb1.
      * bind_inv Hb1 as l Hl. injection Hb1 as <-.
        rewrite indentLevel_fold_writeIndentedLines.
        now autorewrite with indent.
      * injection Hb1 as <-. now autorewrite with indent.
    + now injection Hb1 as <-.
  - split_head Hb1.
    + bind_inv Hb1 as pSC HSC. bind_inv Hb1 as pC HC.
      bind_inv Hb1 as props Hprops.
      rewrite (addData_fold _ _ _ _ _ pL) in Hb1 by exact HL.
      injection Hb1 as <-. cbn [indentLevel]. now autorewrite with indent.
    + injection Hb1 as <-. now autorewrite with indent.
Qed.

Lemma loopNameParam_Ok (l : Loop) (pL : Param) :
  loop_params l !! "name" = Some pL -> loopNameParam l = Ok pL.
Proof. unfold loopNameParam. now intros ->. Qed.

(** With a loop that has a name the opening comment is always there. *)
Lemma routineEndComment_Ok (l : Loop) (pL : Param) :
  loop_params l !! "name" = Some pL ->
  exists code, routineEndComment l = Ok code.
Proof.
  intros HL. unfold routineEndComment.
  destruct (bool_decide (loop_type l = "StairHandler")); [eauto|].
  rewrite (loopNameParam_Ok _ _ HL). cbn. eauto.
Qed.

(** Closes a run that ends with the parent's code and the [nextEntry]
    test, given the name of the loop. *)
Ltac finish_routine_end HL :=
  cbn [mbind result_bind];
  match goal with
  | |- context [BaseComponent_writeRoutineEndCode ?ps ?b] =>
      destruct (BaseComponent_writeRoutineEndCode ps b)
  end;
  cbn [mbind result_bind];
  rewrite ?(loopNameParam_Ok _ _ HL); cbn [mbind result_bind];
  try match goal with |- context [bool_decide ?P] => destruct (bool_decide P) end;
  reflexivity.

(** X9. For every [saveMouseState] other than ['nothing'], ['final'] and
    ['never'], [writeRoutineEndCode] writes, after its opening comment, one
    [addData] line per stored property and nothing else of its own: the six
    tracked properties, [corr] when [storeCorrect] holds, and one
    [clicked_<param>] per clickable parameter when there are clickable
    buttons. The line has the same text whatever [forceEndRoutineOnPress]
    and [saveMouseState] are (the two branches of the source write the same
    code). The parent's code and the [nextEntry] call follow. *)
Theorem writeRoutineEndCode_stored_props (self : Component)
    (buff : IndentingBuffer) (pN pS pF pSC pC pL : Param) (code : string)
    (l : list string) :
  params self !! "name" = Some pN ->
  params self !! "saveMouseState" = Some pS ->
  params self !! "forceEndRoutineOnPress" = Some pF ->
  params self !! "storeCorrect" = Some pSC ->
  params self !! "clickable" = Some pC ->
  loop_params (currLoop self) !! "name" = Some pL ->
  routineEndComment (currLoop self) = Ok code ->
  (truthy (val pC) = true -> _clickableParamsList self = Some l) ->
  val pS ∉ [VStr "nothing"; VStr "final"; VStr "never"] ->
  writeRoutineEndCode self buff =
    buff1 ← BaseComponent_writeRoutineEndCode (params self)
      (mkBuffer (indentLevel buff)
         (written (writeIndentedLines code buff) ++
          map (fun property =>
                 mkChunk (indentLevel buff)
                   (addDataLine (Param_str pL) (Param_str pN) property))
              (storedProps (Param_bool pSC) (truthy (val pC)) l)));
    Ok (self,
        if bool_decide (val pL = VStr (loop_name (_expHandler (exp self))))
        then writeIndented (loop_name (_expHandler (exp self)) +:+
                            ".nextEntry()" +:+ nl) buff1
        else buff1).
Proof.
  intros HN HS HF HSC HC HL Hcode Hl Hnot.
  apply not_elem_of_cons in Hnot as [Hnothing Hnot].
  apply not_elem_of_cons in Hnot as [Hfinal Hnot].
  apply not_elem_of_cons in Hnot as [Hnever _].
  unfold writeRoutineEndCode. lookup HN. lookup HS. cbv zeta.
  rewrite (bool_decide_eq_false_2 (val pS = VStr "nothing")) by done.
  lookup HF. rewrite Hcode. cbn [mbind result_bind].
  rewrite (bool_decide_eq_false_2 (val pS = VStr "final")) by done.
  rewrite (bool_decide_eq_true_2 (val pS ≠ VStr "never")) by done.
  lookup HSC. lookup HC.
  unfold storedProps.
  destruct (truthy (val pC)) eqn:Ht.
  - unfold getattr_clickableParamsList. rewrite (Hl eq_refl).
    cbn [mbind result_bind].
    rewrite (addData_fold _ _ _ _ _ pL) by now apply loopNameParam_Ok.
    rewrite indentLevel_writeIndentedLines. finish_routine_end HL.
  - cbn [mbind result_bind]. rewrite app_nil_r.
    rewrite (addData_fold _ _ _ _ _ pL) by now apply loopNameParam_Ok.
    rewrite indentLevel_writeIndentedLines. finish_routine_end HL.
Qed.

(** X10. With [saveMouseState = 'final'] and no clickable buttons,
    [writeRoutineEndCode] writes, after its opening comment, the two lines
    that read the position and the buttons, and then the [addData] lines
    for [x], [y] and the three buttons (and [corr] when [storeCorrect]
    holds) unless the loop is a [StairHandler], for which nothing is
    stored. The button time is not stored, and the clicked-objects
    generator is not called. *)
Theorem writeRoutineEndCode_final_lines (self : Component)
    (buff : IndentingBuffer) (pN pS pF pSC pC pL : Param) (code : string) :
  params self !! "name" = Some pN ->
  one_line (Param_str pN) ->
  params self !! "saveMouseState" = Some pS ->
  params self !! "forceEndRoutineOnPress" = Some pF ->
  params self !! "storeCorrect" = Some pSC ->
  params self !! "clickable" = Some pC ->
  loop_params (currLoop self) !! "name" = Some pL ->
  one_line (Param_str pL) ->
  routineEndComment (currLoop self) = Ok code ->
  val pS = VStr "final" ->
  truthy (val pC) = false ->
  writeRoutineEndCode self buff =
    buff1 ← BaseComponent_writeRoutineEndCode (params self)
      (mkBuffer (indentLevel buff)
         (written (writeIndentedLines code buff) ++
          chunks (indentLevel buff) (finalReadLines (Param_str pN)) ++
          if bool_decide (loop_type (currLoop self) ≠ "StairHandler")
          then chunks (indentLevel buff)
                 (finalAddDataLines (Param_str pL) (Param_str pN)
                    (Param_bool pSC))
          else []));
    Ok (self,
        if bool_decide (val pL = VStr (loop_name (_expHandler (exp self))))
        then writeIndented (loop_name (_expHandler (exp self)) +:+
                            ".nextEntry()" +:+ nl) buff1
        else buff1).
Proof.
  intros HN Hname HS HF HSC HC HL Hloop Hcode Hfinal Hclick.
  unfold writeRoutineEndCode. lookup HN. lookup HS. cbv zeta.
  rewrite Hfinal.
  rewrite (bool_decide_eq_false_2 (VStr "final" = VStr "nothing"))
    by discriminate.
  lookup HF. rewrite Hcode. cbn [mbind result_bind].
  rewrite (bool_decide_eq_true_2 (VStr "final" = VStr "final")) by done.
  lookup HC. rewrite Hclick. cbn [mbind result_bind].
  rewrite (writeIndentedLines_lines _ (finalReadLines (Param_str pN)));
    [ | unfold finalReadLines; unlines_eq | discriminate
      | unfold finalReadLines; one_line_tac ].
  rewrite indentLevel_writeIndentedLines.
  destruct (bool_decide (loop_type (currLoop self) ≠ "StairHandler")).
  - lookup HSC. rewrite (loopNameParam_Ok _ _ HL). cbn [mbind result_bind].
    rewrite (writeIndentedLines_lines _
               (finalAddDataLines (Param_str pL) (Param_str pN)
                  (Param_bool pSC)));
      [ | unfold finalAddDataLines; destruct (Param_bool pSC); unlines_eq
        | unfold finalAddDataLines; discriminate
        | unfold finalAddDataLines; destruct (Param_bool pSC); cbn [app];
          one_line_tac ].
    cbn [indentLevel written]. rewrite <- app_assoc.
    finish_routine_end HL.
  - rewrite app_nil_r. finish_routine_end HL.
Qed.

(** X11. When data are stored at the end of the routine
    ([saveMouseState] other than ['nothing'], ['final'] and ['never']) and
    there are clickable buttons, [writeRoutineEndCode] reads
    [self._clickableParamsList], which this class never sets: on a
    component without it the method raises [AttributeError], after every
    parameter it needs was found. *)
Theorem writeRoutineEndCode_needs_clickableParamsList (self : Component)
    (buff : IndentingBuffer) (pN pS pF pSC pC pL : Param) :
  params self !! "name" = Some pN ->
  params self !! "saveMouseState" = Some pS ->
  params self !! "forceEndRoutineOnPress" = Some pF ->
  params self !! "storeCorrect" = Some pSC ->
  params self !! "clickable" = Some pC ->
  loop_params (currLoop self) !! "name" = Some pL ->
  val pS ∉ [VStr "nothing"; VStr "final"; VStr "never"] ->
  truthy (val pC) = true ->
  _clickableParamsList self = None ->
  writeRoutineEndCode self buff = Raise (AttributeError "_clickableParamsList").
Proof.
  intros HN HS HF HSC HC HL Hnot Hclick Hnone.
  apply not_elem_of_cons in Hnot as [Hnothing Hnot].
  apply not_elem_of_cons in Hnot as [Hfinal Hnot].
  apply not_elem_of_cons in Hnot as [Hnever _].
  destruct (routineEndComment_Ok _ _ HL) as [code Hcode].
  unfold writeRoutineEndCode. lookup HN. lookup HS. cbv zeta.
  rewrite (bool_decide_eq_false_2 (val pS = VStr "nothing")) by done.
  lookup HF. rewrite Hcode. cbn [mbind result_bind].
  rewrite (bool_decide_eq_false_2 (val pS = VStr "final")) by done.
  rewrite (bool_decide_eq_true_2 (val pS ≠ VStr "never")) by done.
  lookup HSC. lookup HC. rewrite Hclick.
  unfold getattr_clickableParamsList. rewrite Hnone. reflexivity.
Qed.

(** X12. A component as [__init__] leaves it has no [saveMouseState]
    parameter unless the base class defines one: with a base class that
    defines [name] and not [saveMouseState], [writeRoutineEndCode] on the
    constructed component raises [KeyError] for [saveMouseState], whatever
    the arguments of the constructor were. *)
Theorem writeRoutineEndCode_after___init___raises
    (exp : Experiment) (parentName : string)
    (name startType startVal stopType stopVal startEstim durationEstim
     save forceEnd lights clickable timeRelativeTo : Val)
    (base self : Component) (pN : Param) (buff : IndentingBuffer) :
  BaseComponent_init exp parentName name startType startVal stopType
                     stopVal startEstim durationEstim = Ok base ->
  params base !! "name" = Some pN ->
  params base !! "saveMouseState" = None ->
  __init__ exp parentName name startType startVal stopType stopVal
           startEstim durationEstim save forceEnd lights clickable
           timeRelativeTo = Ok self ->
  writeRoutineEndCode self buff = Raise (KeyError "saveMouseState").
Proof.
  intros Hbase HN Hnone H.
  apply __init___Ok in H as (base' & Hbase' & _ & _ & Hps & _).
  rewrite Hbase in Hbase'. injection Hbase' as <-.
  assert (HNs : params self !! "name" = Some pN).
  { rewrite Hps, !lookup_insert_ne by discriminate. exact HN. }
  assert (HSs : params self !! "saveMouseState" = None).
  { rewrite Hps, !lookup_insert_ne by discriminate. exact Hnone. }
  unfold writeRoutineEndCode. lookup HNs.
  unfold getParam. now rewrite HSs.
Qed.

End RoutineEndLines.

Lemma example_clickableObjects_keeps_indent :
  keeps_indent ExampleHost.clickableObjects.
Proof.
  intros ps buff buff' H. unfold ExampleHost.clickableObjects in H.
  injection H as <-. apply indentLevel_writeIndentedLines.
Qed.

Lemma example_baseRoutineEnd_keeps_indent :
  keeps_indent ExampleHost.baseRoutineEnd.
Proof. intros ps buff buff' H. now injection H as <-. Qed.

Lemma writeRoutineEndCode_keeps_indent_witness :
  exists self' buff',
    writeRoutineEndCode (host := ExampleHost.host)
      (ExampleHost.configured (VStr "valid click") (VStr "final")
         (VList ["red"]) true (VStr "buttonbox onset"))
      (mkBuffer 2 []) = Ok (self', buff') /\
    indentLevel buff' = 2.
Proof.
  destruct (writeRoutineEndCode (host := ExampleHost.host)
      (ExampleHost.configured (VStr "valid click") (VStr "final")
         (VList ["red"]) true (VStr "buttonbox onset"))
      (mkBuffer 2 [])) as [[self' buff']|e] eqn:E;
    [|vm_compute in E; discriminate].
  exists self', buff'. split; [reflexivity|].
  apply (writeRoutineEndCode_keeps_indent (host := ExampleHost.host)
           _ _ (mkBuffer 2 []) _
           example_clickableObjects_keeps_indent
           example_baseRoutineEnd_keeps_indent E).
Defined.

Lemma writeRoutineEndCode_stored_props_witness :
  ExampleHost.listing
    (writeRoutineEndCode (host := ExampleHost.host)
       (ExampleHost.configured (VStr "valid click") (VStr "on click")
          (VList ["red"]) true (VStr "buttonbox onset"))
       Buffer.fresh)
  = Some
      [(0, "# store data for trials (TrialHandler)");
       (0, "trials.addData('buttonbox.x', buttonbox.x)");
       (0, "trials.addData('buttonbox.y', buttonbox.y)");
       (0, "trials.addData('buttonbox.leftButton', buttonbox.leftButton)");
       (0, "trials.addData('buttonbox.midButton', buttonbox.midButton)");
       (0, "trials.addData('buttonbox.rightButton', buttonbox.rightButton)");
       (0, "trials.addData('buttonbox.time', buttonbox.time)");
       (0, "trials.addData('buttonbox.corr', buttonbox.corr)");
       (0, "trials.addData('buttonbox.clicked_name', buttonbox.clicked_name)")].
Proof.
  rewrite (writeRoutineEndCode_stored_props (host := ExampleHost.host)
             (ExampleHost.configured (VStr "valid click") (VStr "on click")
                (VList ["red"]) true (VStr "buttonbox onset"))
             Buffer.fresh
             (ExampleHost.plainParam (VStr "buttonbox") "code")
             (ExampleHost.plainParam (VStr "on click") "str")
             (ExampleHost.plainParam (VStr "valid click") "str")
             (ExampleHost.plainParam (VBool true) "bool")
             (ExampleHost.plainParam (VList ["red"]) "list")
             (ExampleHost.plainParam (VStr "trials") "code")
             ("# store data for trials (TrialHandler)" +:+ nl)
             ["name"]).
  - vm_compute. reflexivity.
  - vm_compute. reflexivity.
  - vm_compute. reflexivity.
  - vm_compute. reflexivity.
  - vm_compute. reflexivity.
  - vm_compute. reflexivity.
  - vm_compute. reflexivity.
  - vm_compute. reflexivity.
  - reflexivity.
  - intros Hin. elem_of_false Hin.
Defined.

Lemma writeRoutineEndCode_final_lines_witness :
  ExampleHost.listing
    (writeRoutineEndCode (host := ExampleHost.host)
       (ExampleHost.configured (VStr "valid click") (VStr "final")
          (VStr "") true (VStr "buttonbox onset"))
       Buffer.fresh)
  = Some
      [(0, "# store data for trials (TrialHandler)");
       (0, "x, y = buttonbox.getPos()");
       (0, "buttons = buttonbox.getPressed()");
       (0, "trials.addData('buttonbox.x', x)");
       (0, "trials.addData('buttonbox.y', y)");
       (0, "trials.addData('buttonbox.leftButton', buttons[0])");
       (0, "trials.addData('buttonbox.midButton', buttons[1])");
       (0, "trials.addData('buttonbox.rightButton', buttons[2])");
       (0, "trials.addData('buttonbox.corr', buttonbox.corr)")].
Proof.
  rewrite (writeRoutineEndCode_final_lines (host := ExampleHost.host)
             (ExampleHost.configured (VStr "valid click") (VStr "final")
                (VStr "") true (VStr "buttonbox onset"))
             Buffer.fresh
             (ExampleHost.plainParam (VStr "buttonbox") "code")
             (ExampleHost.plainParam (VStr "final") "str")
             (ExampleHost.plainParam (VStr "valid click") "str")
             (ExampleHost.plainParam (VBool true) "bool")
             (ExampleHost.plainParam (VStr "") "list")
             (ExampleHost.plainParam (VStr "trials") "code")
             ("# store data for trials (TrialHandler)" +:+ nl)).
  - vm_compute. reflexivity.
  - vm_compute. reflexivity.
  - reflexivity.
  - vm_compute. reflexivity.
  - vm_compute. reflexivity.
  - vm_compute. reflexivity.
  - vm_compute. reflexivity.
  - vm_compute. reflexivity.
  - reflexivity.
  - vm_compute. reflexivity.
  - reflexivity.
  - reflexivity.
Defined.

Lemma writeRoutineEndCode_needs_clickableParamsList_witness :
  writeRoutineEndCode (host := ExampleHost.host)
    (without_clickableParamsList
       (ExampleHost.configured (VStr "valid click") (VStr "on click")
          (VList ["red"]) true (VStr "buttonbox onset")))
    Buffer.fresh
  = Raise (AttributeError "_clickableParamsList").
Proof.
  apply (writeRoutineEndCode_needs_clickableParamsList
           (host := ExampleHost.host)
           (without_clickableParamsList
              (ExampleHost.configured (VStr "valid click") (VStr "on click")
                 (VList ["red"]) true (VStr "buttonbox onset")))
           Buffer.fresh
           (ExampleHost.plainParam (VStr "buttonbox") "code")
           (ExampleHost.plainParam (VStr "on click") "str")
           (ExampleHost.plainParam (VStr "valid click") "str")
           (ExampleHost.plainParam (VBool true) "bool")
           (ExampleHost.plainParam (VList ["red"]) "list")
           (ExampleHost.plainParam (VStr "trials") "code")).
  - vm_compute. reflexivity.
  - vm_compute. reflexivity.
  - vm_compute. reflexivity.
  - vm_compute. reflexivity.
  - vm_compute. reflexivity.
  - vm_compute. reflexivity.
  - intros Hin. elem_of_false Hin.
  - reflexivity.
  - reflexivity.
Defined.

Lemma writeRoutineEndCode_after___init___raises_witness :
  exists self,
    ExampleHost.construct (VStr "any click") (VStr "buttonbox onset") = Ok self
    /\ writeRoutineEndCode (host := ExampleHost.host) self Buffer.fresh
       = Raise (KeyError "saveMouseState").
Proof.
  destruct (ExampleHost.construct (VStr "any click") (VStr "buttonbox onset"))
    as [self|e] eqn:E; [|vm_compute in E; discriminate].
  exists self. split; [reflexivity|].
  unfold ExampleHost.construct in E.
  eapply (writeRoutineEndCode_after___init___raises (host := ExampleHost.host));
    [ | | | exact E]; [reflexivity | vm_compute; reflexivity
                       | vm_compute; reflexivity].
Defined.

(** ** The body of [writeInitCode] *)

(** X13. The body of [writeInitCode] writes one line, and that line is a
    comment: the four literals of the template are adjacent and only the
    last one ends with a newline, so the import, the construction of the
    device and the clock all follow [#initialize buttonbox] on the same
    line. The component is not changed. *)
Theorem writeInitCode_fget_one_comment `{host : Host}
    (self : Component) (buff : IndentingBuffer) (pN : Param) :
  params self !! "name" = Some pN ->
  one_line (Param_str pN) ->
  writeInitCode_fget self buff
  = Ok (self,
        mkBuffer (indentLevel buff)
          (written buff ++
           [mkChunk (indentLevel buff) (initLine (Param_str pN) +:+ nl)])) /\
  PyStr.startswith (initLine (Param_str pN)) "#" = true /\
  one_line (initLine (Param_str pN)).
Proof.
  intros HN Hname.
  assert (Hline : one_line (initLine (Param_str pN))).
  { unfold initLine. one_line_tac. }
  split; [|split; [reflexivity | exact Hline]].
  unfold writeInitCode_fget, format_params. lookup HN.
  rewrite (writeIndentedLines_lines _ [initLine (Param_str pN)]).
  - reflexivity.
  - unfold initLine. unlines_eq.
  - discriminate.
  - one_line_tac.
Qed.

Lemma writeInitCode_fget_one_comment_witness :
  ExampleHost.listing
    (writeInitCode_fget (host := ExampleHost.host)
       (ExampleHost.configured (VStr "any click") (VStr "on click")
          (VList ["red"]) true (VStr "buttonbox onset"))
       Buffer.fresh)
  = Some [(0, initLine "buttonbox")].
Proof.
  destruct (writeInitCode_fget_one_comment (host := ExampleHost.host)
              (ExampleHost.configured (VStr "any click") (VStr "on click")
                 (VList ["red"]) true (VStr "buttonbox onset"))
              Buffer.fresh
              (ExampleHost.plainParam (VStr "buttonbox") "code"))
    as (H & _ & _).
  - vm_compute. reflexivity.
  - reflexivity.
  - rewrite H. vm_compute. reflexivity.
Defined.

(** ** What the constructor does with its arguments *)

(** X14. [__init__] does not use its arguments [save], [lights] and
    [clickable]: a construction that succeeds gives the same component for
    any other values of the three, and the component holds
    [lights = True] and [clickable = ''], so that [clickable] is false on
    every constructed component. *)
Theorem __init___discards_lights_clickable `{host : Host}
    (exp : Experiment) (parentName : string)
    (name startType startVal stopType stopVal startEstim durationEstim
     save forceEnd lights clickable timeRelativeTo : Val)
    (save' lights' clickable' : Val) (self : Component) :
  __init__ exp parentName name startType startVal stopType stopVal
           startEstim durationEstim save forceEnd lights clickable
           timeRelativeTo = Ok self ->
  __init__ exp parentName name startType startVal stopType stopVal
           startEstim durationEstim save' forceEnd lights' clickable'
           timeRelativeTo = Ok self /\
  (exists p, params self !! "lights" = Some p /\ val p = VBool true) /\
  (exists p, params self !! "clickable" = Some p /\ val p = VStr "") /\
  truthy (clickableVal self) = false.
Proof.
  intros H. split; [exact H|].
  apply __init___Ok in H as (base & _ & _ & _ & Hps & _).
  assert (HC : params self !! "clickable"
               = Some (mkParam (VStr "") "list" "single" "Basic" []
                               "constant" true)).
  { rewrite Hps. apply lookup_insert_eq. }
  split; [|split].
  - exists (mkParam (VBool true) "bool" "bool" "Basic" [] "constant" true).
    split; [|reflexivity]. rewrite Hps.
    rewrite !lookup_insert_ne by discriminate. apply lookup_insert_eq.
  - eexists. split; [exact HC | reflexivity].
  - unfold clickableVal. now rewrite HC.
Qed.

Lemma __init___discards_lights_clickable_witness :
  exists self,
    ExampleHost.construct (VStr "any click") (VStr "buttonbox onset") = Ok self
    /\ __init__ (host := ExampleHost.host) ExampleHost.experiment "trial"
         (VStr "buttonbox") (VStr "time (s)") (VNum 0) (VStr "duration (s)")
         (VNum 1) (VStr "") (VStr "") (VStr "never") (VStr "any click")
         (VBool false) (VList []) (VStr "buttonbox onset") = Ok self
    /\ truthy (clickableVal self) = false.
Proof.
  destruct (ExampleHost.construct (VStr "any click") (VStr "buttonbox onset"))
    as [self|e] eqn:E; [|vm_compute in E; discriminate].
  exists self. split; [reflexivity|].
  unfold ExampleHost.construct in E.
  destruct (__init___discards_lights_clickable (host := ExampleHost.host)
              _ _ _ _ _ _ _ _ _ _ _ _ _ _
              (VStr "never") (VBool false) (VList []) _ E)
    as (H & _ & _ & Hc).
  split; [exact H | exact Hc].
Defined.

(** ** Lists of names *)

Section Items.

Variable globals : gmap string PyObj.

(** The loop of [getFromNames] over any items: it goes through when every
    item is hashable, and stops with [TypeError] otherwise. *)
Lemma getObjs_items (items : list PyObj)
    (namespace : option (gmap string PyObj)) (objs : list PyObj) :
  Core.getObjs globals items namespace objs
  = if forallb Core.hashable items
    then Ok (objs ++ map (resolveObj (default globals namespace)) items)
    else Raise (TypeError "unhashable type").
Proof.
  revert namespace objs. induction items as [|nm items IH];
    intros namespace objs.
  - cbn. now rewrite app_nil_r.
  - cbn [map Core.getObjs forallb]. unfold Core.dict_get.
    set (ns := match namespace with Some ns => ns | None => globals end).
    assert (Hns : default globals namespace = ns) by now destruct namespace.
    rewrite Hns.
    destruct (Core.hashable nm) eqn:Hh; [|reflexivity].
    assert (Hr : match nm with
                 | OStr s =>
                     match ns !! s with
                     | Some obj => Ok obj
                     | None => Ok nm
                     end
                 | _ => Ok nm
                 end = Ok (resolveObj ns nm)).
    { destruct nm; try reflexivity. unfold resolveObj, Core.resolve.
      now destruct (ns !! s). }
    rewrite Hr. cbn [mbind result_bind andb]. rewrite IH. cbn [default id].
    destruct (forallb Core.hashable items); [|reflexivity].
    now rewrite <- app_assoc.
Qed.

End Items.

(** X15. [getFromNames] on a list or a tuple of any objects: when every
    item is hashable the result has one object per item, in order, a name
    resolved in the namespace and any other object handed back as it is;
    when one item is unhashable (a list, or a tuple that holds one) the
    call raises [TypeError] and gives no objects, not even for the items
    before it. *)
Theorem getFromNames_items
    (globals : gmap string PyObj) (namespace : option (gmap string PyObj))
    (items : list PyObj) :
  Core.getFromNames globals (OList items) namespace
  = (if forallb Core.hashable items
     then Ok (map (resolveObj (default globals namespace)) items)
     else Raise (TypeError "unhashable type")) /\
  Core.getFromNames globals (OTuple items) namespace
  = Core.getFromNames globals (OList items) namespace.
Proof.
  split; [|reflexivity].
  unfold Core.getFromNames. cbn [Core.splitNames Core.asList
    Core.isinstance_str Core.isinstance_Iterable orb negb].
  apply getObjs_items.
Qed.

(** ** Listlike strings and lists *)

(** X16. A listlike string and the list it spells give the same objects.
    For two or more pieces, none with a comma in it, the string of the
    pieces joined with commas, wrapped in square brackets, in round
    brackets, or not wrapped (when it does not begin with a bracket), is
    resolved as the list of the pieces, each stripped of the spaces around
    it and of one pair of quotes: splitting undoes the joining, and one
    pair of brackets is taken off. *)
Theorem getFromNames_listlike_is_list
    (globals : gmap string PyObj) (namespace : option (gmap string PyObj))
    (pieces : list string) :
  (2 <= List.length pieces)%nat ->
  Forall (fun piece => PyStr.contains piece "," = false) pieces ->
  let names := OList (map (fun piece => OStr (Core.cleanName piece)) pieces) in
  Core.getFromNames globals (OStr ("[" +:+ join_comma pieces +:+ "]")) namespace
  = Core.getFromNames globals names namespace /\
  Core.getFromNames globals (OStr ("(" +:+ join_comma pieces +:+ ")")) namespace
  = Core.getFromNames globals names namespace /\
  (PyStr.startswith (join_comma pieces) "[" = false ->
   PyStr.startswith (join_comma pieces) "(" = false ->
   Core.getFromNames globals (OStr (join_comma pieces)) namespace
   = Core.getFromNames globals names namespace).
Proof.
  intros Hlen Hpieces names.
  assert (Hne : pieces <> []) by (destruct pieces; [cbn in Hlen; lia | done]).
  pose proof (contains_join_comma _ Hlen) as Hc.
  split; [|split].
  - apply getFromNames_listlike.
    + change ("[" +:+ join_comma pieces +:+ "]")
        with (String "[" (join_comma pieces +:+ "]")).
      cbn [PyStr.contains]. rewrite contains_app, Hc. now rewrite orb_true_r.
    + rewrite stripParentheses_brackets. now apply split_join_comma.
  - apply getFromNames_listlike.
    + change ("(" +:+ join_comma pieces +:+ ")")
        with (String "(" (join_comma pieces +:+ ")")).
      cbn [PyStr.contains]. rewrite contains_app, Hc. now rewrite orb_true_r.
    + rewrite stripParentheses_parens. now apply split_join_comma.
  - intros H1 H2. apply getFromNames_listlike; [exact Hc|].
    rewrite stripParentheses_bare by done. now apply split_join_comma.
Qed.

Lemma getFromNames_listlike_is_list_witness :
  Core.getFromNames ∅ (OStr "[a, 'b',c ]") (Some {[ "b" := OOpaque 1 ]})
  = Core.getFromNames ∅ (OList [OStr "a"; OStr "b"; OStr "c"])
      (Some {[ "b" := OOpaque 1 ]}).
Proof.
  assert (Hlen : (2 <= List.length ["a"; " 'b'"; "c "])%nat) by (cbn; lia).
  assert (Hp : Forall (fun piece => PyStr.contains piece "," = false)
                 ["a"; " 'b'"; "c "]).
  { repeat (apply Forall_cons; split; [reflexivity|]). apply Forall_nil_2. }
  destruct (getFromNames_listlike_is_list ∅ (Some {[ "b" := OOpaque 1 ]})
              ["a"; " 'b'"; "c "] Hlen Hp) as (H & _ & _).
  exact H.
Defined.

(** ** [shellCall] *)

Section ShellCall.

Variable sys : Shell.System.

(** Items without [bytes] go through the decoding loop as they are. *)
Lemma decodeItems_not_bytes (l acc : list Shell.Arg) :
  Forall Shell.not_bytes l ->
  Shell.decodeItems sys l acc = Shell.Done (acc ++ l).
Proof.
  revert acc. induction l as [|obj l IH]; intros acc H.
  - cbn. now rewrite app_nil_r.
  - apply Forall_cons in H as [Hobj Hl]. cbn [Shell.decodeItems].
    destruct obj; [|contradiction|]; rewrite IH by done;
      now rewrite <- app_assoc.
Qed.



(** X18. A [shellCall] that fails: either it made no call of [Popen], or it
    made one and the failure is that of the process. It makes no call and
    fails with its own [TypeError] for a command that is neither [str],
    [bytes], [list] nor [tuple], whatever the system; and on an
    interpreter whose minor version is below 6 it makes no call, and the
    failure is its own [RuntimeError] when the command was split and holds
    no [bytes]. *)
Theorem shellCall_failure (shellCmd : Shell.Cmd) (stdin : option string)
    (stderr : bool) (env : option (gmap string string))
    (encoding : option string) (calls : list Shell.PopenCall)
    (e : Shell.Exn) :
  Shell.shellCall sys shellCmd stdin stderr env encoding
  = (calls, Shell.Fail e) ->
  (calls = [] \/
   exists cmdObjects,
     calls = [Shell.mkPopenCall cmdObjects
                (default (Shell.getpreferredencoding sys) encoding)
                env stdin] /\
     Shell.communicate sys cmdObjects
       (default (Shell.getpreferredencoding sys) encoding) env stdin
     = Shell.Fail e) /\
  (forall id, shellCmd = Shell.COther id ->
     calls = [] /\
     e = Shell.TypeError "shellCmd requires a string or iterable.") /\
  (Shell.version_minor sys < 6 ->
     calls = [] /\
     forall l, Shell.shellCmdList sys shellCmd = Shell.Done l ->
               Forall Shell.not_bytes l ->
               e = Shell.RuntimeError
                     "shellCall() requires Python 2.7, or 3.6 and newer.").
Proof.
  unfold Shell.shellCall. intros H.
  assert (Henc : match encoding with
                 | Some e => e
                 | None => Shell.getpreferredencoding sys
                 end = default (Shell.getpreferredencoding sys) encoding)
    by now destruct encoding.
  rewrite Henc in H.
  split; [|split].
  - destruct (Shell.shellCmdList sys shellCmd) as [l|e0];
      [|inversion H; now left].
    destruct (Shell.decodeItems sys l []) as [cmdObjects|e0];
      [|inversion H; now left].
    destruct (6 <=? Shell.version_minor sys);
      [|inversion H; now left].
    destruct (Shell.communicate sys cmdObjects _ env stdin)
      as [[stdoutData stderrData]|e0] eqn:Hrun.
    + destruct stderr; discriminate.
    + inversion H; subst. right. exists cmdObjects. now split.
  - intros id ->. cbn in H. now inversion H.
  - intros Hv. apply Z.leb_gt in Hv. rewrite Hv in H.
    destruct (Shell.shellCmdList sys shellCmd) as [l|e0];
      [|inversion H; split; [done|discriminate]].
    destruct (Shell.decodeItems sys l []) as [cmdObjects|e0] eqn:Hdec.
    + inversion H. split; [done|]. reflexivity.
    + inversion H. split; [done|]. intros l' Hl' Hnb. injection Hl' as <-.
      rewrite decodeItems_not_bytes in Hdec by done. discriminate.
Qed.

End ShellCall.


Lemma shellCall_failure_witness :
  Shell.shellCall Shell.echo (Shell.COther 0) (Some "") false None None
  = ([], Shell.Fail (Shell.TypeError "shellCmd requires a string or iterable.")).
Proof.
  destruct (Shell.shellCall Shell.echo (Shell.COther 0) (Some "") false
              None None) as [calls [out|e]] eqn:E;
    [vm_compute in E; discriminate|].
  destruct (shellCall_failure Shell.echo _ _ _ _ _ _ _ E)
    as (_ & H & _).
  destruct (H 0%nat eq_refl) as [-> ->]. reflexivity.
Defined.
